(** * asm80: a two-pass assembler for the 8080 and 8085

    A shallow embedding of [asm80.py] and the properties of its
    translation pipeline: the numeric-literal parsers, the Pass 1 line
    parser, the provisional listing, the Pass 2 resolver and the Intel
    HEX emitter.

    Conventions of the embedding.
    - A Python [str] is a [string]; source text is taken to be 7-bit
      ASCII, which is where the character classes below agree with
      Python's.
    - A Python [int] is a [Z]: the code never wraps the program counter
      or a symbol value.  The limit that recent Python versions put on
      the number of digits [int()] converts is left out.
    - A Python [float] only arises from the division of an EQU expression
      in Pass 2; it is kept as the fraction it was computed from.
    - An uncaught Python exception is the [Raise] outcome of [result];
      a [try ... except] is a match on that outcome.
    - A text file is the string of its characters; reading it yields its
      lines, as Python's file iteration does. *)

From Stdlib Require Import ZArith NArith List String Ascii Bool Lia.
From Stdlib Require Import HexadecimalString DecimalString.
Import ListNotations.

Local Open Scope string_scope.
Local Open Scope Z_scope.

(** ** Exceptions *)

Inductive exn : Type :=
| ValueError
| IndexError
| ZeroDivisionError
| TypeError
| NameError.

Inductive result (A : Type) : Type :=
| Ok (a : A)
| Raise (e : exn).

Arguments Ok {A} a.
Arguments Raise {A} e.

Definition bind {A B : Type} (m : result A) (k : A -> result B) : result B :=
  match m with
  | Ok a => k a
  | Raise e => Raise e
  end.

Notation "x <- m ;; k" := (bind m (fun x => k))
  (at level 61, m at next level, right associativity).
Notation "' p <- m ;; k" := (bind m (fun x => let p := x in k))
  (at level 61, p pattern, m at next level, right associativity).

(** ** Python's built-in string and integer operations *)

Module Py.

Definition squote : ascii := "'"%char.
Definition dquote : ascii := ascii_of_nat 34.
Definition newline : ascii := ascii_of_nat 10.
Definition nl : string := String newline EmptyString.

Definition ord (c : ascii) : Z := Z.of_nat (nat_of_ascii c).

Definition between (lo hi : Z) (c : ascii) : bool :=
  (lo <=? ord c) && (ord c <=? hi).

(** [str.isspace] on one character: TAB..CR, FS..US and the blank. *)
Definition isspace (c : ascii) : bool :=
  between 9 13 c || between 28 31 c || (ord c =? 32).

(** White space as [int()] skips it: TAB..CR and the blank. *)
Definition c_isspace (c : ascii) : bool :=
  between 9 13 c || (ord c =? 32).

Definition isdigit (c : ascii) : bool := between 48 57 c.

Definition isalpha (c : ascii) : bool := between 65 90 c || between 97 122 c.

Definition upper_char (c : ascii) : ascii :=
  if between 97 122 c then ascii_of_nat (nat_of_ascii c - 32) else c.

Fixpoint upper (s : string) : string :=
  match s with
  | EmptyString => EmptyString
  | String c r => String (upper_char c) (upper r)
  end.

Definition len (s : string) : Z := Z.of_nat (String.length s).

(** [s[n:]] for [n >= 0]. *)
Fixpoint from (n : nat) (s : string) : string :=
  match n, s with
  | O, _ => s
  | S n', String _ r => from n' r
  | S _, EmptyString => EmptyString
  end.

(** [s[:n]] for [n >= 0]. *)
Fixpoint upto (n : nat) (s : string) : string :=
  match n, s with
  | O, _ => EmptyString
  | S n', String c r => String c (upto n' r)
  | S _, EmptyString => EmptyString
  end.

(** [s[a:b]] for [0 <= a], [0 <= b]. *)
Definition slice (a b : nat) (s : string) : string :=
  upto (b - a) (from a s).

(** [s[:-1]]. *)
Definition drop_last (s : string) : string :=
  upto (String.length s - 1) s.

(** [s[-2:]]. *)
Definition last2 (s : string) : string :=
  from (String.length s - 2) s.

(** [s[n]]; out of range raises [IndexError]. *)
Definition index (n : nat) (s : string) : result ascii :=
  match String.get n s with
  | Some c => Ok c
  | None => Raise IndexError
  end.

Fixpoint starts_with (p s : string) : bool :=
  match p, s with
  | EmptyString, _ => true
  | String a p', String b s' => Ascii.eqb a b && starts_with p' s'
  | String _ _, EmptyString => false
  end.

(** [s.find(sub)]: the lowest index where [sub] occurs, or [-1]. *)
Fixpoint find (sub s : string) : Z :=
  if starts_with sub s then 0
  else match s with
       | EmptyString => -1
       | String _ r => let i := find sub r in if i <? 0 then -1 else i + 1
       end.

(** [sub in s]. *)
Definition contains (sub s : string) : bool := 0 <=? find sub s.

Fixpoint lstrip (s : string) : string :=
  match s with
  | String c r => if isspace c then lstrip r else s
  | EmptyString => EmptyString
  end.

Fixpoint rstrip (s : string) : string :=
  match s with
  | EmptyString => EmptyString
  | String c r =>
      match rstrip r with
      | EmptyString => if isspace c then EmptyString else String c EmptyString
      | r' => String c r'
      end
  end.

(** [s.replace(c, '')] for a one-character [c]. *)
Fixpoint remove_char (c : ascii) (s : string) : string :=
  match s with
  | EmptyString => EmptyString
  | String a r => if Ascii.eqb a c then remove_char c r
                  else String a (remove_char c r)
  end.

Definition snoc (s : string) (c : ascii) : string := s ++ String c EmptyString.

(** [s.split()]: the maximal runs of non-blank characters. *)
Fixpoint split_ws_aux (cur : string) (s : string) : list string :=
  match s with
  | EmptyString => match cur with EmptyString => [] | _ => [cur] end
  | String c r =>
      if isspace c
      then match cur with
           | EmptyString => split_ws_aux EmptyString r
           | _ => cur :: split_ws_aux EmptyString r
           end
      else split_ws_aux (snoc cur c) r
  end.

Definition split_ws (s : string) : list string := split_ws_aux EmptyString s.

(** [s.split(sep)] and [s.split(sep, k)] for a one-character [sep];
    [k = None] is no limit. *)
Fixpoint split_on_aux (sep : ascii) (k : option nat) (cur : string)
  (s : string) : list string :=
  match s with
  | EmptyString => [cur]
  | String c r =>
      if Ascii.eqb c sep
      then match k with
           | Some O => [cur ++ s]
           | Some (S k') => cur :: split_on_aux sep (Some k') EmptyString r
           | None => cur :: split_on_aux sep None EmptyString r
           end
      else split_on_aux sep k (snoc cur c) r
  end.

Definition split_on (sep : ascii) (k : option nat) (s : string) : list string :=
  split_on_aux sep k EmptyString s.

(** [l[n]] on a list; out of range raises [IndexError]. *)
Definition item {A : Type} (n : nat) (l : list A) : result A :=
  match nth_error l n with
  | Some a => Ok a
  | None => Raise IndexError
  end.

(** [l[len(l)-1]], which is [l[-1]] on the empty list: [IndexError]. *)
Definition last_item {A : Type} (l : list A) : result A :=
  item (List.length l - 1) l.

Fixpoint repeat_char (c : ascii) (n : nat) : string :=
  match n with
  | O => EmptyString
  | S n' => String c (repeat_char c n')
  end.

Definition ljust (w : nat) (s : string) : string :=
  s ++ repeat_char " " (w - String.length s).

Definition rjust (w : nat) (s : string) : string :=
  repeat_char " " (w - String.length s) ++ s.

(** [s.zfill(w)]: zeros go after a leading sign. *)
Definition zfill (w : nat) (s : string) : string :=
  let pad := repeat_char "0" (w - String.length s) in
  match s with
  | String c r =>
      if Ascii.eqb c "+" || Ascii.eqb c "-" then String c (pad ++ r)
      else pad ++ s
  | EmptyString => pad
  end.

(** [format(n, 'x')] and [format(n, 'X')]: the hex digits of [|n|],
    most significant first, after the sign. *)
Definition hex_digit (capital : bool) (d : Z) : ascii :=
  if d <? 10 then ascii_of_nat (Z.to_nat (48 + d))
  else ascii_of_nat (Z.to_nat ((if capital then 55 else 87) + d)).

(** One digit per turn, from the least significant; a number of [k]
    bits is done within [k] turns. *)
Fixpoint hex_digits (capital : bool) (turns : nat) (n : Z) (acc : string)
  : string :=
  match turns with
  | O => acc
  | S turns' =>
      let acc' := String (hex_digit capital (n mod 16)) acc in
      if n <? 16 then acc' else hex_digits capital turns' (n / 16) acc'
  end.

Definition format_hex (capital : bool) (n : Z) : string :=
  let digits :=
    match Z.abs n with
    | Zpos p => hex_digits capital (Pos.size_nat p) (Zpos p) EmptyString
    | _ => "0"
    end in
  if n <? 0 then String "-" digits else digits.

Definition format_x (n : Z) : string := format_hex false n.

Definition format_X (n : Z) : string := format_hex true n.

(** [str(n)] *)
Definition str (n : Z) : string :=
  let digits := DecimalString.NilZero.string_of_uint (N.to_uint (Z.to_N (Z.abs n))) in
  if n <? 0 then String "-" digits else digits.

(** The value of a digit in [int()]: 0-9, then letters of either case. *)
Definition digit_value (c : ascii) : option Z :=
  if between 48 57 c then Some (ord c - 48)
  else if between 97 122 c then Some (ord c - 87)
  else if between 65 90 c then Some (ord c - 55)
  else None.

Fixpoint skip_c_space (s : string) : string :=
  match s with
  | String c r => if c_isspace c then skip_c_space r else s
  | EmptyString => EmptyString
  end.

(** The base prefix [0x], [0o] or [0b] of the given base, in either
    case, and the one underscore allowed after it. *)
Definition skip_base_prefix (base : Z) (s : string) : string :=
  match s with
  | String "0" (String p r) =>
      let p' := upper_char p in
      if ((base =? 16) && Ascii.eqb p' "X")
         || ((base =? 8) && Ascii.eqb p' "O")
         || ((base =? 2) && Ascii.eqb p' "B")
      then match r with
           | String "_" r' => r'
           | _ => r
           end
      else s
  | _ => s
  end.

(** Digits with single underscores between them; yields the value, the
    number of characters read and the rest. *)
Fixpoint scan_digits (base : Z) (s : string) (prev_us : bool) (acc : Z)
  (n : nat) : option (Z * nat * string) :=
  let stop := if prev_us then None else Some (acc, n, s) in
  match s with
  | EmptyString => stop
  | String c r =>
      if Ascii.eqb c "_"
      then if prev_us then None else scan_digits base r true acc (S n)
      else match digit_value c with
           | Some d => if d <? base
                       then scan_digits base r false (acc * base + d) (S n)
                       else stop
           | None => stop
           end
  end.

(** [int(s, base)] for [base] 2, 8, 10 or 16: blanks, a sign, a base
    prefix, digits, blanks; anything else is a [ValueError]. *)
Definition int (base : Z) (s : string) : result Z :=
  let s1 := skip_c_space s in
  let '(sign, s2) :=
    match s1 with
    | String "+" r => (1, r)
    | String "-" r => (-1, r)
    | _ => (1, s1)
    end in
  let s3 := skip_base_prefix base s2 in
  match s3 with
  | String "_" _ => Raise ValueError
  | _ =>
      match scan_digits base s3 false 0 O with
      | Some (v, S _, rest) =>
          match skip_c_space rest with
          | EmptyString => Ok (sign * v)
          | _ => Raise ValueError
          end
      | _ => Raise ValueError
      end
  end.

(** Reading a text file: [\r\n] and [\r] become [\n], and iterating
    over the file yields the lines, each with its [\n] (the last one
    possibly without). *)
Fixpoint universal_newlines (s : string) : string :=
  match s with
  | EmptyString => EmptyString
  | String c r =>
      if Ascii.eqb c (ascii_of_nat 13)
      then match r with
           | String c' r' =>
               if Ascii.eqb c' newline then String newline (universal_newlines r')
               else String newline (universal_newlines r)
           | EmptyString => nl
           end
      else String c (universal_newlines r)
  end.

Fixpoint lines_aux (cur : string) (s : string) : list string :=
  match s with
  | EmptyString => match cur with EmptyString => [] | _ => [cur] end
  | String c r =>
      if Ascii.eqb c newline then snoc cur c :: lines_aux EmptyString r
      else lines_aux (snoc cur c) r
  end.

Definition readlines (text : string) : list string :=
  lines_aux EmptyString (universal_newlines text).

(** [s < t] on strings: lexicographic on the character codes. *)
Fixpoint str_lt (s t : string) : bool :=
  match s, t with
  | _, EmptyString => false
  | EmptyString, String _ _ => true
  | String a s', String b t' =>
      if ord a <? ord b then true
      else if ord b <? ord a then false
      else str_lt s' t'
  end.

End Py.

Infix "==" := String.eqb (at level 70, no associativity).

(** ** Class [Instruction808x] *)

Module Instruction808x.

(** The dictionary ['Mnemonic':'Opcode*'], where [*] is the operand type:
    [-] none, [b] data byte, [r] register, [a] address, [e] expression,
    [p] register pair, [d] register pair B or D, [m] register, register,
    [w] register pair, data word, [v] register, data byte,
    [i] interrupt 0 - 7. *)
Definition instr : list (string * string) :=
  [ ("CMA", "2F-"); ("CMC", "3F-"); ("DAA", "27-"); ("DI", "F3-");
    ("EI", "FB-"); ("HLT", "76-"); ("NOP", "00-"); ("PCHL", "E9-");
    ("RAL", "17-"); ("RAR", "1F-"); ("RC", "D8-"); ("RET", "C9-");
    ("RIM", "20-"); ("RLC", "07-"); ("RM", "F8-"); ("RNC", "D0-");
    ("RNZ", "C0-"); ("RP", "F0-"); ("RPE", "E8-"); ("RPO", "E0-");
    ("RRC", "0F-"); ("RZ", "C8-"); ("SIM", "30-"); ("SPHL", "F9-");
    ("STC", "37-"); ("XCHG", "EB-"); ("XTHL", "E3-"); ("ARHL", "10-");
    ("DSUB", "08-"); ("LHLX", "ED-"); ("RDEL", "18-"); ("RSTV", "CB-");
    ("SHLX", "D9-");
    ("ACI", "CEb"); ("ADI", "C6b"); ("ANI", "E6b"); ("CPI", "FEb");
    ("ORI", "F6b"); ("SBI", "DEb"); ("SUI", "D6b"); ("XRI", "EEb");
    ("IN", "DBb"); ("OUT", "D3b"); ("LDHI", "28b"); ("LDSI", "38b");
    ("ADC", "88r"); ("ADD", "80r"); ("ANA", "A0r"); ("CMP", "B8r");
    ("DCR", "05r"); ("INR", "04r"); ("ORA", "B0r"); ("SBB", "98r");
    ("SUB", "90r"); ("XRA", "A8r");
    ("CALL", "CDa"); ("CC", "DCa"); ("CM", "FCa"); ("CNC", "D4a");
    ("CNZ", "C4a"); ("CP", "F4a"); ("CPE", "ECa"); ("CPO", "E4a");
    ("CZ", "CCa"); ("JC", "DAa"); ("JM", "FAa"); ("JMP", "C3a");
    ("JNC", "D2a"); ("JNZ", "C2a"); ("JP", "F2a"); ("JPE", "EAa");
    ("JPO", "E2a"); ("JZ", "CAa"); ("LDA", "3Aa"); ("LHLD", "2Aa");
    ("SHLD", "22a"); ("STA", "32a"); ("JNUI", "DDa"); ("JUI", "FDa");
    ("DAD", "09p"); ("DCX", "0Bp"); ("INX", "03p"); ("POP", "C1p");
    ("PUSH", "C5p"); ("LDAX", "0Ad"); ("STAX", "02d"); ("MOV", "40m");
    ("LXI", "01w"); ("MVI", "06v"); ("RST", "C7i");
    ("DB", "00b"); ("DW", "00a"); ("DS", "00a"); ("ORG", "00a");
    ("EQU", "00e") ].

Fixpoint lookup (k : string) (d : list (string * string)) : option string :=
  match d with
  | [] => None
  | (k', v) :: d' => if k == k' then Some v else lookup k d'
  end.

(** Look up mnemonic in dictionary and return the matching Opcode*. *)
Definition opCode (mnemonic : string) : string :=
  match lookup mnemonic instr with
  | None => "Error"
  | Some inst_op =>
      if negb (Py.len inst_op =? 3) then "Error" else inst_op
  end.

End Instruction808x.

(** ** Values held by the symbol table

    Pass 1 stores integers.  Pass 2 stores whatever its variable [a]
    holds: an integer, the float of a true division [num / den], or a
    string left in [a] by an earlier line. *)

Inductive pyval : Type :=
| VInt (z : Z)
| VFloat (num den : Z)
| VStr (s : string).

(** ** Class [Parse] *)

Module Parse.

Record t : Type := mk {
  err : string;      (* error code *)
  ln : Z;            (* line number *)
  pc : Z;            (* program counter *)
  b1 : string;       (* byte 1 *)
  b2 : string;       (* byte 2 *)
  b3 : string;       (* byte 3 *)
  long : string;     (* long byte list *)
  label : string;
  mne : string;      (* mnemonic *)
  oper : string;     (* operands *)
  bytes : Z;
  comment : string;
  errors : Z;        (* error count *)
  symbols : list (string * pyval)
}.

(** [Parse()] *)
Definition init : t :=
  mk "" 0 0 "" "" "" "" "" "" "" 0 "" 0 [].

Definition set_err v p := mk v (ln p) (pc p) (b1 p) (b2 p) (b3 p) (long p)
  (label p) (mne p) (oper p) (bytes p) (comment p) (errors p) (symbols p).
Definition set_ln v p := mk (err p) v (pc p) (b1 p) (b2 p) (b3 p) (long p)
  (label p) (mne p) (oper p) (bytes p) (comment p) (errors p) (symbols p).
Definition set_pc v p := mk (err p) (ln p) v (b1 p) (b2 p) (b3 p) (long p)
  (label p) (mne p) (oper p) (bytes p) (comment p) (errors p) (symbols p).
Definition set_b1 v p := mk (err p) (ln p) (pc p) v (b2 p) (b3 p) (long p)
  (label p) (mne p) (oper p) (bytes p) (comment p) (errors p) (symbols p).
Definition set_b2 v p := mk (err p) (ln p) (pc p) (b1 p) v (b3 p) (long p)
  (label p) (mne p) (oper p) (bytes p) (comment p) (errors p) (symbols p).
Definition set_b3 v p := mk (err p) (ln p) (pc p) (b1 p) (b2 p) v (long p)
  (label p) (mne p) (oper p) (bytes p) (comment p) (errors p) (symbols p).
Definition set_long v p := mk (err p) (ln p) (pc p) (b1 p) (b2 p) (b3 p) v
  (label p) (mne p) (oper p) (bytes p) (comment p) (errors p) (symbols p).
Definition set_label v p := mk (err p) (ln p) (pc p) (b1 p) (b2 p) (b3 p)
  (long p) v (mne p) (oper p) (bytes p) (comment p) (errors p) (symbols p).
Definition set_mne v p := mk (err p) (ln p) (pc p) (b1 p) (b2 p) (b3 p)
  (long p) (label p) v (oper p) (bytes p) (comment p) (errors p) (symbols p).
Definition set_oper v p := mk (err p) (ln p) (pc p) (b1 p) (b2 p) (b3 p)
  (long p) (label p) (mne p) v (bytes p) (comment p) (errors p) (symbols p).
Definition set_bytes v p := mk (err p) (ln p) (pc p) (b1 p) (b2 p) (b3 p)
  (long p) (label p) (mne p) (oper p) v (comment p) (errors p) (symbols p).
Definition set_comment v p := mk (err p) (ln p) (pc p) (b1 p) (b2 p) (b3 p)
  (long p) (label p) (mne p) (oper p) (bytes p) v (errors p) (symbols p).
Definition set_errors v p := mk (err p) (ln p) (pc p) (b1 p) (b2 p) (b3 p)
  (long p) (label p) (mne p) (oper p) (bytes p) (comment p) v (symbols p).
Definition set_symbols v p := mk (err p) (ln p) (pc p) (b1 p) (b2 p) (b3 p)
  (long p) (label p) (mne p) (oper p) (bytes p) (comment p) (errors p) v.

(** [self.err = e; self.errors = self.errors + 1] *)
Definition error (e : string) (p : t) : t :=
  set_errors (errors p + 1) (set_err e p).

(** The range test and hex formatting shared by every numeric form:
    [if dec < 0 or dec > hi: return 'Error'] else
    [return format(dec, 'X').zfill(w)]. *)
Definition in_range (hi : Z) (w : nat) (dec : Z) : string :=
  if (dec <? 0) || (hi <? dec) then "Error"
  else Py.zfill w (Py.format_X dec).

(** Is [operand] of the form [<digit>...<letter>...], with the radix
    letter found by [operand.upper().find(letter) > 0]? *)
Definition radix_at (letter : string) (operand : string) : result (option nat) :=
  let ph := Py.find letter (Py.upper operand) in
  if 0 <? ph then
    c <- Py.index 0 operand ;;
    Ok (if Py.isdigit c then Some (Z.to_nat ph) else None)
  else Ok None.

(** The body of [Op_byte]'s [try]. *)
Definition Op_byte_try (operand : string) : result string :=
  if (Py.find "'" operand =? 0) && (1 <? Py.len operand) then
    c <- Py.index 1 operand ;;
    Ok (Py.zfill 2 (Py.format_X (Py.ord c)))
  else
    h <- radix_at "H" operand ;;
    match h with
    | Some ph => dec <- Py.int 16 (Py.upto ph operand) ;; Ok (in_range 255 2 dec)
    | None =>
        q <- radix_at "Q" operand ;;
        match q with
        | Some ph => dec <- Py.int 8 (Py.upto ph operand) ;; Ok (in_range 255 2 dec)
        | None =>
            b <- radix_at "B" operand ;;
            match b with
            | Some pb => dec <- Py.int 2 (Py.upto pb operand) ;; Ok (in_range 255 2 dec)
            | None => dec <- Py.int 10 operand ;; Ok (in_range 255 2 dec)
            end
        end
    end.

(** Parse operand string representation of number: decimal, hex, octal,
    binary or ASCII.  Return hex byte or 'Error'. *)
Definition Op_byte (operand : string) : string :=
  match Op_byte_try operand with
  | Ok s => s
  | Raise _ => "Error"
  end.

(** The body of [Op_addr]'s [try]. *)
Definition Op_addr_try (operand : string) : result string :=
  if (Py.find "'" operand =? 0) && (1 <? Py.len operand) then
    c <- Py.index 1 operand ;;
    Ok (Py.zfill 4 (Py.format_X (Py.ord c)))
  else
    h <- radix_at "H" operand ;;
    match h with
    | Some ph => dec <- Py.int 16 (Py.upto ph operand) ;; Ok (in_range 65535 4 dec)
    | None =>
        q <- radix_at "Q" operand ;;
        match q with
        | Some ph => dec <- Py.int 8 (Py.upto ph operand) ;; Ok (in_range 65535 4 dec)
        | None =>
            b <- radix_at "B" operand ;;
            match b with
            | Some ph => dec <- Py.int 2 (Py.upto ph operand) ;; Ok (in_range 65535 4 dec)
            | None => dec <- Py.int 10 operand ;; Ok (in_range 65535 4 dec)
            end
        end
    end.

(** Parse operand string as a number address or label.  Return hex word
    or 'Label'.  Return 'Error' if error detected.  The first two tests
    stand outside the [try]. *)
Definition Op_addr (operand : string) : result string :=
  if Py.len operand =? 0 then Ok "Error"
  else
    c <- Py.index 0 operand ;;
    if Py.isalpha c then Ok "Label"
    else match Op_addr_try operand with
         | Ok s => Ok s
         | Raise _ => Ok "Error"
         end.

(** Parse operand for register A-E, H or L.  Return SSS value. *)
Definition Op_reg (operand : string) : Z :=
  if operand == "B" then 0
  else if operand == "C" then 1
  else if operand == "D" then 2
  else if operand == "E" then 3
  else if operand == "H" then 4
  else if operand == "L" then 5
  else if operand == "M" then 6
  else if operand == "A" then 7
  else if operand == "PSW" then 0
  else -1.

(** Parse operand for register pair B, D, H, SP or PSW. Return RP value. *)
Definition Op_regpr (operand : string) : Z :=
  if operand == "B" then 0
  else if operand == "D" then 1
  else if operand == "H" then 2
  else if operand == "SP" then 3
  else if operand == "PSW" then 3
  else -1.

(** Parse operand for register pair B, D.  Return RP value. *)
Definition Op_regpr2 (operand : string) : Z :=
  if operand == "B" then 0
  else if operand == "D" then 1
  else -1.

(** [format(int(self.b1, 16) + k, 'X').zfill(2)] *)
Definition add_to_b1 (k : Z) (p : t) : result t :=
  base <- Py.int 16 (b1 p) ;;
  Ok (set_b1 (Py.zfill 2 (Py.format_X (base + k))) p).

(** The address bytes, low byte of address first. *)
Definition addr_bytes (a : string) (p : t) : t :=
  set_b3 (Py.slice 0 2 a) (set_b2 (Py.slice 2 4 a) p).

(** [DB]: split operands separated by [','], ignoring [','] in strings.
    The loop state is [(linesp, open_quote, close_quote, temp)]; a quote
    is recorded in [temp] as a double quote. *)
Definition db_step (st : list string * bool * bool * string) (a : ascii)
  : list string * bool * bool * string :=
  let '(linesp, open_quote, close_quote, temp) := st in
  let '(linesp, open_quote, close_quote, temp) :=
    if Ascii.eqb a Py.squote && negb open_quote
    then (linesp, true, close_quote, Py.snoc temp Py.dquote)
    else if Ascii.eqb a Py.squote && open_quote
    then (linesp, open_quote, true, Py.snoc temp Py.dquote)
    else if Ascii.eqb a "," && negb open_quote
    then ((linesp ++ [temp])%list, open_quote, close_quote, "")
    else (linesp, open_quote, close_quote, Py.snoc temp a) in
  if open_quote && close_quote then (linesp, false, false, temp)
  else (linesp, open_quote, close_quote, temp).

Definition db_split (line : string) : list string :=
  let '(linesp, _, _, temp) :=
    fold_left db_step (list_ascii_of_string line) ([], false, false, "") in
  (linesp ++ [temp])%list.

(** String data: every character but the quotes goes through
    [Op_byte("'" + char + "'")]. *)
Definition db_string (op : string) (p : t) : t :=
  fold_left
    (fun p char =>
       if Ascii.eqb char Py.dquote then p
       else
         let b := Op_byte (String Py.squote (String char (String Py.squote ""))) in
         set_long (long p ++ b) p)
    (list_ascii_of_string op) p.

Definition db_operand (p : t) (op : string) : t :=
  let op := Py.lstrip op in
  if Py.find (String Py.dquote "") op =? 0 then db_string op p
  else
    let b := Op_byte op in
    if b == "Error" then set_b1 "??" p
    else set_long (long p ++ b) p.

(** One operator of an [EQU] expression: the two operands through
    [Op_addr], then ['Error'], ['Label'] or the formatted result.
    [guard] is the test on [p1] that turns it into ['Error']. *)
Definition equ_binary (sep : ascii) (guard : string -> bool)
  (f : Z -> Z -> result Z) (line : string) : result string :=
  let operands := Py.split_on sep (Some 2%nat) line in
  o0 <- Py.item 0 operands ;;
  o1 <- Py.item 1 operands ;;
  p0 <- Op_addr o0 ;;
  p1 <- Op_addr o1 ;;
  let p1 := if guard p1 then "Error" else p1 in
  if (p0 == "Error") || (p1 == "Error") then Ok "Error"
  else if (p0 == "Label") || (p1 == "Label") then Ok "Label"
  else
    x <- Py.int 16 p0 ;;
    y <- Py.int 16 p1 ;;
    v <- f x y ;;
    Ok (Py.zfill 4 (Py.format_x v)).

Definition no_guard (p1 : string) : bool := false.

(** [p1 == 0], the guard of the division branch: [p1] is a string, and
    a string is never equal to the integer 0. *)
Definition str_eq_zero (p1 : string) : bool := false.

(** [int(x / y)] on integers: true division, then truncation.  Both
    operands come from [Op_addr] and are below 65536, where the float
    quotient truncates to the integer quotient. *)
Definition int_div (x y : Z) : result Z :=
  if y =? 0 then Raise ZeroDivisionError else Ok (Z.quot x y).

Definition equ_expr (line : string) : result string :=
  if 0 <? Py.find "+" line then
    equ_binary "+" no_guard (fun x y => Ok (x + y)) line
  else if 0 <? Py.find "-" line then
    equ_binary "-" no_guard (fun x y => Ok (x - y)) line
  else if 0 <? Py.find "*" line then
    equ_binary "*" no_guard (fun x y => Ok (x * y)) line
  else if 0 <? Py.find "/" line then
    equ_binary "/" str_eq_zero int_div line
  else Op_addr line.

(** [self.symbols.pop()] *)
Definition pop_symbol (p : t) : result t :=
  match symbols p with
  | [] => Raise IndexError
  | _ => Ok (set_symbols (removelast (symbols p)) p)
  end.

(** The operand part of [Pass1]: [self.b1] holds the base opcode,
    [line] only the operands. *)
Definition Pass1_operand (op_type : ascii) (line : string) (p : t) : result t :=
  if Ascii.eqb op_type "-" then
    Ok (set_bytes 1 p)

  else if Ascii.eqb op_type "b" then
    if mne p == "DB" then
      let p := fold_left db_operand (db_split line) p in
      Ok (set_bytes 1 (set_oper line p))
    else
      let b := Op_byte line in
      let p := if b == "Error" then set_b2 "??" p else set_b2 b p in
      Ok (set_oper line (set_bytes 2 p))

  else if Ascii.eqb op_type "r" then
    let sss := Op_reg line in
    p <- (if sss =? -1 then Ok (error "*R*" p)
          else if (mne p == "DCR") || (mne p == "INR")
               then add_to_b1 (8 * sss) p
               else add_to_b1 sss p) ;;
    Ok (set_bytes 1 (set_oper line p))

  else if Ascii.eqb op_type "a" then
    a <- Op_addr line ;;
    if mne p == "DW" then
      let p :=
        if a == "Error" then set_b2 "00" (error "*V*" p)
        else if a == "Label" then set_b2 "??" (set_b1 "??" p)
        else set_b2 (Py.slice 0 2 a) (set_b1 (Py.slice 2 4 a) p) in
      Ok (set_bytes 2 (set_oper (Py.upper line) p))
    else if mne p == "DS" then
      p <- (if a == "Error" then Ok (error "*V*" p)
            else n <- Py.int 16 a ;; Ok (set_pc (pc p + n) (set_b1 "" p))) ;;
      Ok (set_oper line (set_bytes 0 p))
    else if mne p == "ORG" then
      p <- (if a == "Error" then Ok (error "*V*" p)
            else n <- Py.int 16 a ;; Ok (set_pc n (set_b1 "" p))) ;;
      Ok (set_oper line (set_bytes 0 p))
    else
      let p :=
        if a == "Error" then set_b3 "00" (set_b2 "00" (error "*V*" p))
        else if a == "Label" then set_b3 "??" (set_b2 "??" p)
        else addr_bytes a p in
      Ok (set_bytes 3 (set_oper (Py.upper line) p))

  else if Ascii.eqb op_type "p" then
    let rp := Op_regpr line in
    p <- (if rp =? -1 then Ok (error "*R*" p) else add_to_b1 (16 * rp) p) ;;
    Ok (set_bytes 1 (set_oper line p))

  else if Ascii.eqb op_type "d" then
    let rp := Op_regpr2 line in
    p <- (if rp =? -1 then Ok (error "*R*" p) else add_to_b1 (16 * rp) p) ;;
    Ok (set_bytes 1 (set_oper line p))

  else if Ascii.eqb op_type "w" then
    let line_rp_d := Py.split_on "," None line in
    r <- Py.item 0 line_rp_d ;;
    let rp := Op_regpr r in
    p <- (if rp =? -1 then Ok (set_b3 "00" (set_b2 "00" (error "*R*" p)))
          else add_to_b1 (16 * rp) p) ;;
    a <- (if 1 <? Z.of_nat (List.length line_rp_d)
          then d <- Py.item 1 line_rp_d ;; Op_addr (Py.lstrip d)
          else Ok "Error") ;;
    let p :=
      if a == "Error" then set_b3 "00" (set_b2 "00" (error "*V*" p))
      else if a == "Label" then set_b3 "??" (set_b2 "??" p)
      else addr_bytes a p in
    Ok (set_bytes 3 (set_oper line p))

  else if Ascii.eqb op_type "m" then
    let line_rr := Py.split_on "," None line in
    p <- (if negb (Z.of_nat (List.length line_rr) =? 2) then Ok (error "*R*" p)
          else
            r0 <- Py.item 0 line_rr ;;
            r1 <- Py.item 1 line_rr ;;
            let ddd := Op_reg r0 in
            let sss := Op_reg (Py.lstrip r1) in
            if (ddd =? -1) || (sss =? -1) || ((ddd =? 6) && (sss =? 6))
            then Ok (error "*R*" p)
            else add_to_b1 (8 * ddd + sss) p) ;;
    Ok (set_bytes 1 (set_oper line p))

  else if Ascii.eqb op_type "v" then
    let line_rd := Py.split_on "," None line in
    r <- Py.item 0 line_rd ;;
    let ddd := Op_reg r in
    (* [b] stays unbound when there is no second operand *)
    '(b, p) <- (if 1 <? Z.of_nat (List.length line_rd)
                then d <- Py.item 1 line_rd ;;
                     Ok (Some (Op_byte (Py.lstrip d)), p)
                else Ok (None, set_b2 "00" (error "*V*" p))) ;;
    p <- (if ddd =? -1 then Ok (set_b2 "00" (error "*R*" p))
          else match b with
               | None => Raise NameError
               | Some b =>
                   p <- add_to_b1 (8 * ddd) p ;;
                   Ok (if b == "Error" then set_b2 "??" p else set_b2 b p)
               end) ;;
    Ok (set_bytes 2 (set_oper line p))

  else if Ascii.eqb op_type "i" then
    let i := Op_byte line in
    ih <- Py.index 0 i ;;
    p <- (if (i == "Error") || negb (Ascii.eqb ih "0") then Ok (set_err "*V*" p)
          else
            i1 <- Py.index 1 i ;;
            n <- Py.int 10 (String i1 "") ;;
            add_to_b1 (8 * n) p) ;;
    Ok (set_bytes 1 (set_oper line p))

  else if Ascii.eqb op_type "e" then
    a <- equ_expr line ;;
    if a == "Error" then
      Ok (set_oper (Py.upper line) (error "*V*" p))
    else if a == "Label" then
      Ok (set_oper (Py.upper line) (set_b2 "??" (set_b1 "??" p)))
    else
      p <- pop_symbol p ;;
      v <- Py.int 16 a ;;
      let p := set_symbols (symbols p ++ [(label p, VInt v)])%list p in
      Ok (set_b1 "" (set_oper (Py.upper line) p))

  else Ok p.

(** The mnemonic part of [Pass1]: [line] holds a mnemonic and operands. *)
Definition Pass1_mnemonic (line : string) (p : t) : result t :=
  m <- Py.item 0 (Py.split_ws line) ;;
  let p := set_mne (Py.upper m) p in
  let line :=
    if Py.len (mne p) + 1 <? Py.len line
    then Py.rstrip (Py.lstrip (Py.from (String.length (mne p) + 1) line))
    else "" in
  let opcodes := Instruction808x.opCode (mne p) in
  if opcodes == "Error" then Ok (error "*O*" p)
  else
    let opcode := Py.slice 0 2 opcodes in
    op_type <- Py.index 2 opcodes ;;
    Pass1_operand op_type line (set_b1 opcode p).

(** The duplicate-label check: one error per earlier symbol of that name. *)
Definition check_duplicate (p : t) : t :=
  fold_left
    (fun p (sym : string * pyval) =>
       if label p == fst sym then error "*D*" p else p)
    (symbols p) p.

(** The label part of [Pass1]: [line] holds a label, a mnemonic and
    operands. *)
Definition Pass1_label (line : string) (p : t) : result t :=
  let pos := Py.find ":" line in
  let posq := Py.find "'" line in
  let pos := if (0 <? pos) && (0 <? posq) && (posq <? pos) then -1 else pos in
  if 0 <? pos then
    let '(line, pos) :=
      if 6 <? pos
      then (Py.upto 6 line ++ Py.from (Z.to_nat pos) line, 6)
      else (line, pos) in
    let p := set_label (Py.upto (Z.to_nat pos) line) p in
    let line := Py.lstrip (Py.from (Z.to_nat (pos + 1)) line) in
    let p := check_duplicate p in
    let p := set_symbols (symbols p ++ [(label p, VInt (pc p))])%list p in
    if Py.len line =? 0 then Ok p
    else Pass1_mnemonic line p
  else Pass1_mnemonic line p.

(** Reset the class attributes. *)
Definition reset (p : t) : t :=
  mk "" (ln p) (pc p) "" "" "" "" "" "" "" 0 "" (errors p) (symbols p).

(** Parse the text in line to identify comments, mnemonics, etc. *)
Definition Pass1 (line : string) (p : t) : result t :=
  let p := reset p in
  let line := Py.remove_char Py.newline (Py.lstrip line) in
  let p := set_ln (ln p + 1) p in
  if Py.len line =? 0 then Ok p
  else
    let pos := Py.find ";" line in
    if 0 <=? pos then
      let p := set_comment (Py.from (Z.to_nat pos) line) p in
      if pos =? 0 then Ok p
      else Pass1_label (Py.rstrip (Py.upto (Z.to_nat pos) line)) p
    else Pass1_label line p.

End Parse.

(** ** The module-level script *)

Module Asm80.

Import Parse.

Definition ver : string := "1.0".

(** The module-level variables that live across loop iterations:
    the parser object, [a] and [label_plus]; the last two are unbound
    until first assigned. *)
Record globals : Type := mkG {
  parser : Parse.t;
  a : option pyval;
  label_plus : option (list string)
}.

Definition set_parser (p : Parse.t) (g : globals) : globals :=
  mkG p (a g) (label_plus g).
Definition set_a (v : pyval) (g : globals) : globals :=
  mkG (parser g) (Some v) (label_plus g).
Definition set_label_plus (l : list string) (g : globals) : globals :=
  mkG (parser g) (a g) (Some l).

Definition start : globals := mkG Parse.init None None.

(** *** Pass 1: the temp listing file *)

Definition header : string :=
  "ERR LINE  ADDR B1 B2 B3   *** ASM80 ASSEMBLER VER " ++ ver ++ " ***" ++ Py.nl.

(** The label, mnemonic, operands and comment of a row. *)
Definition lmoc (p : Parse.t) : string :=
  if negb (label p == "") || negb (mne p == "") then
    let label := if negb (label p == "") then label p ++ ":" else "" in
    Py.ljust 8 label ++ Py.ljust 5 (mne p) ++ Py.ljust 11 (oper p)
      ++ comment p ++ Py.nl
  else comment p ++ Py.nl.

Definition hex4 (n : Z) : string := Py.zfill 4 (Py.format_X n).

(** ['ERR(4) LINE(4) ADDR(5) B1(3) B2(3) B3(3) ...'] *)
Definition list_line (p : Parse.t) (a b1 b2 b3 : string) : string :=
  Py.ljust 4 (err p) ++ Py.rjust 4 (Py.str (ln p)) ++ "  " ++ a ++ " "
    ++ Py.ljust 3 b1 ++ Py.ljust 3 b2 ++ Py.ljust 5 b3 ++ lmoc p.

(** A continuation row of a long data list. *)
Definition data_line (pc : Z) (b1 b2 b3 : string) : string :=
  Py.rjust 14 (hex4 pc) ++ " " ++ b1 ++ " " ++ b2 ++ " " ++ b3 ++ Py.nl.

(** [while len(ll) > 6]: full continuation rows.  Every turn shortens
    [ll] by six characters, so [String.length ll] turns are enough. *)
Fixpoint full_data_lines (turns : nat) (pc : Z) (ll : string)
  : Z * string * list string :=
  match turns with
  | O => (pc, ll, [])
  | S turns' =>
      if 6 <? Py.len ll then
        let row := data_line pc (Py.slice 0 2 ll) (Py.slice 2 4 ll) (Py.slice 4 6 ll) in
        let '(pc', ll', rows) := full_data_lines turns' (pc + 3) (Py.from 6 ll) in
        (pc', ll', row :: rows)
      else (pc, ll, [])
  end.

(** The rows written for the line just parsed, with the parser and [a]
    as the loop body leaves them. *)
Definition write_rows (p : Parse.t) : Parse.t * string * list string :=
  if long p == "" then
    let '(a, p') :=
      if negb (Py.len (b1 p) =? 0)
      then (hex4 (pc p), set_pc (pc p + bytes p) p)
      else ("    ", p) in
    (p', a, [list_line p a (b1 p) (b2 p) (b3 p)])
  else
    let a := hex4 (pc p) in
    let b1 := Py.slice 0 2 (long p) in
    let b2 := Py.slice 2 4 (long p) in
    let '(b3, byte_count) :=
      if 6 <=? Py.len (long p) then (Py.slice 4 6 (long p), 3) else ("  ", 2) in
    let first := list_line p a b1 b2 b3 in
    let pc := pc p + byte_count in
    let ll := if 6 <? Py.len (long p) then Py.from 6 (long p) else "" in
    let '(pc, ll, rows) := full_data_lines (String.length ll) pc ll in
    let '(b1, byte_count) :=
      if 2 <=? Py.len ll then (Py.slice 0 2 ll, 1) else ("  ", byte_count) in
    let '(b2, byte_count) :=
      if 4 <=? Py.len ll then (Py.slice 2 4 ll, 2) else ("  ", byte_count) in
    let '(b3, byte_count) :=
      if Py.len ll =? 6 then (Py.slice 4 6 ll, 3) else ("  ", byte_count) in
    if negb (b1 == "  ")
    then (set_pc (pc + byte_count) p, a,
          (first :: rows ++ [data_line pc b1 b2 b3])%list)
    else (set_pc pc p, a, (first :: rows)%list).

(** One turn of [for line in source]. *)
Definition pass1_line (line : string) (st : globals * list string)
  : result (globals * list string) :=
  let '(g, listing) := st in
  p <- Pass1 line (parser g) ;;
  let '(p, a, rows) := write_rows p in
  Ok (set_a (VStr a) (set_parser p g), (listing ++ rows)%list).

Fixpoint pass1 (source : list string) (st : globals * list string)
  : result (globals * list string) :=
  match source with
  | [] => Ok st
  | line :: rest => st' <- pass1_line line st ;; pass1 rest st'
  end.

(** *** Pass 2: resolve address and EQU references *)

(** [format(v, 'x')] and [format(v, 'X')]: only an integer takes a hex
    format code. *)
Definition format_val (f : Z -> string) (v : pyval) : result string :=
  match v with
  | VInt z => Ok (f z)
  | _ => Raise ValueError
  end.

(** [v + offset] *)
Definition val_add (v : pyval) (offset : Z) : result pyval :=
  match v with
  | VInt z => Ok (VInt (z + offset))
  | VFloat n d => Ok (VFloat (n + offset * d) d)
  | VStr _ => Raise TypeError
  end.

(** [v == 0] *)
Definition val_is_zero (v : pyval) : bool :=
  match v with
  | VInt z => z =? 0
  | VFloat n _ => n =? 0
  | VStr _ => false
  end.

(** [v == ''] *)
Definition val_is_empty (v : pyval) : bool :=
  match v with
  | VStr s => s == ""
  | _ => false
  end.

(** The three searches of the symbol table.  None of them stops at a
    match: each later symbol of the same name overwrites the result. *)
Fixpoint lookup_hex (name : string) (symbols : list (string * pyval))
  (p0 : string) : result string :=
  match symbols with
  | [] => Ok p0
  | sym :: rest =>
      if fst sym == name
      then h <- format_val Py.format_x (snd sym) ;;
           lookup_hex name rest (Py.zfill 4 h)
      else lookup_hex name rest p0
  end.

Fixpoint lookup_add (label : string) (offset : Z)
  (symbols : list (string * pyval)) (add : pyval) : result pyval :=
  match symbols with
  | [] => Ok add
  | sym :: rest =>
      if fst sym == label
      then add' <- val_add (snd sym) offset ;;
           lookup_add label offset rest add'
      else lookup_add label offset rest add
  end.

Fixpoint lookup_val (label : string) (symbols : list (string * pyval))
  (val : pyval) : pyval :=
  match symbols with
  | [] => val
  | sym :: rest =>
      if fst sym == label then lookup_val label rest (snd sym)
      else lookup_val label rest val
  end.

(** [mne_lab]: the words of the row after the byte fields, comment
    stripped. *)
Definition words_after (s : Z) (line : string) : list string :=
  let c := Py.find ";" line in
  let ln := if 0 <? c then Py.rstrip (Py.upto (Z.to_nat c) line) else line in
  Py.split_ws (Py.lstrip (Py.from (Z.to_nat (s + 5)) ln)).

(** ['*U*' + line[3:]] *)
Definition flag_undefined (line : string) : string :=
  "*U*" ++ Py.from 3 line.

(** [line[0:s] + w + line[s+5:]] *)
Definition put_word (s : Z) (w : string) (line : string) : string :=
  Py.upto (Z.to_nat s) line ++ w ++ Py.from (Z.to_nat (s + 5)) line.

(** Mark an unresolved address: [*U*], [-- --] over the placeholder and
    one more error. *)
Definition undefined_address (s : Z) (line : string) (g : globals)
  : globals * string :=
  (set_parser (set_errors (errors (parser g) + 1) (parser g)) g,
   put_word s "-- --" (flag_undefined line)).

(** [symbols.index((label, 0))] and [symbols[i] = (label, a)] *)
Fixpoint index_zero (label : string) (symbols : list (string * pyval))
  : result nat :=
  match symbols with
  | [] => Raise ValueError
  | sym :: rest =>
      if (fst sym == label) && val_is_zero (snd sym) then Ok O
      else i <- index_zero label rest ;; Ok (S i)
  end.

Fixpoint set_item {A : Type} (i : nat) (x : A) (l : list A) : list A :=
  match i, l with
  | _, [] => []
  | O, _ :: r => x :: r
  | S i', y :: r => y :: set_item i' x r
  end.

(** One of the four [if mne_lab[3] == op and ...: a = ...] of the EQU
    case. *)
Definition equ_apply (op : string) (f : Z -> Z -> result pyval)
  (guard : bool) (t3 p0 p1 : string) (g : globals) : result globals :=
  if (t3 == op) && negb (p0 == "Label") && negb (p1 == "Label") && guard
  then x <- Py.int 16 p0 ;;
       y <- Py.int 16 p1 ;;
       v <- f x y ;;
       Ok (set_a v g)
  else Ok g.

(** [x / y]: true division. *)
Definition true_div (x y : Z) : result pyval :=
  if y =? 0 then Raise ZeroDivisionError else Ok (VFloat x y).

(** The EQU case of an address placeholder. *)
Definition resolve_equ (s : Z) (mne_lab : list string) (line : string)
  (g : globals) : result (globals * string) :=
  t0 <- Py.item 0 mne_lab ;;
  t2 <- Py.item 2 mne_lab ;;
  t3 <- Py.item 3 mne_lab ;;
  t4 <- Py.item 4 mne_lab ;;
  p0 <- Op_addr t2 ;;
  p1 <- Op_addr t4 ;;
  p0 <- (if p0 == "Label" then lookup_hex t2 (symbols (parser g)) p0 else Ok p0) ;;
  p1 <- (if p1 == "Label" then lookup_hex t4 (symbols (parser g)) p1 else Ok p1) ;;
  g <- equ_apply "+" (fun x y => Ok (VInt (x + y))) true t3 p0 p1 g ;;
  g <- equ_apply "-" (fun x y => Ok (VInt (x - y))) true t3 p0 p1 g ;;
  g <- equ_apply "*" (fun x y => Ok (VInt (x * y))) true t3 p0 p1 g ;;
  g <- equ_apply "/" true_div (negb (str_eq_zero p1)) t3 p0 p1 g ;;
  if (p0 == "Label") || (p1 == "Label") then
    Ok (undefined_address s line g)
  else
    let label := Py.drop_last t0 in
    i <- index_zero label (symbols (parser g)) ;;
    match a g with
    | None => Raise NameError
    | Some v =>
        let g := set_parser
                   (set_symbols (set_item i (label, v) (symbols (parser g)))
                      (parser g)) g in
        Ok (g, Py.upto 8 line ++ Py.repeat_char " " 15 ++ Py.from 23 line)
    end.

(** The target label and its decimal offset, split on one [+] or [-]. *)
Definition label_offset (label : string) (g : globals)
  : result (string * Z * globals) :=
  '(label, offset, g) <-
    (if 0 <? Py.find "+" label then
       let lp := Py.split_on "+" (Some 2%nat) label in
       let g := set_label_plus lp g in
       l0 <- Py.item 0 lp ;;
       l1 <- Py.item 1 lp ;;
       match Py.int 10 l1 with
       | Ok n => Ok (l0, n, g)
       | Raise _ => Ok (l0 ++ l1, 0, g)
       end
     else Ok (label, 0, g)) ;;
  if 0 <? Py.find "-" label then
    let label_minus := Py.split_on "-" (Some 2%nat) label in
    m0 <- Py.item 0 label_minus ;;
    m1 <- Py.item 1 label_minus ;;
    match Py.int 10 m1 with
    | Ok n => Ok (m0, - n, g)
    | Raise _ =>
        match label_plus g with
        | None => Raise NameError
        | Some lp =>
            l0 <- Py.item 0 lp ;;
            l1 <- Py.item 1 lp ;;
            Ok (l0 ++ l1, offset, g)
        end
    end
  else Ok (label, offset, g).

(** The address-reference case of an address placeholder. *)
Definition resolve_reference (s : Z) (mne_lab : list string) (line : string)
  (g : globals) : result (globals * string) :=
  label <- Py.last_item mne_lab ;;
  '(label, offset, g) <- label_offset label g ;;
  add <- lookup_add label offset (symbols (parser g)) (VStr "") ;;
  if val_is_empty add then Ok (undefined_address s line g)
  else
    a <- format_val Py.format_X add ;;
    let a := Py.zfill 4 a in
    let w := Py.slice 2 4 a ++ " " ++ Py.upto 2 a in
    Ok (set_a (VStr a) g, put_word s w line).

(** Check for unresolved address. *)
Definition resolve_address (line : string) (g : globals)
  : result (globals * string) :=
  let s := Py.find "?? ??" line in
  if 0 <? s then
    let mne_lab := words_after s line in
    if (Z.of_nat (List.length mne_lab) =? 5)
       && existsb (fun w => w == "EQU") mne_lab
    then resolve_equ s mne_lab line g
    else resolve_reference s mne_lab line g
  else Ok (g, line).

(** Check for unresolved byte value. *)
Definition resolve_byte (line : string) (g : globals)
  : result (globals * string) :=
  let s := Py.find "??" line in
  if 0 <? s then
    let mne_lab := words_after s line in
    label <- Py.last_item mne_lab ;;
    let val := lookup_val label (symbols (parser g)) (VStr "") in
    if val_is_empty val then
      Ok (set_parser (set_errors (errors (parser g) + 1) (parser g)) g,
          flag_undefined line)
    else
      a <- format_val Py.format_X val ;;
      let a := Py.zfill 4 a in
      let g := set_a (VStr a) g in
      if existsb (Py.contains "HIGH") mne_lab
      then Ok (g, Py.upto (Z.to_nat s) line ++ Py.upto 2 a ++ " "
                    ++ Py.from (Z.to_nat (s + 3)) line)
      else Ok (g, Py.upto (Z.to_nat s) line ++ Py.slice 2 4 a ++ " "
                    ++ Py.from (Z.to_nat (s + 3)) line)
  else Ok (g, line).

(** One turn of [for line in listing]. *)
Definition pass2_line (line : string) (g : globals) : result (globals * string) :=
  '(g, line) <- resolve_address line g ;;
  resolve_byte line g.

Fixpoint pass2 (listing : list string) (g : globals)
  : result (globals * list string) :=
  match listing with
  | [] => Ok (g, [])
  | line :: rest =>
      '(g, line') <- pass2_line line g ;;
      '(g, rest') <- pass2 rest g ;;
      Ok (g, line' :: rest')
  end.

(** *** The symbol list and the error summary *)

(** [x == y] and [x < y] on symbol values; a string and a number are
    never equal and cannot be ordered. *)
Definition val_eq (x y : pyval) : bool :=
  match x, y with
  | VInt a, VInt b => a =? b
  | VInt a, VFloat n d => a * d =? n
  | VFloat n d, VInt b => n =? b * d
  | VFloat n d, VFloat n' d' => n * d' =? n' * d
  | VStr s, VStr t => s == t
  | _, _ => false
  end.

(** [n / d < n' / d'] *)
Definition frac_lt (n d n' d' : Z) : bool :=
  n * Z.sgn d * Z.abs d' <? n' * Z.sgn d' * Z.abs d.

Definition val_lt (x y : pyval) : result bool :=
  match x, y with
  | VInt a, VInt b => Ok (a <? b)
  | VInt a, VFloat n d => Ok (frac_lt a 1 n d)
  | VFloat n d, VInt b => Ok (frac_lt n d b 1)
  | VFloat n d, VFloat n' d' => Ok (frac_lt n d n' d')
  | VStr s, VStr t => Ok (Py.str_lt s t)
  | _, _ => Raise TypeError
  end.

(** [x < y] on [(name, value)] tuples. *)
Definition sym_lt (x y : string * pyval) : result bool :=
  if fst x == fst y then
    if val_eq (snd x) (snd y) then Ok false else val_lt (snd x) (snd y)
  else Ok (Py.str_lt (fst x) (fst y)).

Fixpoint insert_sym (x : string * pyval) (l : list (string * pyval))
  : result (list (string * pyval)) :=
  match l with
  | [] => Ok [x]
  | y :: r =>
      lt <- sym_lt x y ;;
      if lt then Ok (x :: y :: r)
      else r' <- insert_sym x r ;; Ok (y :: r')
  end.

(** [symbols.sort()]: a stable sort. *)
Fixpoint sort_syms (l acc : list (string * pyval))
  : result (list (string * pyval)) :=
  match l with
  | [] => Ok acc
  | x :: r => acc' <- insert_sym x acc ;; sort_syms r acc'
  end.

(** The symbols, five to a line; yields the text written. *)
Fixpoint symbol_lines (symbols : list (string * pyval)) (line : string)
  (pos : Z) : result string :=
  match symbols with
  | [] => Ok (Py.nl ++ line)
  | sym :: rest =>
      h <- format_val Py.format_X (snd sym) ;;
      let line := line ++ Py.rjust 6 (fst sym) ++ " " ++ Py.zfill 4 h ++ "    " in
      let pos := pos + 1 in
      if 5 <? pos then
        text <- symbol_lines rest "" 1 ;;
        Ok (Py.nl ++ line ++ text)
      else symbol_lines rest line pos
  end.

Definition rule : string := Py.repeat_char "-" 76.

(** Everything written to the final listing after the rows. *)
Definition trailer (g : globals) : result (globals * string) :=
  sorted <- sort_syms (symbols (parser g)) [] ;;
  let g := set_parser (set_symbols sorted (parser g)) g in
  syms <- symbol_lines sorted "" 1 ;;
  Ok (g,
      Py.nl ++ rule
      ++ Py.nl ++ "Symbols:"
      ++ syms
      ++ Py.nl ++ rule
      ++ Py.nl ++ "Error codes: *O*=undefined opcode, *V*=illegal value, *R*=illegal register,"
      ++ Py.nl ++ "             *U*=undefined symbol, *D*=duplicate symbol"
      ++ Py.nl ++ "Total Errors = " ++ Py.str (errors (parser g)) ++ Py.nl).

(** *** The Intel Hex file *)

(** [format(255 - int(sum_hex[-2:], 16) + 1, 'X').zfill(2)] *)
Definition checksum (sum : Z) : result string :=
  let sum_hex := Py.format_X sum in
  low <- Py.int 16 (Py.last2 sum_hex) ;;
  Ok (Py.zfill 2 (Py.format_X (255 - low + 1))).

(** The record of one listing line; [None] when the line is skipped. *)
Definition hex_record (line : string) : result (option string) :=
  if Py.len line <? 22 then Ok None
  else
    let addr := Py.slice 10 14 line in
    match Py.int 16 addr with
    | Raise _ => Ok None
    | Ok _ =>
        let b1 := Py.slice 15 17 line in
        let b2 := Py.slice 18 20 line in
        let b3 := Py.slice 21 23 line in
        hi <- Py.int 16 (Py.slice 0 2 addr) ;;
        lo <- Py.int 16 (Py.slice 2 4 addr) ;;
        v1 <- Py.int 16 b1 ;;
        if b2 == "  " then
          c <- checksum (1 + hi + lo + v1) ;;
          Ok (Some (":01" ++ addr ++ "00" ++ b1 ++ c))
        else if b3 == "  " then
          v2 <- Py.int 16 b2 ;;
          c <- checksum (1 + hi + lo + v1 + v2) ;;
          Ok (Some (":02" ++ addr ++ "00" ++ b1 ++ b2 ++ c))
        else
          v2 <- Py.int 16 b2 ;;
          v3 <- Py.int 16 b3 ;;
          c <- checksum (1 + hi + lo + v1 + v2 + v3) ;;
          Ok (Some (":03" ++ addr ++ "00" ++ b1 ++ b2 ++ b3 ++ c))
    end.

(** [for line in listing2], up to the first line of dashes. *)
Fixpoint hex_records (listing2 : list string) : result (list string) :=
  match listing2 with
  | [] => Ok []
  | line :: rest =>
      if Py.upto 3 line == "---" then Ok []
      else
        r <- hex_record line ;;
        rs <- hex_records rest ;;
        Ok (match r with Some rec => rec :: rs | None => rs end)
  end.

Definition end_of_file : string := ":00000001FF".

(** *** The whole run *)

(** What a run leaves behind: the text of the final listing, the
    records of the hex file (each is written with a newline) when that
    file is created, and the figures printed at the end. *)
Record output : Type := mkOut {
  lst : string;
  hex : option (list string);
  assembled_lines : Z;
  total_errors : Z
}.

Definition assemble (source_text : string) : result output :=
  '(g, tmp) <- pass1 (Py.readlines source_text) (start, [header]) ;;
  '(g, rows) <- pass2 (Py.readlines (String.concat "" tmp)) g ;;
  '(g, tail) <- trailer g ;;
  let lst := String.concat "" rows ++ tail in
  hex <- (if errors (parser g) =? 0
          then recs <- hex_records (Py.readlines lst) ;;
               Ok (Some (recs ++ [end_of_file])%list)
          else Ok None) ;;
  Ok (mkOut lst hex (ln (parser g)) (errors (parser g))).

(** The rows of the final listing: its lines up to the symbol list. *)
Definition listing_rows (source_text : string) : result (list string) :=
  '(g, tmp) <- pass1 (Py.readlines source_text) (start, [header]) ;;
  '(g, rows) <- pass2 (Py.readlines (String.concat "" tmp)) g ;;
  Ok rows.

End Asm80.

(** ** Vocabulary of the properties *)

(** A source file of the given lines. *)
Definition file (lines : list string) : string :=
  String.concat "" (map (fun l => l ++ Py.nl) lines).

Fixpoint all_chars (f : ascii -> bool) (s : string) : bool :=
  match s with
  | EmptyString => true
  | String c r => f c && all_chars f r
  end.

Definition is_hex_digit (c : ascii) : bool :=
  Py.between 48 57 c || Py.between 65 70 c.

(** [w] upper-case hex digits. *)
Definition hex_word (w : nat) (s : string) : bool :=
  Nat.eqb (String.length s) w && all_chars is_hex_digit s.

(** The bytes of a hex record: the pairs of hex digits after the colon. *)
Fixpoint record_bytes (pairs : nat) (s : string) : result (list Z) :=
  match pairs with
  | O => Ok []
  | S pairs' =>
      match s with
      | EmptyString => Ok []
      | _ =>
          b <- Py.int 16 (Py.upto 2 s) ;;
          bs <- record_bytes pairs' (Py.from 2 s) ;;
          Ok (b :: bs)
      end
  end.

(** The sum of all bytes after the colon, modulo 256. *)
Definition record_sum (rec : string) : result Z :=
  bs <- record_bytes (String.length rec) (Py.from 1 rec) ;;
  Ok (fold_right Z.add 0 bs mod 256).

(** The error count and the hex file of a run. *)
Definition errors_and_hex (source_text : string)
  : result (Z * option (list string)) :=
  out <- Asm80.assemble source_text ;;
  Ok (Asm80.total_errors out, Asm80.hex out).

Import Parse.

(** What the rest of a line can do to the fields settled by its label:
    the label stays, errors are only added, the error code is kept or
    replaced by that of an opcode or operand error, and the symbol table
    is kept or has its last entry replaced by the value of the line's
    own [EQU]. *)
Definition carried (p p' : Parse.t) : Prop :=
  label p' = label p
  /\ errors p <= errors p'
  /\ (err p' = err p \/ In (err p') ["*O*"; "*V*"; "*R*"])
  /\ (symbols p' = symbols p
      \/ exists v, symbols p' = (removelast (symbols p) ++ [(label p, VInt v)])%list).







(** ** Vocabulary of the further properties *)

(** A hex digit of either case, as [int(_, 16)] reads it, and the value
    of a string of them. *)
Definition hexdig (c : ascii) : bool :=
  match Py.digit_value c with
  | Some d => d <? 16
  | None => false
  end.

Definition digit_of (c : ascii) : Z :=
  match Py.digit_value c with
  | Some d => d
  | None => 0
  end.

Fixpoint hexval (acc : Z) (s : string) : Z :=
  match s with
  | EmptyString => acc
  | String c r => hexval (acc * 16 + digit_of c) r
  end.

(** The operand types of the instruction dictionary. *)
Definition operand_types : list ascii :=
  ["-"; "b"; "r"; "a"; "e"; "p"; "d"; "m"; "w"; "v"; "i"]%char.

(** An entry of the dictionary as [opCode] expects it: two hex digits
    and an operand type. *)
Definition well_formed_entry (inst_op : string) : bool :=
  match inst_op with
  | String h (String l (String ty EmptyString)) =>
      is_hex_digit h && is_hex_digit l
      && existsb (Ascii.eqb ty) operand_types
  | _ => false
  end.

Fixpoint no_duplicate_keys (d : list (string * string)) : bool :=
  match d with
  | [] => true
  | (k, _) :: d' =>
      negb (existsb (fun kv => k == fst kv) d') && no_duplicate_keys d'
  end.

(** The four hex digits of an address, as [Op_addr] writes them. *)
Definition hex4 (n : Z) : string := Py.zfill 4 (Py.format_X n).

(** The two hex digits of a byte. *)
Definition hex2 (n : Z) : string := Py.zfill 2 (Py.format_X n).

(** The registers in the order of their codes, and the register pairs
    with theirs. *)
Definition registers : list string :=
  ["B"; "C"; "D"; "E"; "H"; "L"; "M"; "A"].

Fixpoint position (x : string) (l : list string) : Z :=
  match l with
  | [] => 0
  | y :: r => if x == y then 0 else 1 + position x r
  end.

Definition reg_code (r : string) : Z := position r registers.

Definition register_pairs : list (string * Z) :=
  [("B", 0); ("D", 1); ("H", 2); ("SP", 3); ("PSW", 3)].

(** Mnemonics with their base opcodes, by operand type. *)
Definition alu_ops : list (string * Z) :=
  [("ADC", 136); ("ADD", 128); ("ANA", 160); ("CMP", 184);
   ("ORA", 176); ("SBB", 152); ("SUB", 144); ("XRA", 168)].

Definition inr_dcr : list (string * Z) := [("INR", 4); ("DCR", 5)].

Definition pair_ops : list (string * Z) :=
  [("DAD", 9); ("DCX", 11); ("INX", 3); ("POP", 193); ("PUSH", 197)].

Definition ldax_stax : list (string * Z) := [("LDAX", 10); ("STAX", 2)].

(** The parser after a line without label and comment that emits the
    one byte [b1]. *)
Definition one_byte (err b1 mne oper : string) (errors : Z) (p : Parse.t)
  : Parse.t :=
  mk err (ln p + 1) (pc p) b1 "" "" "" "" mne oper 1 "" errors (symbols p).

(** What the operand part of [Pass1] keeps of the parser, and how far it
    can move the rest: the line number, label, comment and mnemonic
    stay; errors are only added, and together with an error code, save
    for the uncounted [*V*]; the byte count is set to 0..3; the program
    counter moves only for [ORG] and [DS]. *)
Definition steady (p p' : Parse.t) : Prop :=
  ln p' = ln p /\ label p' = label p /\ comment p' = comment p
  /\ mne p' = mne p
  /\ (errors p' = errors p /\ (err p' = err p \/ err p' = "*V*")
      \/ errors p < errors p' /\ In (err p') ["*O*"; "*V*"; "*R*"])
  /\ (bytes p' = bytes p \/ 0 <= bytes p' <= 3)
  /\ (pc p' = pc p
      \/ (mne p = "ORG" /\ 0 <= pc p' <= 65535)
      \/ (mne p = "DS" /\ pc p <= pc p' <= pc p + 65535)).

(** What a whole line can do to the parser it starts from. *)
Definition line_effect (p p' : Parse.t) : Prop :=
  ln p' = ln p /\ comment p' = comment p
  /\ (label p' = label p \/ (String.length (label p') <= 6)%nat)
  /\ (errors p' = errors p /\ (err p' = err p \/ err p' = "*V*")
      \/ errors p < errors p'
         /\ In (err p') ["*D*"; "*O*"; "*V*"; "*R*"])
  /\ (bytes p' = bytes p \/ 0 <= bytes p' <= 3)
  /\ (pc p' = pc p
      \/ (mne p' = "ORG" /\ 0 <= pc p' <= 65535)
      \/ (mne p' = "DS" /\ pc p <= pc p' <= pc p + 65535)).

(** Names of at most six characters. *)
Definition short_names (symbols : list (string * pyval)) : Prop :=
  Forall (fun sym => (String.length (fst sym) <= 6)%nat) symbols.

(** A data list: hex digits, two to a byte. *)
Definition hex_bytes (s : string) : bool :=
  all_chars is_hex_digit s && Nat.even (String.length s).

(** What [Pass1] makes of the parser [p] on one line. *)
Definition parsed (p p' : Parse.t) : Prop :=
  ln p' = ln p + 1
  /\ (String.length (label p') <= 6)%nat
  /\ 0 <= bytes p' <= 3
  /\ (errors p' = errors p /\ In (err p') [""; "*V*"]
      \/ errors p < errors p' /\ In (err p') ["*D*"; "*O*"; "*V*"; "*R*"])
  /\ (pc p' = pc p
      \/ (mne p' = "ORG" /\ 0 <= pc p' <= 65535)
      \/ (mne p' = "DS" /\ pc p <= pc p' <= pc p + 65535))
  /\ (symbols p' = symbols p
      \/ (exists v, symbols p' = removelast (symbols p) ++ [("", VInt v)])
      \/ (exists v, symbols p' = symbols p ++ [(label p', VInt v)]))%list.

(** A character of string data: any but the single quote, the semicolon
    and the newline. *)
Definition text_char (c : ascii) : bool :=
  negb (Ascii.eqb c Py.squote) && negb (Ascii.eqb c ";")
  && negb (Ascii.eqb c Py.newline).

Definition text (s : string) : bool := all_chars text_char s.

(** The bytes of string data: the code of each character but the double
    quote, as two hex digits. *)
Fixpoint text_bytes (s : string) : string :=
  match s with
  | EmptyString => EmptyString
  | String c r =>
      if Ascii.eqb c Py.dquote then text_bytes r
      else hex2 (Py.ord c) ++ text_bytes r
  end.

(** The characters that string data emits. *)
Fixpoint emitted (s : string) : nat :=
  match s with
  | EmptyString => O
  | String c r => if Ascii.eqb c Py.dquote then emitted r else S (emitted r)
  end.

(** The data bytes of a listing row as the HEX emitter reads them: the
    first byte column, then the second and the third unless blank. *)
Definition data_field (line : string) : string :=
  let b1 := Py.slice 15 17 line in
  let b2 := Py.slice 18 20 line in
  let b3 := Py.slice 21 23 line in
  if b2 == "  " then b1
  else if b3 == "  " then b1 ++ b2
  else b1 ++ b2 ++ b3.

Definition data_count (line : string) : Z := Py.len (data_field line) / 2.

(** A row of the final listing with three bytes. *)
Definition jmp_resolved_row : string :=
  "       2  0002 C3 00 00           JMP   START".


Definition mvi_high_row : string :=
  "       3  0006 3E ??              MVI  A,HIGH START" ++ Py.nl.

Definition with_start : Asm80.globals :=
  Asm80.set_parser (set_symbols [("START", VInt 256)] Parse.init) Asm80.start.

(** The parts of a source line.  A statement is the text of mnemonic and
    operands: not empty, no blank at either end, no colon, semicolon or
    newline.  A label name has one to six characters, does not start
    with a blank and holds no colon, semicolon, quote or newline.  A
    comment holds no newline. *)
Definition statement_char (c : ascii) : bool :=
  negb (Ascii.eqb c ";") && negb (Ascii.eqb c ":")
  && negb (Ascii.eqb c Py.newline).

Definition statement (s : string) : bool :=
  negb (s == "") && all_chars statement_char s
  && (Py.lstrip s == s) && (Py.rstrip s == s).

Definition label_char (c : ascii) : bool :=
  statement_char c && negb (Ascii.eqb c Py.squote).

Definition label_name (lab : string) : bool :=
  negb (lab == "") && Nat.leb (String.length lab) 6
  && all_chars label_char lab && (Py.lstrip lab == lab).

Definition comment_text (c : string) : bool :=
  all_chars (fun a => negb (Ascii.eqb a Py.newline)) c.

(** The parser when the label of a line has been entered, and the
    opcode look-up that the statement goes to. *)
Definition labelled (lab : string) (p : Parse.t) : Parse.t :=
  let p := check_duplicate (set_label lab p) in
  set_symbols (symbols p ++ [(label p, VInt (pc p))])%list p.

Definition counted (cmt : string) (p : Parse.t) : Parse.t :=
  set_comment cmt (set_ln (ln p + 1) (reset p)).

(** A mnemonic as it stands on the line: one word of statement
    characters. *)
Definition mnemonic (m : string) : bool :=
  negb (m == "") && all_chars statement_char m
  && all_chars (fun c => negb (Py.isspace c)) m.

(** A line made of its parts; [lab], [op] and [cmt] may be empty. *)
Definition source_line (lab m op cmt : string) : string :=
  (if lab == "" then "" else lab ++ ": ")
  ++ m
  ++ (if op == "" then "" else " " ++ op)
  ++ (if cmt == "" then "" else " " ++ cmt).

(** The opcode look-up and the operand check on a parser that holds
    label and comment. *)
Definition opcode_lookup (mne op : string) (p : Parse.t) : result Parse.t :=
  let p := set_mne mne p in
  let opcodes := Instruction808x.opCode mne in
  if opcodes == "Error" then Ok (error "*O*" p)
  else
    op_type <- Py.index 2 opcodes ;;
    Pass1_operand op_type op (set_b1 (Py.slice 0 2 opcodes) p).

(** The length of an instruction by its operand type, and by its
    mnemonic through the dictionary. *)
Definition length_of (mne : string) (op_type : ascii) : Z :=
  if Ascii.eqb op_type "-" then 1
  else if Ascii.eqb op_type "b" then (if mne == "DB" then 1 else 2)
  else if Ascii.eqb op_type "r" then 1
  else if Ascii.eqb op_type "a" then
    (if mne == "DW" then 2
     else if (mne == "DS") || (mne == "ORG") then 0 else 3)
  else if Ascii.eqb op_type "p" then 1
  else if Ascii.eqb op_type "d" then 1
  else if Ascii.eqb op_type "w" then 3
  else if Ascii.eqb op_type "m" then 1
  else if Ascii.eqb op_type "v" then 2
  else if Ascii.eqb op_type "i" then 1
  else 0.

Definition instruction_length (mne : string) : Z :=
  let opcodes := Instruction808x.opCode mne in
  if opcodes == "Error" then 0
  else match Py.index 2 opcodes with
       | Ok op_type => length_of mne op_type
       | Raise _ => 0
       end.

(** Numerals: the digits of a base from 2 to 16 and the value of a
    string of them, most significant digit first. *)
Definition digit_in (base : Z) (c : ascii) : bool :=
  match Py.digit_value c with
  | Some d => d <? base
  | None => false
  end.

Fixpoint numeral (base acc : Z) (s : string) : Z :=
  match s with
  | EmptyString => acc
  | String c r => numeral base (acc * base + digit_of c) r
  end.

Definition starts_with_digit (s : string) : bool :=
  match s with
  | String c _ => Py.isdigit c
  | EmptyString => false
  end.

(** The radix letters of the literals, with the base each stands for;
    a decimal literal has none. *)
Definition radixes : list (string * Z) :=
  [("H", 16); ("Q", 8); ("B", 2); ("", 10)].

(** The instructions with one byte of immediate data, with their
    opcodes. *)
Definition immediate_ops : list (string * Z) :=
  [("ACI", 206); ("ADI", 198); ("ANI", 230); ("CPI", 254); ("ORI", 246);
   ("SBI", 222); ("SUI", 214); ("XRI", 238); ("IN", 219); ("OUT", 211);
   ("LDHI", 40); ("LDSI", 56)].

(** The parser after a line without label and comment. *)
Definition assembled (err b1 b2 b3 mne oper : string) (bytes errors : Z)
  (p : Parse.t) : Parse.t :=
  mk err (ln p + 1) (pc p) b1 b2 b3 "" "" mne oper bytes "" errors (symbols p).

Definition no_comma (s : string) : bool :=
  all_chars (fun c => negb (Ascii.eqb c ",")) s.

(** A symbol name in a reference: not empty, without sign. *)
Definition unsigned_name (s : string) : bool :=
  negb (s == "")
  && all_chars (fun c => negb (Ascii.eqb c "+") && negb (Ascii.eqb c "-")) s.

Definition decimal (s : string) : bool :=
  negb (s == "") && all_chars (digit_in 10) s.








(** * Properties *)

(** ** Tactics *)

(** Take a successful run apart along its tests and calls. *)
Ltac crack :=
  repeat match goal with
         | H : Raise _ = Ok _ |- _ => discriminate H
         | H : Ok _ = Ok _ |- _ => inversion H; subst; clear H
         | H : (if ?b then _ else _) = Ok _ |- _ => destruct b eqn:?
         | H : match ?m with _ => _ end = Ok _ |- _ => destruct m eqn:?
         end.

Ltac fields :=
  cbn [label errors err symbols set_err set_ln set_pc set_b1 set_b2 set_b3
       set_long set_label set_mne set_oper set_bytes set_comment set_errors
       set_symbols error addr_bytes].

(** ** The built-in operations and the operand parsers on examples *)

Example py_int_hex : Py.int 16 "0FF" = Ok 255. Proof. reflexivity. Qed.
Example py_int_prefix : Py.int 16 "0x1F" = Ok 31. Proof. reflexivity. Qed.
Example py_int_us : Py.int 10 "1_000 " = Ok 1000. Proof. reflexivity. Qed.
Example py_int_bad : Py.int 10 "12a" = Raise ValueError. Proof. reflexivity. Qed.
Example py_int_empty : Py.int 10 "" = Raise ValueError. Proof. reflexivity. Qed.
Example py_int_neg : Py.int 16 "-001" = Ok (-1). Proof. reflexivity. Qed.
Example py_format : Py.zfill 4 (Py.format_X 255) = "00FF". Proof. reflexivity. Qed.
Example py_format_neg : Py.zfill 4 (Py.format_x (-1)) = "-001". Proof. reflexivity. Qed.
Example py_split : Py.split_on "+" (Some 2%nat) "A+B+C+D" = ["A"; "B"; "C+D"].
Proof. reflexivity. Qed.
Example py_split_ws : Py.split_ws "  X:  EQU Y + 1 " = ["X:"; "EQU"; "Y"; "+"; "1"].
Proof. reflexivity. Qed.
Example py_find : Py.find "?? ??" "ab ?? ?? c" = 3. Proof. reflexivity. Qed.
Example py_rstrip : Py.rstrip " a b  " = " a b". Proof. reflexivity. Qed.
Example op_byte_char : Parse.Op_byte "'A'" = "41". Proof. reflexivity. Qed.
Example op_byte_hex : Parse.Op_byte "0FFH" = "FF". Proof. reflexivity. Qed.
Example op_byte_oct : Parse.Op_byte "101Q" = "41". Proof. reflexivity. Qed.
Example op_byte_bin : Parse.Op_byte "01000001B" = "41". Proof. reflexivity. Qed.
Example op_byte_dec : Parse.Op_byte "255" = "FF". Proof. reflexivity. Qed.
Example op_byte_256 : Parse.Op_byte "256" = "Error". Proof. reflexivity. Qed.
Example op_byte_neg : Parse.Op_byte "-1" = "Error". Proof. reflexivity. Qed.
Example op_addr_hex : Parse.Op_addr "0FFFFH" = Ok "FFFF". Proof. reflexivity. Qed.
Example op_addr_big : Parse.Op_addr "10000H" = Ok "Error". Proof. reflexivity. Qed.
Example op_addr_lab : Parse.Op_addr "START" = Ok "Label". Proof. reflexivity. Qed.
Example op_addr_sp : Parse.Op_addr " 1" = Ok "0001". Proof. reflexivity. Qed.
Example pass1_mvi :
  Parse.Pass1 "START: MVI   C,0A1H   ;load" Parse.init
  = Ok (Parse.mk "" 1 0 "0E" "A1" "" "" "START" "MVI" "C,0A1H" 2 ";load" 0
          [("START", VInt 0)]).
Proof. reflexivity. Qed.

(** ** The bounded loops run to their end *)

Lemma pos_below_size p : Z.pos p < 2 ^ Z.of_nat (Pos.size_nat p).
Proof.
  induction p as [p IH|p IH|]; cbn [Pos.size_nat].
  - rewrite Nat2Z.inj_succ, Z.pow_succ_r by lia. lia.
  - rewrite Nat2Z.inj_succ, Z.pow_succ_r by lia. lia.
  - reflexivity.
Qed.

(** More turns than the bits of the number change nothing: the digit
    loop of [format] always ends on its own test. *)
Lemma hex_digits_turns capital t :
  forall n acc extra,
    (1 <= t)%nat ->
    0 <= n < 2 ^ Z.of_nat t ->
    Py.hex_digits capital (t + extra) n acc = Py.hex_digits capital t n acc.
Proof.
  induction t as [|t IH]; intros n acc extra Ht Hn; [lia|].
  cbn [Nat.add Py.hex_digits].
  destruct (n <? 16) eqn:E; [reflexivity|].
  apply Z.ltb_ge in E.
  rewrite Nat2Z.inj_succ, Z.pow_succ_r in Hn by lia.
  destruct t as [|t].
  - change (2 ^ Z.of_nat 0) with 1 in Hn. lia.
  - apply IH; [lia|].
    split; [apply Z.div_pos; lia|].
    apply Z.div_lt_upper_bound; lia.
Qed.

Lemma format_hex_turns capital p extra :
  Py.hex_digits capital (Pos.size_nat p + extra) (Z.pos p) ""
  = Py.hex_digits capital (Pos.size_nat p) (Z.pos p) "".
Proof.
  apply hex_digits_turns.
  - destruct p; cbn [Pos.size_nat]; lia.
  - split; [lia | apply pos_below_size].
Qed.

Lemma length_from n : forall s, String.length (Py.from n s) = (String.length s - n)%nat.
Proof.
  induction n as [|n IH]; intros s; cbn [Py.from].
  - lia.
  - destruct s as [|c s]; [reflexivity|]. cbn [String.length]. apply IH.
Qed.

(** The loop over full continuation rows stops with at most three bytes
    left, as [while len(ll) > 6] does. *)
Lemma full_data_lines_done t :
  forall pc ll,
    (String.length ll <= t)%nat ->
    Py.len (snd (fst (Asm80.full_data_lines t pc ll))) <= 6.
Proof.
  induction t as [|t IH]; intros pc ll Hlen; cbn [Asm80.full_data_lines].
  - cbn [fst snd]. unfold Py.len. lia.
  - destruct (6 <? Py.len ll) eqn:E.
    + specialize (IH (pc + 3) (Py.from 6 ll)).
      destruct (Asm80.full_data_lines t (pc + 3) (Py.from 6 ll)) as [[pc' ll'] rows].
      cbn [fst snd] in IH |- *. apply IH.
      rewrite length_from. apply Z.ltb_lt in E. unfold Py.len in E. lia.
    + cbn [fst snd]. now apply Z.ltb_ge in E.
Qed.

(** ** The numeric-literal parsers are total *)

Lemma below_forallb (f : Z -> bool) (k : nat) :
  forallb f (map Z.of_nat (seq 0 k)) = true ->
  forall n, 0 <= n < Z.of_nat k -> f n = true.
Proof.
  intros H n Hn.
  rewrite forallb_forall in H.
  apply H.
  rewrite <- (Z2Nat.id n) by lia.
  apply in_map, in_seq. lia.
Qed.

Lemma hex_digit_is_hex d :
  0 <= d < 16 -> is_hex_digit (Py.hex_digit true d) = true.
Proof.
  intros Hd.
  apply (below_forallb (fun d => is_hex_digit (Py.hex_digit true d)) 16).
  - reflexivity.
  - simpl. lia.
Qed.

(** The digits of a number below [16 ^ k] are at most [k], all hex. *)
Lemma hex_digits_shape turns :
  forall k n acc,
    0 <= n < 16 ^ Z.of_nat (S k) ->
    all_chars is_hex_digit acc = true ->
    let s := Py.hex_digits true turns n acc in
    all_chars is_hex_digit s = true
    /\ (String.length s <= S k + String.length acc)%nat.
Proof.
  induction turns as [|turns IH]; intros k n acc Hn Hacc; cbn [Py.hex_digits].
  - split; [assumption | lia].
  - assert (Hd : is_hex_digit (Py.hex_digit true (n mod 16)) = true)
      by (apply hex_digit_is_hex, Z.mod_pos_bound; lia).
    destruct (n <? 16) eqn:E.
    + cbn [all_chars String.length]. rewrite Hd, Hacc. split; [reflexivity | lia].
    + apply Z.ltb_ge in E.
      destruct k as [|k].
      { change (16 ^ Z.of_nat 1) with 16 in Hn. lia. }
      destruct (IH k (n / 16) (String (Py.hex_digit true (n mod 16)) acc))
        as [H1 H2].
      * split; [apply Z.div_pos; lia|].
        apply Z.div_lt_upper_bound; [lia|].
        replace (16 ^ Z.of_nat (S (S k))) with (16 * 16 ^ Z.of_nat (S k)) in Hn
          by (rewrite (Nat2Z.inj_succ (S k)), Z.pow_succ_r; lia).
        lia.
      * cbn [all_chars]. now rewrite Hd, Hacc.
      * split; [exact H1|]. cbn [String.length] in H2. lia.
Qed.

Lemma format_X_shape k n :
  0 <= n < 16 ^ Z.of_nat (S k) ->
  all_chars is_hex_digit (Py.format_X n) = true
  /\ (String.length (Py.format_X n) <= S k)%nat.
Proof.
  intros Hn.
  unfold Py.format_X, Py.format_hex.
  replace (n <? 0) with false by (symmetry; apply Z.ltb_ge; lia).
  rewrite Z.abs_eq by lia.
  destruct n as [|p|p]; [split; [reflexivity | cbn; lia] | | lia].
  pose proof (hex_digits_shape (Pos.size_nat p) k (Z.pos p) "" Hn eq_refl) as H.
  cbn [String.length] in H. cbv zeta in H.
  rewrite Nat.add_0_r in H. exact H.
Qed.

Lemma all_chars_app f s t :
  all_chars f (s ++ t) = all_chars f s && all_chars f t.
Proof.
  induction s as [|c s IH]; cbn; [reflexivity|].
  now rewrite IH, andb_assoc.
Qed.

Lemma all_chars_repeat f c n : f c = true -> all_chars f (Py.repeat_char c n) = true.
Proof.
  intros Hc. induction n as [|n IH]; cbn; [reflexivity|].
  now rewrite Hc, IH.
Qed.

Lemma length_app (s t : string) :
  String.length (s ++ t) = (String.length s + String.length t)%nat.
Proof.
  induction s as [|c s IH]; cbn; [reflexivity | now rewrite IH].
Qed.

Lemma length_repeat c n : String.length (Py.repeat_char c n) = n.
Proof.
  induction n as [|n IH]; cbn; [reflexivity | now rewrite IH].
Qed.

(** Zero-filling hex digits to a width they do not exceed. *)
Lemma zfill_hex w s :
  all_chars is_hex_digit s = true ->
  (String.length s <= w)%nat ->
  hex_word w (Py.zfill w s) = true.
Proof.
  intros Hs Hlen.
  unfold hex_word, Py.zfill.
  assert (Hpad : forall t, all_chars is_hex_digit t = true ->
                  (String.length t <= w)%nat ->
                  Nat.eqb (String.length (Py.repeat_char "0" (w - String.length t) ++ t)) w
                  && all_chars is_hex_digit (Py.repeat_char "0" (w - String.length t) ++ t)
                  = true).
  { intros t Ht Hl.
    rewrite length_app, length_repeat, all_chars_app, Ht.
    rewrite all_chars_repeat by reflexivity.
    replace (w - String.length t + String.length t)%nat with w by lia.
    now rewrite Nat.eqb_refl. }
  destruct s as [|c r].
  - specialize (Hpad "" eq_refl Hlen).
    cbn [String.length] in Hpad.
    replace (Py.repeat_char "0" (w - 0) ++ "") with (Py.repeat_char "0" (w - 0)) in Hpad.
    + exact Hpad.
    + generalize (Py.repeat_char "0" (w - 0)).
      induction s as [|a s IH]; cbn; [reflexivity | now rewrite <- IH].
  - destruct (Ascii.eqb c "+" || Ascii.eqb c "-") eqn:E.
    + cbn [all_chars] in Hs. apply andb_true_iff in Hs as [Hc _].
      apply orb_true_iff in E as [E|E]; apply Ascii.eqb_eq in E; subst c;
        discriminate Hc.
    + now apply Hpad.
Qed.

Lemma hex_byte n : 0 <= n <= 255 -> hex_word 2 (Py.zfill 2 (Py.format_X n)) = true.
Proof.
  intros Hn.
  destruct (format_X_shape 1 n) as [H1 H2].
  - change (16 ^ Z.of_nat 2) with 256. lia.
  - now apply zfill_hex.
Qed.

Lemma hex_address n :
  0 <= n <= 65535 -> hex_word 4 (Py.zfill 4 (Py.format_X n)) = true.
Proof.
  intros Hn.
  destruct (format_X_shape 3 n) as [H1 H2].
  - change (16 ^ Z.of_nat 4) with 65536. lia.
  - now apply zfill_hex.
Qed.

Lemma ord_range c : 0 <= Py.ord c <= 255.
Proof.
  unfold Py.ord.
  pose proof (nat_ascii_bounded c). lia.
Qed.

Lemma in_range_byte dec :
  Parse.in_range 255 2 dec = "Error"
  \/ hex_word 2 (Parse.in_range 255 2 dec) = true.
Proof.
  unfold Parse.in_range.
  destruct ((dec <? 0) || (255 <? dec)) eqn:E; [now left | right].
  apply orb_false_iff in E as [E1 E2].
  apply hex_byte. lia.
Qed.

Lemma in_range_address dec :
  Parse.in_range 65535 4 dec = "Error"
  \/ hex_word 4 (Parse.in_range 65535 4 dec) = true.
Proof.
  unfold Parse.in_range.
  destruct ((dec <? 0) || (65535 <? dec)) eqn:E; [now left | right].
  apply orb_false_iff in E as [E1 E2].
  apply hex_address. lia.
Qed.

(** Whatever the [try] of [Op_byte] yields is a hex byte or ['Error']. *)
Lemma Op_byte_try_shape operand s :
  Parse.Op_byte_try operand = Ok s -> s = "Error" \/ hex_word 2 s = true.
Proof.
  unfold Parse.Op_byte_try, bind.
  repeat match goal with
         | |- context [if ?b then _ else _] => destruct b
         | |- context [match ?m with _ => _ end] => destruct m
         end;
    intros H; inversion H; subst;
    try apply in_range_byte.
  right. apply hex_byte, ord_range.
Qed.

Lemma Op_addr_try_shape operand s :
  Parse.Op_addr_try operand = Ok s -> s = "Error" \/ hex_word 4 s = true.
Proof.
  unfold Parse.Op_addr_try, bind.
  repeat match goal with
         | |- context [if ?b then _ else _] => destruct b
         | |- context [match ?m with _ => _ end] => destruct m
         end;
    intros H; inversion H; subst;
    try apply in_range_address.
  right. apply hex_address. pose proof (ord_range a). lia.
Qed.

Lemma Op_byte_shape operand :
  Parse.Op_byte operand = "Error" \/ hex_word 2 (Parse.Op_byte operand) = true.
Proof.
  unfold Parse.Op_byte.
  destruct (Parse.Op_byte_try operand) eqn:E; [|now left].
  eapply Op_byte_try_shape; eauto.
Qed.

Lemma Op_addr_shape operand :
  exists r, Parse.Op_addr operand = Ok r
            /\ (r = "Error" \/ r = "Label" \/ hex_word 4 r = true).
Proof.
  unfold Parse.Op_addr.
  destruct operand as [|c rest].
  - exists "Error". auto.
  - cbn [Py.len String.length]. 
    replace (Z.of_nat (S (String.length rest)) =? 0) with false
      by (symmetry; apply Z.eqb_neq; lia).
    cbn [Py.index String.get bind].
    destruct (Py.isalpha c).
    + exists "Label". auto.
    + destruct (Parse.Op_addr_try (String c rest)) eqn:E.
      * exists a. split; [reflexivity|].
        apply Op_addr_try_shape in E. tauto.
      * exists "Error". auto.
Qed.

(** C10. [Op_byte] and [Op_addr] return normally on every input string:
    [Op_byte] yields ['Error'] or two hex digits, [Op_addr] yields
    ['Error'], ['Label'] or four hex digits; no exception reaches the
    caller. *)
Theorem numeric_parsers_total :
  forall operand : string,
    (Parse.Op_byte operand = "Error"
     \/ hex_word 2 (Parse.Op_byte operand) = true)
    /\ (exists r, Parse.Op_addr operand = Ok r
                  /\ (r = "Error" \/ r = "Label" \/ hex_word 4 r = true)).
Proof.
  intros operand. split.
  - apply Op_byte_shape.
  - apply Op_addr_shape.
Qed.

(** ** The Intel HEX checksum *)

(** C1. The HEX emitter adds 1 for the length byte whatever the length
    is, and formats a zero checksum as [100].  On the two-line program
    of the manual the run has no error, yet the records of two and of
    three data bytes do not sum to 0 modulo 256; nor does the one-byte
    record of [RST 7], whose checksum comes out as the three characters
    [100]. *)
Theorem hex_checksum_counts_length_as_one :
  errors_and_hex (file ["START: MVI   C,0A1H   ;load"; "       JMP   START"])
  = Ok (0, Some [":020000000EA150"; ":03000200C300003A"; ":00000001FF"])
  /\ record_sum ":020000000EA150" = Ok 1
  /\ record_sum ":03000200C300003A" = Ok 2
  /\ errors_and_hex (file [" RST 7"])
     = Ok (0, Some [":01000000FF100"; ":00000001FF"]).
Proof.
  repeat split; vm_compute; reflexivity.
Qed.

(** ** Division by zero in [EQU] *)

(** C3. The guard of the division compares the string [p1] with the
    integer 0 and never holds: [EQU 4/0] raises [ZeroDivisionError] in
    Pass 1, and a division by zero deferred to Pass 2 raises it there;
    no line is marked and the run ends. *)
Theorem equ_division_by_zero_raises :
  Parse.Pass1 "X: EQU 4/0" Parse.init = Raise ZeroDivisionError
  /\ Asm80.assemble (file ["X: EQU 4/0"]) = Raise ZeroDivisionError
  /\ Asm80.assemble (file ["Y: NOP"; "X: EQU Y / 0"]) = Raise ZeroDivisionError.
Proof.
  repeat split; vm_compute; reflexivity.
Qed.

(** ** The gate of the HEX emitter *)

(** The hex file is written exactly when the error count is 0. *)
Lemma hex_iff_no_errors source_text out :
  Asm80.assemble source_text = Ok out ->
  (Asm80.hex out <> None <-> Asm80.total_errors out = 0).
Proof.
  intros H. unfold Asm80.assemble, bind in H.
  crack; cbn [Asm80.hex Asm80.total_errors];
    match goal with
    | E : (_ =? 0) = true |- _ => apply Z.eqb_eq in E
    | E : (_ =? 0) = false |- _ => apply Z.eqb_neq in E
    end;
    split; intros K; try assumption; try discriminate; contradiction.
Qed.

(** C5. [RST 256] is marked [*V*], but that path does not count the
    error: the total stays 0 and the hex file is written although a
    line carries an error code. *)
Theorem hex_written_despite_error_code :
  Asm80.listing_rows (file [" RST 256"])
  = Ok [Asm80.header;
        "*V*    1  0000 C7                 RST  256        " ++ Py.nl]
  /\ errors_and_hex (file [" RST 256"])
     = Ok (0, Some [":01000000C738"; ":00000001FF"]).
Proof.
  split; vm_compute; reflexivity.
Qed.

(** ** The symbol of an [EQU] line *)

(** C6. The label of an [EQU] line enters the symbol table with the
    program counter, not with 0: after [ORG 100H] the entry is
    [(X, 256)].  Pass 2 searches for [(X, 0)], does not find it, and the
    run ends in a [ValueError]. *)
Theorem equ_label_inserted_with_pc :
  (p <- Parse.Pass1 " ORG 100H" Parse.init ;;
   p <- Parse.Pass1 "X: EQU Y + 1" p ;;
   Ok (Parse.symbols p)) = Ok [("X", VInt 256)]
  /\ Asm80.assemble (file [" ORG 100H"; "X: EQU Y + 1"; "Y: NOP"])
     = Raise ValueError.
Proof.
  split; vm_compute; reflexivity.
Qed.

(** ** [RST] *)

(** C8. [RST 8] is not rejected: only the first hex digit of the operand
    is tested, and the line gets the three characters [107] as its byte
    and no error code; [RST 10] even ends the run, on [int('A')].  The
    operands 0 to 7 give the base opcode plus eight times the operand,
    so [RST 7] gives [FF]. *)
Theorem rst_8_accepted :
  Asm80.listing_rows (file [" RST 8"])
  = Ok [Asm80.header;
        "       1  0000 107                RST  8          " ++ Py.nl]
  /\ (p <- Parse.Pass1 " RST 8" Parse.init ;; Ok (Parse.err p, Parse.b1 p))
     = Ok ("", "107")
  /\ Parse.Pass1 " RST 10" Parse.init = Raise ValueError
  /\ map (fun n => p <- Parse.Pass1 (" RST " ++ n) Parse.init ;;
                   Ok (Parse.err p, Parse.b1 p))
       ["0"; "1"; "2"; "3"; "4"; "5"; "6"; "7"]
     = map (fun b1 => Ok ("", b1))
         ["C7"; "CF"; "D7"; "DF"; "E7"; "EF"; "F7"; "FF"].
Proof.
  repeat split; vm_compute; reflexivity.
Qed.

(** ** Comments *)

(** C9. The comment starts at the first [;] of the line, quoted or not:
    in [DB ';'] the comment is [;'] and the operand is the lone quote,
    so the byte 3B is not emitted. *)
Theorem semicolon_in_literal_starts_comment :
  (p <- Parse.Pass1 " DB ';'" Parse.init ;;
   Ok (Parse.comment p, Parse.oper p, Parse.long p))
  = Ok (String ";" (String Py.squote ""), String Py.squote "", "")
  /\ Asm80.listing_rows (file [" DB ';'"])
     = Ok [Asm80.header;
           "       1  0000 00                 DB   '          ;'" ++ Py.nl].
Proof.
  split; vm_compute; reflexivity.
Qed.

(** ** Duplicate labels *)

Lemma db_string_fields l :
  forall p,
    let q := fold_left
               (fun p char =>
                  if Ascii.eqb char Py.dquote then p
                  else set_long
                         (long p ++ Op_byte (String Py.squote (String char (String Py.squote ""))))
                         p) l p in
    label q = label p /\ errors q = errors p /\ err q = err p
    /\ symbols q = symbols p.
Proof.
  induction l as [|c l IH]; intros p; cbn [fold_left]; [tauto|].
  destruct (Ascii.eqb c Py.dquote); [apply IH|].
  match goal with
  | |- context [fold_left _ l ?x] => destruct (IH x) as (H1 & H2 & H3 & H4)
  end.
  cbv zeta in *. rewrite H1, H2, H3, H4. tauto.
Qed.

Lemma db_operand_fields p op :
  let q := db_operand p op in
  label q = label p /\ errors q = errors p /\ err q = err p
  /\ symbols q = symbols p.
Proof.
  unfold db_operand.
  destruct (Py.find _ _ =? 0).
  - apply db_string_fields.
  - destruct (Op_byte _ == "Error"); cbn; tauto.
Qed.

Lemma db_fold_fields l :
  forall p,
    let q := fold_left db_operand l p in
    label q = label p /\ errors q = errors p /\ err q = err p
    /\ symbols q = symbols p.
Proof.
  induction l as [|op l IH]; intros p; cbn [fold_left]; [tauto|].
  destruct (IH (db_operand p op)) as (H1 & H2 & H3 & H4).
  destruct (db_operand_fields p op) as (K1 & K2 & K3 & K4).
  cbv zeta in *. rewrite H1, H2, H3, H4, K1, K2, K3, K4. tauto.
Qed.

Ltac carried_done :=
  unfold carried;
  repeat match goal with
         | |- context [if ?b then _ else _] => destruct b
         end;
  fields;
  repeat match goal with
         | |- context [fold_left db_operand ?l ?p] =>
             let H1 := fresh in let H2 := fresh in
             let H3 := fresh in let H4 := fresh in
             destruct (db_fold_fields l p) as (H1 & H2 & H3 & H4);
             cbv zeta in H1, H2, H3, H4;
             rewrite ?H1, ?H2, ?H3, ?H4; clear H1 H2 H3 H4
         end;
  repeat split;
  try lia;
  try (left; reflexivity);
  try (right; cbn [In]; tauto);
  try (right; eexists; reflexivity).

Lemma pop_symbol_ok p q :
  pop_symbol p = Ok q -> q = set_symbols (removelast (symbols p)) p.
Proof.
  unfold pop_symbol. destruct (symbols p); intros H; now inversion H.
Qed.

Lemma Pass1_operand_carried op_type line p p' :
  Pass1_operand op_type line p = Ok p' -> carried p p'.
Proof.
  intros H.
  unfold Pass1_operand, add_to_b1, bind in H.
  crack;
    repeat match goal with
           | H : pop_symbol _ = Ok _ |- _ => apply pop_symbol_ok in H; subst
           end;
    carried_done.
Qed.

Lemma Pass1_mnemonic_carried line p p' :
  Pass1_mnemonic line p = Ok p' -> carried p p'.
Proof.
  intros H.
  unfold Pass1_mnemonic, bind in H.
  crack;
    try match goal with
        | H : Pass1_operand _ _ _ = Ok _ |- _ =>
            apply Pass1_operand_carried in H;
            destruct H as (H1 & H2 & H3 & H4);
            revert H1 H2 H3 H4; unfold carried; fields;
            intros H1 H2 H3 H4; repeat split; assumption
        end;
    carried_done.
Qed.


Lemma lookup_val_app l s1 :
  forall s2 init,
    Asm80.lookup_val l (s1 ++ s2) init
    = Asm80.lookup_val l s2 (Asm80.lookup_val l s1 init).
Proof.
  induction s1 as [|sym s1 IH]; intros s2 init; cbn; [reflexivity|].
  destruct (fst sym == l); apply IH.
Qed.

Lemma lookup_val_absent l s :
  forall init, ~ In l (map fst s) -> Asm80.lookup_val l s init = init.
Proof.
  induction s as [|sym s IH]; intros init Hn; cbn; [reflexivity|].
  cbn in Hn.
  destruct (fst sym == l) eqn:E.
  - apply String.eqb_eq in E. tauto.
  - apply IH. tauto.
Qed.














(** C2.  The first definition of a label does not win.  With [X]
    defined at 0 and again at 1, the second line is listed with [*D*],
    but the search of Pass 2 does not stop at the first entry under the
    name: it runs on to the last, yields 1 and not 0, and [JMP X] is
    assembled as [C3 01 00]. *)
Theorem first_definition_does_not_win :
  exists g tmp,
    Asm80.pass1 (Py.readlines (file ["X: NOP"; "X: NOP"; " JMP X"]))
      (Asm80.start, [Asm80.header]) = Ok (g, tmp)
    /\ symbols (Asm80.parser g) = [("X", VInt 0); ("X", VInt 1)]
    /\ Asm80.lookup_add "X" 0 (symbols (Asm80.parser g)) (VStr "")
       = Ok (VInt 1)
    /\ Asm80.lookup_add "X" 0 (symbols (Asm80.parser g)) (VStr "")
       <> Ok (VInt 0)
    /\ Asm80.listing_rows (file ["X: NOP"; "X: NOP"; " JMP X"])
       = Ok [Asm80.header;
             "       1  0000 00         X:      NOP             " ++ Py.nl;
             "*D*    2  0001 00         X:      NOP             " ++ Py.nl;
             "       3  0002 C3 01 00           JMP  X          " ++ Py.nl].
Proof.
  eexists. eexists.
  split; [vm_compute; reflexivity|].
  split; [reflexivity|].
  split; [reflexivity|].
  split; [discriminate|].
  vm_compute. reflexivity.
Qed.

(** ** Placeholders left undefined by Pass 2 *)

Lemma find_lower sub s : -1 <= Py.find sub s.
Proof.
  induction s as [|c s IH]; cbn [Py.find].
  - destruct (Py.starts_with sub ""); lia.
  - destruct (Py.starts_with sub (String c s)); [lia|].
    destruct (Py.find sub s <? 0) eqn:E; [lia|].
    apply Z.ltb_ge in E. lia.
Qed.

(** [find] on a string that does not start with the pattern. *)
Lemma find_skip sub c s :
  Py.starts_with sub (String c s) = false ->
  Py.find sub (String c s)
  = if Py.find sub s <? 0 then -1 else Py.find sub s + 1.
Proof.
  intros H. cbn [Py.find]. now rewrite H.
Qed.

Lemma find_skip_none sub c s :
  Py.starts_with sub (String c s) = false ->
  Py.find sub s = -1 ->
  Py.find sub (String c s) = -1.
Proof.
  intros H E. rewrite find_skip, E by assumption. reflexivity.
Qed.








Lemma label_offset_parser t g label offset g' :
  Asm80.label_offset t g = Ok (label, offset, g') ->
  Asm80.parser g' = Asm80.parser g.
Proof.
  intros H. unfold Asm80.label_offset, bind in H.
  crack; reflexivity.
Qed.

(** ** Appending and searching strings *)

Lemma app_assoc_str (s t u : string) : (s ++ t) ++ u = s ++ t ++ u.
Proof.
  induction s as [|c s IH]; cbn; [reflexivity | now rewrite IH].
Qed.

Lemma app_empty_r (s : string) : s ++ "" = s.
Proof.
  induction s as [|c s IH]; cbn; [reflexivity | now rewrite IH].
Qed.

(** No occurrence of a character that the string does not hold. *)
Lemma find_char_none (a : ascii) (f : ascii -> bool) s :
  (forall c, f c = true -> Ascii.eqb c a = false) ->
  all_chars f s = true ->
  Py.find (String a "") s = -1.
Proof.
  intros Hf. induction s as [|c s IH]; intros Hs.
  - reflexivity.
  - cbn [all_chars] in Hs. apply andb_true_iff in Hs as [Hc Hs].
    apply find_skip_none; [|now apply IH].
    cbn [Py.starts_with]. rewrite Ascii.eqb_sym, (Hf c Hc). reflexivity.
Qed.

(** * Further properties *)

(** ** Hex text and its value *)

Lemma hexdig_value c :
  hexdig c = true ->
  exists d, Py.digit_value c = Some d /\ 0 <= d < 16 /\ digit_of c = d.
Proof.
  unfold hexdig, digit_of.
  destruct (Py.digit_value c) as [d|] eqn:E; [|discriminate].
  intros H. apply Z.ltb_lt in H.
  exists d. repeat split; try assumption.
  unfold Py.digit_value in E.
  pose proof (ord_range c).
  repeat match type of E with
         | (if ?b then _ else _) = _ => destruct b eqn:?
         end; inversion E; subst;
    match goal with
    | Hb : Py.between _ _ c = true |- _ =>
        unfold Py.between in Hb; apply andb_true_iff in Hb as [Hb1 Hb2];
        apply Z.leb_le in Hb1; lia
    end.
Qed.

(** What a hex digit is not: a blank, a sign, an underscore, or the
    letter of a base prefix. *)
Lemma hexdig_plain c :
  hexdig c = true ->
  Py.c_isspace c = false
  /\ Ascii.eqb c "_" = false
  /\ Ascii.eqb c "+" = false /\ Ascii.eqb c "-" = false
  /\ Ascii.eqb (Py.upper_char c) "X" = false.
Proof.
  destruct c as [[] [] [] [] [] [] [] []];
    try discriminate; intros _; repeat split; reflexivity.
Qed.

Lemma scan_hex s :
  forall acc n,
    all_chars hexdig s = true ->
    Py.scan_digits 16 s false acc n
    = Some (hexval acc s, (n + String.length s)%nat, "").
Proof.
  induction s as [|c r IH]; intros acc n H; cbn [Py.scan_digits hexval String.length].
  - now rewrite Nat.add_0_r.
  - cbn [all_chars] in H. apply andb_true_iff in H as [Hc Hr].
    destruct (hexdig_plain c Hc) as (_ & Hus & _).
    destruct (hexdig_value c Hc) as (d & Hd & Hrange & Hdig).
    rewrite Hus, Hd, Hdig.
    replace (d <? 16) with true by (symmetry; apply Z.ltb_lt; lia).
    rewrite (IH _ _ Hr). f_equal. f_equal. f_equal. lia.
Qed.

(** [int(s, 16)] on a non-empty string of hex digits is its value. *)
Lemma int16_hex s :
  all_chars hexdig s = true ->
  s <> "" ->
  Py.int 16 s = Ok (hexval 0 s).
Proof.
  intros H Hne.
  destruct s as [|c r]; [congruence|].
  pose proof H as Hall.
  cbn [all_chars] in H. apply andb_true_iff in H as [Hc Hr].
  destruct (hexdig_plain c Hc) as (Hsp & Hus & Hplus & Hminus & _).
  unfold Py.int.
  cbn [Py.skip_c_space]. rewrite Hsp.
  assert (Hsign :
    match String c r with
    | String "+" r0 => (1, r0)
    | String "-" r0 => (-1, r0)
    | _ => (1, String c r)
    end = (1, String c r)).
  { clear - Hplus Hminus.
    destruct c as [[] [] [] [] [] [] [] []]; try reflexivity; discriminate. }
  rewrite Hsign.
  assert (Hpre : Py.skip_base_prefix 16 (String c r) = String c r).
  { clear - Hr.
    unfold Py.skip_base_prefix.
    destruct c as [[] [] [] [] [] [] [] []]; try reflexivity.
    destruct r as [|p r']; [reflexivity|].
    cbn [all_chars] in Hr. apply andb_true_iff in Hr as [Hp _].
    destruct (hexdig_plain p Hp) as (_ & _ & _ & _ & HX).
    cbv zeta. rewrite HX. reflexivity. }
  rewrite Hpre.
  assert (Hlead :
    forall (A : Type) (x y : A),
      match String c r with
      | String "_" _ => x
      | _ => y
      end = y).
  { clear - Hus. intros A x y.
    destruct c as [[] [] [] [] [] [] [] []]; try reflexivity; discriminate. }
  rewrite Hlead.
  rewrite (scan_hex _ 0 0%nat Hall).
  cbn [Nat.add String.length Py.skip_c_space].
  now rewrite Z.mul_1_l.
Qed.

Lemma hexval_shift s :
  forall acc, hexval acc s = acc * 16 ^ Z.of_nat (String.length s) + hexval 0 s.
Proof.
  induction s as [|c r IH]; intros acc; cbn [hexval String.length].
  - cbn. lia.
  - rewrite (IH (acc * 16 + digit_of c)), (IH (0 * 16 + digit_of c)).
    rewrite Nat2Z.inj_succ, Z.pow_succ_r by lia. lia.
Qed.

Lemma hex_digit_hexdig capital d :
  0 <= d < 16 ->
  hexdig (Py.hex_digit capital d) = true
  /\ digit_of (Py.hex_digit capital d) = d.
Proof.
  intros Hd.
  assert (H : (hexdig (Py.hex_digit capital d)
               && (digit_of (Py.hex_digit capital d) =? d)) = true).
  { apply (below_forallb
             (fun d => hexdig (Py.hex_digit capital d)
                       && (digit_of (Py.hex_digit capital d) =? d)) 16).
    - destruct capital; reflexivity.
    - cbn. lia. }
  apply andb_true_iff in H as [H1 H2]. apply Z.eqb_eq in H2. now split.
Qed.

(** The digits that [format] writes are hex digits, and they spell the
    number. *)
Lemma hex_digits_value capital turns :
  forall n acc,
    (1 <= turns)%nat ->
    0 <= n < 2 ^ Z.of_nat turns ->
    all_chars hexdig acc = true ->
    let s := Py.hex_digits capital turns n acc in
    all_chars hexdig s = true
    /\ s <> ""
    /\ hexval 0 s = n * 16 ^ Z.of_nat (String.length acc) + hexval 0 acc.
Proof.
  induction turns as [|t IH]; intros n acc Ht Hn Hacc; [lia|].
  cbn [Py.hex_digits]. cbv zeta.
  destruct (hex_digit_hexdig capital (n mod 16)) as [Hd Hv];
    [apply Z.mod_pos_bound; lia|].
  destruct (n <? 16) eqn:E.
  - apply Z.ltb_lt in E.
    cbn [all_chars hexval]. rewrite Hd, Hacc, Hv.
    repeat split; [discriminate|].
    rewrite hexval_shift. rewrite Z.mod_small by lia. lia.
  - apply Z.ltb_ge in E.
    rewrite Nat2Z.inj_succ, Z.pow_succ_r in Hn by lia.
    destruct t as [|t].
    { change (2 ^ Z.of_nat 0) with 1 in Hn. lia. }
    destruct (IH (n / 16) (String (Py.hex_digit capital (n mod 16)) acc))
      as (H1 & H2 & H3).
    + lia.
    + split; [apply Z.div_pos; lia|].
      apply Z.div_lt_upper_bound; lia.
    + cbn [all_chars]. now rewrite Hd, Hacc.
    + repeat split; try assumption.
      rewrite H3. cbn [String.length hexval].
      rewrite (hexval_shift acc (0 * 16 + _)), Hv.
      rewrite Nat2Z.inj_succ, Z.pow_succ_r by lia.
      pose proof (Z.div_mod n 16). nia.
Qed.

Lemma format_hex_value capital n :
  0 <= n ->
  all_chars hexdig (Py.format_hex capital n) = true
  /\ Py.format_hex capital n <> ""
  /\ hexval 0 (Py.format_hex capital n) = n.
Proof.
  intros Hn. unfold Py.format_hex.
  replace (n <? 0) with false by (symmetry; apply Z.ltb_ge; lia).
  rewrite Z.abs_eq by lia.
  destruct n as [|p|p]; [repeat split; discriminate | | lia].
  destruct (hex_digits_value capital (Pos.size_nat p) (Z.pos p) "")
    as (H1 & H2 & H3).
  - destruct p; cbn [Pos.size_nat]; lia.
  - split; [lia | apply pos_below_size].
  - reflexivity.
  - repeat split; try assumption.
    rewrite H3. cbn [String.length hexval]. cbn. lia.
Qed.

Lemma hexval_zeros k s : hexval 0 (Py.repeat_char "0" k ++ s) = hexval 0 s.
Proof.
  induction k as [|k IH]; cbn [Py.repeat_char append hexval]; [reflexivity|].
  exact IH.
Qed.

Lemma zfill_digits w s :
  all_chars hexdig s = true ->
  s <> "" ->
  Py.zfill w s = Py.repeat_char "0" (w - String.length s) ++ s.
Proof.
  intros H Hne. unfold Py.zfill.
  destruct s as [|c r]; [congruence|].
  cbn [all_chars] in H. apply andb_true_iff in H as [Hc _].
  destruct (hexdig_plain c Hc) as (_ & _ & Hplus & Hminus & _).
  now rewrite Hplus, Hminus.
Qed.

(** Writing a number in hex, zero-filled to any width, and reading it
    back gives the number. *)
Lemma hex_round_trip capital w n :
  0 <= n ->
  Py.int 16 (Py.zfill w (Py.format_hex capital n)) = Ok n.
Proof.
  intros Hn.
  destruct (format_hex_value capital n Hn) as (H1 & H2 & H3).
  rewrite (zfill_digits w _ H1 H2).
  rewrite int16_hex.
  - now rewrite hexval_zeros, H3.
  - rewrite all_chars_app, H1, all_chars_repeat by reflexivity. reflexivity.
  - destruct (Py.repeat_char "0" (w - String.length (Py.format_hex capital n)));
      [exact H2 | discriminate].
Qed.

(** ** The instruction dictionary *)

Lemma lookup_none k d :
  Instruction808x.lookup k d = None <-> ~ In k (map fst d).
Proof.
  induction d as [|[k' v] d IH]; cbn [Instruction808x.lookup map In fst].
  - tauto.
  - destruct (k == k') eqn:E.
    + apply String.eqb_eq in E. subst. split; [discriminate | tauto].
    + apply String.eqb_neq in E. rewrite IH.
      split; [intros H [H'|H']; [congruence | tauto] | tauto].
Qed.

Lemma lookup_some k d v :
  Instruction808x.lookup k d = Some v -> In (k, v) d.
Proof.
  induction d as [|[k' v'] d IH]; cbn [Instruction808x.lookup In]; [discriminate|].
  destruct (k == k') eqn:E.
  - apply String.eqb_eq in E. intros H. inversion H. subst. now left.
  - intros H. right. now apply IH.
Qed.

Lemma no_duplicate_keys_sound d :
  no_duplicate_keys d = true -> NoDup (map fst d).
Proof.
  induction d as [|[k v] d IH]; cbn [no_duplicate_keys map fst]; [constructor|].
  intros H. apply andb_true_iff in H as [H1 H2].
  constructor; [|now apply IH].
  intros Hin. apply in_map_iff in Hin as ([k' v'] & Hk & Hin). cbn in Hk. subst k'.
  apply negb_true_iff in H1.
  assert (existsb (fun kv => k == fst kv) d = true); [|congruence].
  apply existsb_exists. exists (k, v'). split; [assumption|].
  apply String.eqb_refl.
Qed.

(** X1. Every mnemonic has one entry in the dictionary.  [opCode]
    yields ['Error'] exactly for the mnemonics that are not in it, and
    for the others their entry: two hex digits followed by one of the
    eleven operand types. *)
Theorem opCode_in_dictionary :
  NoDup (map fst Instruction808x.instr)
  /\ forall mnemonic : string,
      (Instruction808x.opCode mnemonic = "Error"
       <-> ~ In mnemonic (map fst Instruction808x.instr))
      /\ (In mnemonic (map fst Instruction808x.instr) ->
          In (mnemonic, Instruction808x.opCode mnemonic) Instruction808x.instr
          /\ well_formed_entry (Instruction808x.opCode mnemonic) = true).
Proof.
  split; [apply no_duplicate_keys_sound; vm_compute; reflexivity|].
  intros m.
  assert (Hall : forall kv, In kv Instruction808x.instr ->
                   well_formed_entry (snd kv) = true).
  { apply forallb_forall. vm_compute. reflexivity. }
  unfold Instruction808x.opCode.
  destruct (Instruction808x.lookup m Instruction808x.instr) as [v|] eqn:E.
  - pose proof (lookup_some _ _ _ E) as Hin.
    pose proof (Hall _ Hin) as Hv. cbn [snd] in Hv.
    assert (Hk : In m (map fst Instruction808x.instr))
      by (apply in_map_iff; exists (m, v); auto).
    destruct v as [|h [|l [|ty [|x r]]]]; try discriminate Hv.
    replace (negb (Py.len (String h (String l (String ty ""))) =? 3))
      with false by reflexivity.
    split; [|intros _; split; assumption].
    split; [|tauto].
    intros Herr. inversion Herr.
  - apply lookup_none in E. split; tauto.
Qed.

Lemma opCode_in_dictionary_witness :
  In "MOV" (map fst Instruction808x.instr)
  /\ In ("MOV", Instruction808x.opCode "MOV") Instruction808x.instr
  /\ well_formed_entry (Instruction808x.opCode "MOV") = true.
Proof.
  assert (H : In "MOV" (map fst Instruction808x.instr)) by (cbn; tauto).
  split; [exact H|].
  exact (proj2 (proj2 opCode_in_dictionary "MOV") H).
Defined.

(** ** Folding operand bits into the opcode *)

Lemma is_hex_hexdig c : is_hex_digit c = true -> hexdig c = true.
Proof.
  destruct c as [[] [] [] [] [] [] [] []]; try discriminate; reflexivity.
Qed.

Lemma all_hex_hexdig s :
  all_chars is_hex_digit s = true -> all_chars hexdig s = true.
Proof.
  induction s as [|c r IH]; cbn [all_chars]; [reflexivity|].
  intros H. apply andb_true_iff in H as [Hc Hr].
  now rewrite (is_hex_hexdig c Hc), (IH Hr).
Qed.

Lemma hex_word_inv w s :
  hex_word w s = true ->
  String.length s = w /\ all_chars hexdig s = true.
Proof.
  unfold hex_word. intros H. apply andb_true_iff in H as [H1 H2].
  apply Nat.eqb_eq in H1. split; [assumption | now apply all_hex_hexdig].
Qed.

Lemma hexval_bound s :
  all_chars hexdig s = true ->
  0 <= hexval 0 s < 16 ^ Z.of_nat (String.length s).
Proof.
  induction s as [|c r IH]; intros H.
  - cbn. lia.
  - cbn [all_chars] in H. apply andb_true_iff in H as [Hc Hr].
    destruct (hexdig_value c Hc) as (d & _ & Hd & Hdig).
    cbn [hexval String.length].
    rewrite hexval_shift, Hdig.
    specialize (IH Hr).
    rewrite Nat2Z.inj_succ, Z.pow_succ_r by lia.
    nia.
Qed.

(** X2. Operand bits are folded into the opcode by addition on the
    value of the byte field: when the field reads as [v] and [v + k] is
    not negative, the new field reads as [v + k].  It is a hex byte
    exactly when [v + k] is at most 255; a larger sum is written with
    more than two digits. *)
Theorem opcode_folding :
  forall (p : Parse.t) (k v : Z),
    Py.int 16 (b1 p) = Ok v ->
    0 <= v + k ->
    exists p',
      add_to_b1 k p = Ok p'
      /\ p' = set_b1 (b1 p') p
      /\ Py.int 16 (b1 p') = Ok (v + k)
      /\ (hex_word 2 (b1 p') = true <-> v + k <= 255).
Proof.
  intros p k v Hv Hk.
  unfold add_to_b1. rewrite Hv. cbn [bind].
  eexists. split; [reflexivity|]. cbn [b1 set_b1].
  split; [reflexivity|].
  pose proof (hex_round_trip true 2 (v + k) Hk) as Hrt.
  fold (Py.format_X (v + k)) in Hrt.
  split; [exact Hrt|].
  split.
  - intros Hw. apply hex_word_inv in Hw as [Hlen Hall].
    rewrite int16_hex in Hrt.
    + inversion Hrt as [Hval].
      pose proof (hexval_bound _ Hall) as Hb.
      rewrite Hlen in Hb. change (16 ^ Z.of_nat 2) with 256 in Hb. lia.
    + assumption.
    + intros E. rewrite E in Hlen. discriminate Hlen.
  - intros Hle. apply hex_byte. lia.
Qed.

Lemma opcode_folding_witness :
  Py.int 16 (b1 (set_b1 "40" Parse.init)) = Ok 64
  /\ 0 <= 64 + 14
  /\ exists p',
      add_to_b1 14 (set_b1 "40" Parse.init) = Ok p'
      /\ p' = set_b1 (b1 p') (set_b1 "40" Parse.init)
      /\ Py.int 16 (b1 p') = Ok (64 + 14)
      /\ (hex_word 2 (b1 p') = true <-> 64 + 14 <= 255).
Proof.
  split; [reflexivity|]. split; [lia|].
  apply (opcode_folding (set_b1 "40" Parse.init) 14 64); [reflexivity | lia].
Defined.

(** ** Address operands *)

Lemma in_range_number hi w dec :
  in_range hi w dec = "Error"
  \/ (0 <= dec <= hi /\ in_range hi w dec = Py.zfill w (Py.format_X dec)).
Proof.
  unfold in_range.
  destruct ((dec <? 0) || (hi <? dec)) eqn:E; [now left | right].
  apply orb_false_iff in E as [E1 E2].
  apply Z.ltb_ge in E1. apply Z.ltb_ge in E2. split; [lia | reflexivity].
Qed.

Lemma Op_addr_try_number operand s :
  Op_addr_try operand = Ok s ->
  s = "Error" \/ exists n, 0 <= n <= 65535 /\ s = hex4 n.
Proof.
  unfold Op_addr_try, bind.
  repeat match goal with
         | |- context [if ?b then _ else _] => destruct b
         | |- context [match ?m with _ => _ end] => destruct m
         end;
    intros H; inversion H; subst;
    try match goal with
        | |- context [in_range 65535 4 ?d] =>
            destruct (in_range_number 65535 4 d) as [E | [Hr E]];
            [now left | right; exists d; split; [lia | exact E]]
        end.
  right.
  match goal with
  | |- context [Py.ord ?c] => exists (Py.ord c); pose proof (ord_range c)
  end.
  split; [lia | reflexivity].
Qed.

(** What [Op_addr] yields besides ['Error'] and ['Label']: the four hex
    digits of a number from 0 to 65535. *)
Lemma Op_addr_number operand a :
  Op_addr operand = Ok a ->
  a <> "Error" -> a <> "Label" ->
  exists n, 0 <= n <= 65535 /\ a = hex4 n /\ Py.int 16 a = Ok n.
Proof.
  unfold Op_addr, bind. intros H He Hl.
  crack; try congruence.
  match goal with
  | E : Op_addr_try _ = Ok _ |- _ =>
      apply Op_addr_try_number in E as [E | (n & Hn & E)]
  end; [congruence|].
  exists n. repeat split; try lia; try assumption.
  subst. apply hex_round_trip. lia.
Qed.

Lemma int16_Label : Py.int 16 "Label" = Raise ValueError.
Proof. reflexivity. Qed.

(** X3. [ORG] and [DS] read their operand through [Op_addr].  What
    [Op_addr] returns as four hex digits is a number [n] from 0 to
    65535: [ORG] sets the program counter to [n], [DS] adds [n] to it,
    and both emit nothing and leave the byte field empty.  What
    [Op_addr] rejects is counted as [*V*]; and an operand that starts
    with a letter, which [Op_addr] takes for a label, ends the run with
    a [ValueError]. *)
Theorem org_and_ds :
  forall (p : Parse.t) (operand : string),
    mne p = "ORG" \/ mne p = "DS" ->
    exists a,
      Op_addr operand = Ok a
      /\ (a = "Label" -> Pass1_operand "a" operand p = Raise ValueError)
      /\ (a = "Error" ->
          Pass1_operand "a" operand p
          = Ok (set_oper operand (set_bytes 0 (error "*V*" p))))
      /\ (a <> "Label" -> a <> "Error" ->
          exists n,
            0 <= n <= 65535
            /\ a = hex4 n
            /\ Py.int 16 a = Ok n
            /\ Pass1_operand "a" operand p
               = Ok (set_oper operand
                       (set_bytes 0
                          (set_pc (if mne p == "ORG" then n else pc p + n)
                             (set_b1 "" p))))).
Proof.
  intros p operand Hm.
  destruct (Op_addr_shape operand) as (a & Ha & Hshape).
  exists a. split; [assumption|].
  unfold Pass1_operand.
  change (Ascii.eqb "a" "-") with false.
  change (Ascii.eqb "a" "b") with false.
  change (Ascii.eqb "a" "r") with false.
  change (Ascii.eqb "a" "a") with true.
  cbv iota. rewrite Ha. cbn [bind].
  repeat split.
  - intros ->. destruct Hm as [-> | ->]; reflexivity.
  - intros ->. destruct Hm as [-> | ->]; reflexivity.
  - intros Hl He.
    destruct (Op_addr_number operand a Ha He Hl) as (n & Hn & Hhex & Hint).
    exists n. split; [assumption|]. split; [assumption|].
    split; [assumption|].
    apply String.eqb_neq in He.
    destruct Hm as [Hm | Hm]; rewrite Hm;
      cbn [String.eqb Ascii.eqb Bool.eqb]; rewrite He, Hint; reflexivity.
Qed.

Lemma org_and_ds_witness :
  (mne (set_mne "ORG" Parse.init) = "ORG"
   \/ mne (set_mne "ORG" Parse.init) = "DS")
  /\ Op_addr "100H" = Ok "0100"
  /\ Py.int 16 "0100" = Ok 256
  /\ Pass1_operand "a" "100H" (set_mne "ORG" Parse.init)
     = Ok (set_oper "100H"
             (set_bytes 0 (set_pc 256 (set_b1 "" (set_mne "ORG" Parse.init)))))
  /\ Pass1_operand "a" "16" (set_pc 256 (set_mne "DS" Parse.init))
     = Ok (set_oper "16"
             (set_bytes 0
                (set_pc 272 (set_b1 "" (set_pc 256 (set_mne "DS" Parse.init))))))
  /\ Pass1_operand "a" "START" (set_mne "ORG" Parse.init) = Raise ValueError.
Proof.
  split; [left; reflexivity|].
  split; [reflexivity|]. split; [reflexivity|].
  split; [|split].
  - destruct (org_and_ds (set_mne "ORG" Parse.init) "100H"
                (or_introl eq_refl)) as (a & Ha & _ & _ & H).
    assert (E : a = "0100") by (vm_compute in Ha; now inversion Ha).
    subst a.
    destruct (H ltac:(discriminate) ltac:(discriminate))
      as (n & _ & _ & Hint & Hp).
    assert (En : n = 256) by (vm_compute in Hint; now inversion Hint).
    subst n. exact Hp.
  - destruct (org_and_ds (set_pc 256 (set_mne "DS" Parse.init)) "16"
                (or_intror eq_refl)) as (a & Ha & _ & _ & H).
    assert (E : a = "0010") by (vm_compute in Ha; now inversion Ha).
    subst a.
    destruct (H ltac:(discriminate) ltac:(discriminate))
      as (n & _ & _ & Hint & Hp).
    assert (En : n = 16) by (vm_compute in Hint; now inversion Hint).
    subst n. exact Hp.
  - destruct (org_and_ds (set_mne "ORG" Parse.init) "START"
                (or_introl eq_refl)) as (a & Ha & H & _).
    apply H. vm_compute in Ha. now inversion Ha.
Defined.

(** The two halves of an address in hex: the high byte comes first. *)
Lemma hex4_bytes n :
  0 <= n <= 65535 ->
  hex_word 2 (Py.slice 0 2 (hex4 n)) = true
  /\ hex_word 2 (Py.slice 2 4 (hex4 n)) = true
  /\ Py.int 16 (Py.slice 0 2 (hex4 n)) = Ok (n / 256)
  /\ Py.int 16 (Py.slice 2 4 (hex4 n)) = Ok (n mod 256).
Proof.
  intros Hn.
  pose proof (hex_address n Hn) as Hw. fold (hex4 n) in Hw.
  pose proof (hex_round_trip true 4 n (proj1 Hn)) as Hrt.
  fold (Py.format_X n) in Hrt. fold (hex4 n) in Hrt.
  destruct (hex4 n) as [|c0 [|c1 [|c2 [|c3 [|c4 r]]]]]; try discriminate Hw.
  unfold hex_word in Hw. cbn [String.length Nat.eqb all_chars andb] in Hw.
  repeat (apply andb_true_iff in Hw as [? Hw]).
  rewrite int16_hex in Hrt;
    [|cbn [all_chars]; now rewrite !is_hex_hexdig | discriminate].
  inversion Hrt as [Hval]. cbn [hexval] in Hval.
  unfold Py.slice. cbn [Nat.sub Py.from Py.upto].
  assert (Hd : forall c, is_hex_digit c = true -> 0 <= digit_of c < 16).
  { intros c Hc. destruct (hexdig_value c (is_hex_hexdig c Hc)) as (d & _ & Hd & ->).
    exact Hd. }
  pose proof (Hd c0 ltac:(assumption)). pose proof (Hd c1 ltac:(assumption)).
  pose proof (Hd c2 ltac:(assumption)). pose proof (Hd c3 ltac:(assumption)).
  repeat split.
  - unfold hex_word. cbn [String.length Nat.eqb all_chars andb].
    now repeat (apply andb_true_iff; split).
  - unfold hex_word. cbn [String.length Nat.eqb all_chars andb].
    now repeat (apply andb_true_iff; split).
  - rewrite int16_hex;
      [|cbn [all_chars]; now rewrite !is_hex_hexdig | discriminate].
    cbn [hexval]. f_equal.
    apply (Z.div_unique _ 256 _ (digit_of c2 * 16 + digit_of c3)); lia.
  - rewrite int16_hex;
      [|cbn [all_chars]; now rewrite !is_hex_hexdig | discriminate].
    cbn [hexval]. f_equal.
    apply (Z.mod_unique _ 256 (digit_of c0 * 16 + digit_of c1)); lia.
Qed.

(** X4. An instruction with an address operand that [Op_addr] reads as
    the number [n] keeps its opcode and is three bytes long; its second
    and third byte fields are hex bytes that read as [n mod 256] and
    [n / 256]: low byte first.  [DW] puts the same two bytes in its
    first and second field and is two bytes long. *)
Theorem address_is_little_endian :
  forall (p : Parse.t) (operand a : string),
    mne p <> "DS" -> mne p <> "ORG" ->
    Op_addr operand = Ok a ->
    a <> "Error" -> a <> "Label" ->
    exists n p',
      0 <= n <= 65535
      /\ Py.int 16 a = Ok n
      /\ Pass1_operand "a" operand p = Ok p'
      /\ err p' = err p /\ errors p' = errors p /\ pc p' = pc p
      /\ oper p' = Py.upper operand
      /\ (if mne p == "DW"
          then bytes p' = 2
               /\ hex_word 2 (b1 p') = true /\ hex_word 2 (b2 p') = true
               /\ Py.int 16 (b1 p') = Ok (n mod 256)
               /\ Py.int 16 (b2 p') = Ok (n / 256)
          else bytes p' = 3 /\ b1 p' = b1 p
               /\ hex_word 2 (b2 p') = true /\ hex_word 2 (b3 p') = true
               /\ Py.int 16 (b2 p') = Ok (n mod 256)
               /\ Py.int 16 (b3 p') = Ok (n / 256)).
Proof.
  intros p operand a Hds Horg Ha He Hl.
  destruct (Op_addr_number operand a Ha He Hl) as (n & Hn & Hhex & Hint).
  destruct (hex4_bytes n Hn) as (H1 & H2 & H3 & H4).
  exists n.
  unfold Pass1_operand.
  change (Ascii.eqb "a" "-") with false.
  change (Ascii.eqb "a" "b") with false.
  change (Ascii.eqb "a" "r") with false.
  change (Ascii.eqb "a" "a") with true.
  cbv iota. rewrite Ha. cbn [bind].
  apply String.eqb_neq in He, Hl, Hds, Horg.
  rewrite He, Hl, Hds, Horg. subst a.
  destruct (mne p == "DW"); eexists;
    (split; [assumption|]); (split; [assumption|]); (split; [reflexivity|]);
    fields; cbn [pc oper bytes b1 b2 b3];
    repeat split; assumption.
Qed.

Lemma address_is_little_endian_witness :
  mne (set_b1 "C3" (set_mne "JMP" Parse.init)) <> "DS"
  /\ mne (set_b1 "C3" (set_mne "JMP" Parse.init)) <> "ORG"
  /\ Op_addr "1234H" = Ok "1234"
  /\ exists n p',
      0 <= n <= 65535
      /\ Py.int 16 "1234" = Ok n
      /\ Pass1_operand "a" "1234H" (set_b1 "C3" (set_mne "JMP" Parse.init))
         = Ok p'
      /\ err p' = err (set_b1 "C3" (set_mne "JMP" Parse.init))
      /\ errors p' = errors (set_b1 "C3" (set_mne "JMP" Parse.init))
      /\ pc p' = pc (set_b1 "C3" (set_mne "JMP" Parse.init))
      /\ oper p' = Py.upper "1234H"
      /\ (if mne (set_b1 "C3" (set_mne "JMP" Parse.init)) == "DW"
          then bytes p' = 2
               /\ hex_word 2 (b1 p') = true /\ hex_word 2 (b2 p') = true
               /\ Py.int 16 (b1 p') = Ok (n mod 256)
               /\ Py.int 16 (b2 p') = Ok (n / 256)
          else bytes p' = 3
               /\ b1 p' = b1 (set_b1 "C3" (set_mne "JMP" Parse.init))
               /\ hex_word 2 (b2 p') = true /\ hex_word 2 (b3 p') = true
               /\ Py.int 16 (b2 p') = Ok (n mod 256)
               /\ Py.int 16 (b3 p') = Ok (n / 256)).
Proof.
  split; [discriminate|]. split; [discriminate|]. split; [reflexivity|].
  apply (address_is_little_endian (set_b1 "C3" (set_mne "JMP" Parse.init))
           "1234H" "1234");
    [discriminate | discriminate | reflexivity | discriminate | discriminate].
Defined.

(** ** Register and register-pair instructions *)

Ltac each_case :=
  repeat match goal with
         | H : In _ _ |- _ => cbn [In] in H
         | H : _ \/ _ |- _ => destruct H as [H | H]
         | H : False |- _ => contradiction H
         | H : (_, _) = (_, _) |- _ => inversion H; subst; clear H
         | H : ?x = _ |- _ => is_var x; subst x
         | H : _ = ?x |- _ => is_var x; subst x
         end.

(** X5. [MOV d,s] with two of the registers B, C, D, E, H, L, M, A is
    one byte, 40 hex plus eight times the code of [d] plus the code of
    [s], and no error; only [MOV M,M] is refused, with [*R*], a counted
    error and the opcode left at 40. *)
Theorem mov_encoding :
  forall (p : Parse.t) (d s : string),
    In d registers -> In s registers ->
    Pass1 ("MOV " ++ d ++ "," ++ s) p
    = Ok (if (d == "M") && (s == "M")
          then one_byte "*R*" "40" "MOV" (d ++ "," ++ s) (errors p + 1) p
          else one_byte "" (hex2 (64 + 8 * reg_code d + reg_code s))
                 "MOV" (d ++ "," ++ s) (errors p) p).
Proof.
  intros p d s Hd Hs. unfold registers in Hd, Hs.
  each_case; vm_compute; reflexivity.
Qed.

Lemma mov_encoding_witness :
  In "A" registers /\ In "M" registers
  /\ Pass1 ("MOV " ++ "A" ++ "," ++ "M") Parse.init
     = Ok (one_byte "" "7E" "MOV" "A,M" 0 Parse.init).
Proof.
  assert (Ha : In "A" registers) by (cbn; tauto).
  assert (Hm : In "M" registers) by (cbn; tauto).
  split; [exact Ha|]. split; [exact Hm|].
  exact (mov_encoding Parse.init "A" "M" Ha Hm).
Defined.

(** X6. The arithmetic and logic instructions on a register are one
    byte, the base opcode plus the register code; [INR] and [DCR] add
    eight times the register code.  [PSW] is taken for register B. *)
Theorem register_encoding :
  forall (p : Parse.t) (m r : string) (base : Z),
    In r registers ->
    (In (m, base) alu_ops ->
     Pass1 (m ++ " " ++ r) p
     = Ok (one_byte "" (hex2 (base + reg_code r)) m r (errors p) p)
     /\ Pass1 (m ++ " PSW") p
        = Ok (one_byte "" (hex2 base) m "PSW" (errors p) p))
    /\ (In (m, base) inr_dcr ->
        Pass1 (m ++ " " ++ r) p
        = Ok (one_byte "" (hex2 (base + 8 * reg_code r)) m r (errors p) p)).
Proof.
  intros p m r base Hr. unfold registers in Hr.
  split; intros Hm; [unfold alu_ops in Hm | unfold inr_dcr in Hm];
    each_case; try split; vm_compute; reflexivity.
Qed.

Lemma register_encoding_witness :
  In "E" registers /\ In ("XRA", 168) alu_ops /\ In ("INR", 4) inr_dcr
  /\ Pass1 ("XRA" ++ " " ++ "E") Parse.init
     = Ok (one_byte "" "AB" "XRA" "E" 0 Parse.init)
  /\ Pass1 ("INR" ++ " " ++ "E") Parse.init
     = Ok (one_byte "" "1C" "INR" "E" 0 Parse.init).
Proof.
  assert (He : In "E" registers) by (cbn; tauto).
  assert (Hx : In ("XRA", 168) alu_ops) by (cbn; tauto).
  assert (Hi : In ("INR", 4) inr_dcr) by (cbn; tauto).
  split; [exact He|]. split; [exact Hx|]. split; [exact Hi|].
  split.
  - exact (proj1 (proj1 (register_encoding Parse.init "XRA" "E" 168 He) Hx)).
  - exact (proj2 (register_encoding Parse.init "INR" "E" 4 He) Hi).
Defined.

(** X7. The register-pair instructions are one byte, the base opcode
    plus sixteen times the pair code, where [SP] and [PSW] share the
    code 3 for all of them.  [LDAX] and [STAX] take only B and D: H, SP
    and PSW are refused with [*R*], a counted error and the base
    opcode. *)
Theorem register_pair_encoding :
  forall (p : Parse.t) (m r : string) (base code : Z),
    In (r, code) register_pairs ->
    (In (m, base) pair_ops ->
     Pass1 (m ++ " " ++ r) p
     = Ok (one_byte "" (hex2 (base + 16 * code)) m r (errors p) p))
    /\ (In (m, base) ldax_stax ->
        Pass1 (m ++ " " ++ r) p
        = Ok (if code <? 2
              then one_byte "" (hex2 (base + 16 * code)) m r (errors p) p
              else one_byte "*R*" (hex2 base) m r (errors p + 1) p)).
Proof.
  intros p m r base code Hr. unfold register_pairs in Hr.
  split; intros Hm; [unfold pair_ops in Hm | unfold ldax_stax in Hm];
    each_case; vm_compute; reflexivity.
Qed.

Lemma register_pair_encoding_witness :
  In ("PSW", 3) register_pairs /\ In ("PUSH", 197) pair_ops
  /\ In ("LDAX", 10) ldax_stax
  /\ Pass1 ("PUSH" ++ " " ++ "PSW") Parse.init
     = Ok (one_byte "" "F5" "PUSH" "PSW" 0 Parse.init)
  /\ Pass1 ("LDAX" ++ " " ++ "PSW") Parse.init
     = Ok (one_byte "*R*" "0A" "LDAX" "PSW" 1 Parse.init).
Proof.
  assert (Hr : In ("PSW", 3) register_pairs) by (cbn; tauto).
  assert (Hp : In ("PUSH", 197) pair_ops) by (cbn; tauto).
  assert (Hl : In ("LDAX", 10) ldax_stax) by (cbn; tauto).
  split; [exact Hr|]. split; [exact Hp|]. split; [exact Hl|].
  split.
  - exact (proj1 (register_pair_encoding Parse.init "PUSH" "PSW" 197 3 Hr) Hp).
  - exact (proj2 (register_pair_encoding Parse.init "LDAX" "PSW" 10 3 Hr) Hl).
Defined.

(** ** What Pass 1 keeps *)

Lemma Op_addr_int operand a n :
  Op_addr operand = Ok a -> Py.int 16 a = Ok n -> 0 <= n <= 65535.
Proof.
  intros Ha Hint.
  destruct (String.eqb_spec a "Error") as [-> | He]; [discriminate Hint|].
  destruct (String.eqb_spec a "Label") as [-> | Hl]; [discriminate Hint|].
  destruct (Op_addr_number operand a Ha He Hl) as (m & Hm & _ & Hint').
  congruence.
Qed.

Ltac all_fields :=
  cbn [err ln pc b1 b2 b3 long label mne oper bytes comment errors symbols
       set_err set_ln set_pc set_b1 set_b2 set_b3 set_long set_label set_mne
       set_oper set_bytes set_comment set_errors set_symbols error
       addr_bytes].

Ltac steady_done :=
  unfold steady;
  repeat match goal with
         | |- context [if ?b then _ else _] => destruct b
         end;
  all_fields;
  repeat match goal with
         | |- context [fold_left db_operand ?l ?p] =>
             let H1 := fresh in let H2 := fresh in
             let H3 := fresh in let H4 := fresh in
             destruct (db_fold_fields l p) as (H1 & H2 & H3 & H4);
             cbv zeta in H1, H2, H3, H4;
             rewrite ?H1, ?H2, ?H3, ?H4; clear H1 H2 H3 H4
         end.

Lemma db_string_more cs :
  forall p,
    let q := fold_left
               (fun p char =>
                  if Ascii.eqb char Py.dquote then p
                  else set_long
                         (long p ++ Op_byte (String Py.squote (String char (String Py.squote ""))))
                         p) cs p in
    ln q = ln p /\ comment q = comment p /\ mne q = mne p
    /\ bytes q = bytes p /\ pc q = pc p.
Proof.
  induction cs as [|c cs IH]; intros p; cbn [fold_left]; [tauto|].
  destruct (Ascii.eqb c Py.dquote); [apply IH|].
  match goal with
  | |- context [fold_left _ cs ?x] => destruct (IH x) as (K1 & K2 & K3 & K4 & K5)
  end.
  cbv zeta in *. rewrite K1, K2, K3, K4, K5. tauto.
Qed.

Lemma db_operand_more p op :
  let q := db_operand p op in
  ln q = ln p /\ comment q = comment p /\ mne q = mne p
  /\ bytes q = bytes p /\ pc q = pc p.
Proof.
  unfold db_operand.
  destruct (Py.find _ _ =? 0).
  - apply db_string_more.
  - destruct (Op_byte _ == "Error"); cbn; tauto.
Qed.

Lemma db_fold_more l :
  forall p,
    let q := fold_left db_operand l p in
    ln q = ln p /\ comment q = comment p /\ mne q = mne p
    /\ bytes q = bytes p /\ pc q = pc p.
Proof.
  induction l as [|op l IH]; intros p; cbn [fold_left]; [tauto|].
  destruct (IH (db_operand p op)) as (H1 & H2 & H3 & H4 & H5).
  destruct (db_operand_more p op) as (K1 & K2 & K3 & K4 & K5).
  cbv zeta in *. rewrite H1, H2, H3, H4, H5, K1, K2, K3, K4, K5. tauto.
Qed.

Lemma Pass1_operand_steady op_type line p p' :
  Pass1_operand op_type line p = Ok p' -> steady p p'.
Proof.
  intros H.
  unfold Pass1_operand, add_to_b1, bind in H.
  crack;
    repeat match goal with
           | H : pop_symbol _ = Ok _ |- _ => apply pop_symbol_ok in H; subst
           end;
    repeat match goal with
           | H : (_ == _) = true |- _ => apply String.eqb_eq in H
           end;
    steady_done;
    repeat match goal with
           | |- context [fold_left db_operand ?l ?p] =>
               let H1 := fresh in let H2 := fresh in let H3 := fresh in
               let H4 := fresh in let H5 := fresh in
               destruct (db_fold_more l p) as (H1 & H2 & H3 & H4 & H5);
               cbv zeta in H1, H2, H3, H4, H5;
               rewrite ?H1, ?H2, ?H3, ?H4, ?H5; clear H1 H2 H3 H4 H5
           end;
    repeat match goal with
           | Ha : Op_addr _ = Ok ?a, Hi : Py.int 16 ?a = Ok _ |- _ =>
               pose proof (Op_addr_int _ _ _ Ha Hi); clear Hi
           end;
    repeat split;
    try reflexivity;
    try (right; lia);
    try (left; reflexivity);
    try (left; split; [reflexivity | left; reflexivity]);
    try (left; split; [reflexivity | right; reflexivity]);
    try (right; split; [lia | cbn [In]; tauto]);
    try (right; left; split; [assumption | lia]);
    try (right; right; split; [assumption | lia]).
Qed.

Lemma Pass1_mnemonic_effect line p p' :
  Pass1_mnemonic line p = Ok p' -> line_effect p p'.
Proof.
  intros H. unfold Pass1_mnemonic, bind in H.
  crack.
  - unfold line_effect. all_fields.
    repeat split; try reflexivity; try (left; reflexivity).
    right. split; [lia | cbn [In]; tauto].
  - match goal with
    | H : Pass1_operand _ _ _ = Ok _ |- _ =>
        apply Pass1_operand_steady in H;
        destruct H as (H1 & H2 & H3 & H4 & H5 & H6 & H7)
    end.
    revert H1 H2 H3 H4 H5 H6 H7. all_fields. intros H1 H2 H3 H4 H5 H6 H7.
    unfold line_effect.
    repeat split; try assumption; try (left; assumption).
    + destruct H5 as [H5 | [H5 H5']]; [left; assumption|].
      right. split; [assumption | cbn [In] in *; tauto].
    + rewrite H4. exact H7.
Qed.

Lemma check_duplicate_effect_fold l :
  forall p,
    let q := fold_left
               (fun p (sym : string * pyval) =>
                  if label p == fst sym then error "*D*" p else p) l p in
    ln q = ln p /\ comment q = comment p /\ label q = label p
    /\ symbols q = symbols p /\ pc q = pc p /\ bytes q = bytes p
    /\ mne q = mne p
    /\ (errors q = errors p /\ err q = err p
        \/ errors p < errors q /\ err q = "*D*").
Proof.
  induction l as [|sym l IH]; intros p; cbn [fold_left].
  - repeat split; try reflexivity. left. tauto.
  - destruct (label p == fst sym); [|apply IH].
    destruct (IH (error "*D*" p)) as (H1 & H2 & H3 & H4 & H5 & H6 & H7 & H8).
    cbv zeta in *. revert H1 H2 H3 H4 H5 H6 H7 H8. all_fields.
    intros H1 H2 H3 H4 H5 H6 H7 H8.
    repeat split; try assumption.
    right. destruct H8 as [[K1 K2] | [K1 K2]]; split; try assumption; lia.
Qed.

Lemma length_upto n : forall s, (String.length (Py.upto n s) <= n)%nat.
Proof.
  induction n as [|n IH]; intros s; cbn [Py.upto]; [cbn; lia|].
  destruct s as [|c s]; cbn [String.length]; [lia|].
  specialize (IH s). lia.
Qed.

(** The line from its label on, once the label is cut out. *)
Lemma labelled_line_effect lab rest p p' :
  (String.length lab <= 6)%nat ->
  (let p1 := check_duplicate (set_label lab p) in
   let p2 := set_symbols (symbols p1 ++ [(label p1, VInt (pc p1))])%list p1 in
   if Py.len rest =? 0 then Ok p2 else Pass1_mnemonic rest p2) = Ok p' ->
  line_effect p p'
  /\ label p' = lab
  /\ (symbols p' = symbols p ++ [(lab, VInt (pc p))]
      \/ exists v, symbols p' = symbols p ++ [(lab, VInt v)])%list.
Proof.
  intros Hlen H. cbv zeta in H.
  unfold check_duplicate in H.
  match type of H with
  | context [fold_left ?f (symbols ?q) ?q] =>
      pose proof (check_duplicate_effect_fold (symbols q) q) as D;
      cbv zeta in D; revert D H;
      generalize (fold_left f (symbols q) q)
  end.
  all_fields. intros d (D1 & D2 & D3 & D4 & D5 & D6 & D7 & D8) H.
  assert (E : line_effect d p' /\ label p' = label d
              /\ (symbols p' = symbols d ++ [(label d, VInt (pc d))]
                  \/ exists v, symbols p' = symbols d ++ [(label d, VInt v)])%list).
  { destruct (Py.len rest =? 0).
    - inversion H; subst; clear H. unfold line_effect. all_fields.
      repeat split; try reflexivity; try (left; reflexivity).
      all: left; split; [reflexivity | left; reflexivity].
    - pose proof (Pass1_mnemonic_carried _ _ _ H) as (C1 & _ & _ & C4).
      apply Pass1_mnemonic_effect in H.
      revert H C1 C4. unfold line_effect. all_fields. intros H C1 C4.
      split; [exact H|]. split; [exact C1|].
      destruct C4 as [C4 | [v C4]]; [left; exact C4|].
      right. exists v. now rewrite removelast_last in C4. }
  destruct E as ((E1 & E2 & E3 & E4 & E5 & E6) & E7 & E8).
  rewrite D3 in E7. rewrite D3, D4, D5 in E8.
  split; [|split; assumption].
  unfold line_effect.
  rewrite E1, E2, D1, D2.
  repeat split; try reflexivity.
  - right. now rewrite E7.
  - destruct D8 as [[K1 K2] | [K1 K2]]; rewrite ?K1, ?K2 in E4.
    + destruct E4 as [E4 | [E4 E4']]; [left; exact E4|].
      right. split; [lia | exact E4'].
    + right. destruct E4 as [[E4 E4'] | [E4 E4']].
      * split; [lia|]. destruct E4' as [-> | ->]; cbn [In]; tauto.
      * split; [lia | exact E4'].
  - rewrite <- D6. exact E5.
  - rewrite <- D5. exact E6.
Qed.

Lemma Pass1_label_effect line p p' :
  Pass1_label line p = Ok p' ->
  line_effect p p'
  /\ (symbols p' = symbols p
      \/ (exists v, symbols p' = removelast (symbols p) ++ [(label p, VInt v)])
      \/ (String.length (label p') <= 6)%nat
         /\ exists v, symbols p' = symbols p ++ [(label p', VInt v)])%list.
Proof.
  intros H. unfold Pass1_label in H. cbv zeta in H.
  match type of H with
  | (if ?b then _ else _) = _ => destruct b
  end.
  2: { pose proof (Pass1_mnemonic_carried _ _ _ H) as (_ & _ & _ & C4).
       split; [exact (Pass1_mnemonic_effect _ _ _ H)|].
       destruct C4 as [C4 | C4]; [left; exact C4 | right; left; exact C4]. }
  match type of H with
  | (let '(line, pos) := (if ?b then _ else _) in _) = _ =>
      destruct b eqn:E6
  end; cbv beta iota in H;
    apply labelled_line_effect in H;
    try apply length_upto;
    try (eapply Nat.le_trans; [apply length_upto|];
         apply Z.ltb_ge in E6; lia);
    destruct H as (H1 & H2 & H3);
    (split; [exact H1|]); right; right;
    (split; [rewrite H2; try apply length_upto;
             try (eapply Nat.le_trans; [apply length_upto|];
                  apply Z.ltb_ge in E6; lia)|]);
    rewrite H2; destruct H3 as [H3 | H3]; eauto.
Qed.


Lemma Pass1_parsed line p p' : Pass1 line p = Ok p' -> parsed p p'.
Proof.
  intros H. unfold Pass1 in H. cbv zeta in H.
  assert (Hdone : forall c,
             parsed p (set_comment c (set_ln (ln (reset p) + 1) (reset p)))).
  { intros c. unfold parsed, reset. all_fields.
    repeat split; try reflexivity; try lia; try (left; reflexivity).
    - cbn. lia.
    - left. split; [reflexivity | cbn [In]; tauto]. }
  assert (Hlabel : forall l q,
             ln q = ln p + 1 -> label q = "" -> bytes q = 0 -> err q = ""
             -> errors q = errors p -> pc q = pc p -> symbols q = symbols p
             -> Pass1_label l q = Ok p' -> parsed p p').
  { intros l q Q1 Q2 Q3 Q4 Q5 Q6 Q7 HL.
    apply Pass1_label_effect in HL.
    destruct HL as ((E1 & E2 & E3 & E4 & E5 & E6) & E7).
    unfold parsed.
    rewrite E1, Q1. split; [reflexivity|].
    split.
    { destruct E3 as [E3 | E3]; [|exact E3]. rewrite E3, Q2. cbn. lia. }
    split.
    { destruct E5 as [E5 | E5]; [|exact E5]. rewrite E5, Q3. lia. }
    split.
    { rewrite Q4, Q5 in E4. destruct E4 as [[E4 E4'] | E4]; [|right; exact E4].
      left. split; [exact E4|]. destruct E4' as [-> | ->]; cbn [In]; tauto. }
    split.
    { rewrite Q6 in E6. exact E6. }
    rewrite Q7, Q2 in E7.
    destruct E7 as [E7 | [E7 | [_ E7]]]; tauto. }
  destruct (Py.len _ =? 0).
  - inversion H; subst; clear H.
    pose proof (Hdone "") as D. exact D.
  - destruct (0 <=? _).
    + destruct (_ =? 0).
      * inversion H; subst; clear H. apply Hdone.
      * eapply Hlabel; [..|exact H]; reflexivity.
    + eapply Hlabel; [..|exact H]; reflexivity.
Qed.

(** The data list of a line is made of hex bytes. *)
Lemma hex_bytes_app s b :
  hex_bytes s = true -> hex_word 2 b = true -> hex_bytes (s ++ b) = true.
Proof.
  unfold hex_bytes, hex_word. intros Hs Hb.
  apply andb_true_iff in Hs. destruct Hs as [Hs1 Hs2].
  apply andb_true_iff in Hb. destruct Hb as [Hb1 Hb2].
  apply Nat.eqb_eq in Hb1.
  rewrite all_chars_app, Hs1, Hb2, length_app, Hb1.
  rewrite Nat.even_add, Hs2. reflexivity.
Qed.

Lemma db_string_long cs :
  forall p,
    hex_bytes (long p) = true ->
    hex_bytes
      (long (fold_left
               (fun p char =>
                  if Ascii.eqb char Py.dquote then p
                  else set_long
                         (long p ++ Op_byte (String Py.squote (String char (String Py.squote ""))))
                         p) cs p)) = true.
Proof.
  induction cs as [|c cs IH]; intros p Hp; cbn [fold_left]; [exact Hp|].
  destruct (Ascii.eqb c Py.dquote); [now apply IH|].
  apply IH. all_fields.
  apply hex_bytes_app; [exact Hp|].
  apply hex_byte, ord_range.
Qed.

Lemma db_operand_long p op :
  hex_bytes (long p) = true -> hex_bytes (long (db_operand p op)) = true.
Proof.
  intros Hp. unfold db_operand.
  destruct (Py.find _ _ =? 0); [now apply db_string_long|].
  destruct (Op_byte_shape (Py.lstrip op)) as [E | E].
  - rewrite E. cbn [String.eqb Ascii.eqb Bool.eqb]. all_fields. exact Hp.
  - destruct (Op_byte _ == "Error"); all_fields; [exact Hp|].
    now apply hex_bytes_app.
Qed.

Lemma db_fold_long l :
  forall p,
    hex_bytes (long p) = true ->
    hex_bytes (long (fold_left db_operand l p)) = true.
Proof.
  induction l as [|op l IH]; intros p Hp; cbn [fold_left]; [exact Hp|].
  now apply IH, db_operand_long.
Qed.

Lemma Pass1_operand_long op_type line p p' :
  Pass1_operand op_type line p = Ok p' ->
  hex_bytes (long p) = true -> hex_bytes (long p') = true.
Proof.
  intros H Hp.
  unfold Pass1_operand, add_to_b1, bind in H.
  crack;
    repeat match goal with
           | H : pop_symbol _ = Ok _ |- _ => apply pop_symbol_ok in H; subst
           end;
    repeat match goal with
           | |- context [if ?b then _ else _] => destruct b
           end;
    all_fields;
    try exact Hp;
    try (apply db_fold_long; exact Hp).
Qed.

Lemma check_duplicate_long_fold l :
  forall p,
    long (fold_left
            (fun p (sym : string * pyval) =>
               if label p == fst sym then error "*D*" p else p) l p)
    = long p.
Proof.
  induction l as [|sym l IH]; intros p; cbn [fold_left]; [reflexivity|].
  destruct (label p == fst sym); rewrite IH; reflexivity.
Qed.

Lemma Pass1_mnemonic_long line p p' :
  Pass1_mnemonic line p = Ok p' ->
  hex_bytes (long p) = true -> hex_bytes (long p') = true.
Proof.
  intros H Hp. unfold Pass1_mnemonic, bind in H.
  crack; [exact Hp|].
  match goal with
  | H : Pass1_operand _ _ _ = Ok _ |- _ =>
      apply Pass1_operand_long in H; [exact H | exact Hp]
  end.
Qed.

Lemma Pass1_label_long line p p' :
  Pass1_label line p = Ok p' ->
  hex_bytes (long p) = true -> hex_bytes (long p') = true.
Proof.
  intros H Hp. unfold Pass1_label in H. cbv zeta in H.
  match type of H with
  | (if ?b then _ else _) = _ => destruct b
  end; [|exact (Pass1_mnemonic_long _ _ _ H Hp)].
  match type of H with
  | (let '(line, pos) := (if ?b then _ else _) in _) = _ => destruct b
  end; cbv beta iota in H;
    (destruct (Py.len _ =? 0);
     [inversion H; subst; clear H
     |apply Pass1_mnemonic_long in H; [exact H|]]);
    all_fields; unfold check_duplicate;
    rewrite check_duplicate_long_fold; exact Hp.
Qed.

Lemma Pass1_long line p p' :
  Pass1 line p = Ok p' -> hex_bytes (long p') = true.
Proof.
  intros H. unfold Pass1 in H. cbv zeta in H.
  destruct (Py.len _ =? 0); [inversion H; reflexivity|].
  destruct (0 <=? _).
  - destruct (_ =? 0); [inversion H; reflexivity|].
    now apply Pass1_label_long in H.
  - now apply Pass1_label_long in H.
Qed.

(** ** The addresses of a data list *)

Lemma all_chars_from f n : forall s, all_chars f s = true -> all_chars f (Py.from n s) = true.
Proof.
  induction n as [|n IH]; intros s H; cbn [Py.from]; [exact H|].
  destruct s as [|c s]; [reflexivity|].
  cbn [all_chars] in H. apply andb_true_iff in H. now apply IH.
Qed.

Lemma hex_start_not_blank ll :
  (1 <= String.length ll)%nat ->
  all_chars is_hex_digit ll = true ->
  (Py.slice 0 2 ll == "  ") = false.
Proof.
  intros Hlen H. destruct ll as [|c r]; [cbn in Hlen; lia|].
  cbn [all_chars] in H. apply andb_true_iff in H. destruct H as [Hc _].
  unfold Py.slice. cbn [Nat.sub Py.from Py.upto String.eqb].
  destruct (Ascii.eqb_spec c " ") as [-> | _]; [discriminate Hc | reflexivity].
Qed.

(** The full continuation rows of a list of [m] bytes: three bytes to a
    row, leaving one to three bytes for the last row. *)
Lemma full_data_lines_rows turns :
  forall pc ll m,
    String.length ll = (2 * m)%nat ->
    (2 * m <= turns)%nat ->
    all_chars is_hex_digit ll = true ->
    exists j ll' rows,
      Asm80.full_data_lines turns pc ll = (pc + 3 * Z.of_nat j, ll', rows)
      /\ List.length rows = j
      /\ (String.length ll' + 6 * j = 2 * m)%nat
      /\ (String.length ll' <= 6)%nat
      /\ (1 <= m -> 1 <= String.length ll')%nat
      /\ all_chars is_hex_digit ll' = true.
Proof.
  induction turns as [|turns IH]; intros pc ll m Hlen Hturns Hhex;
    cbn [Asm80.full_data_lines].
  - exists O, ll, []. rewrite Z.add_0_r.
    repeat split; try assumption; cbn [List.length]; lia.
  - destruct (6 <? Py.len ll) eqn:E.
    + apply Z.ltb_lt in E. unfold Py.len in E.
      destruct (IH (pc + 3) (Py.from 6 ll) (m - 3)%nat) as
        (j & ll' & rows & H1 & H2 & H3 & H4 & H5 & H6).
      * rewrite length_from. lia.
      * lia.
      * now apply all_chars_from.
      * rewrite H1. exists (S j), ll'. eexists.
        split; [f_equal; f_equal; lia|].
        repeat split; try assumption; cbn [List.length]; lia.
    + apply Z.ltb_ge in E. unfold Py.len in E.
      exists O, ll, []. rewrite Z.add_0_r.
      repeat split; try assumption; cbn [List.length]; lia.
Qed.

Lemma write_rows_data_list p k :
  (1 <= k)%nat ->
  String.length (long p) = (2 * k)%nat ->
  all_chars is_hex_digit (long p) = true ->
  exists rows,
    Asm80.write_rows p
    = (set_pc (pc p + (if (k =? 1)%nat then 2 else Z.of_nat k)) p,
       Asm80.hex4 (pc p), rows)
    /\ (3 * List.length rows - 2 <= k <= 3 * List.length rows)%nat.
Proof.
  intros Hk Hlen Hhex. unfold Asm80.write_rows.
  replace (long p == "") with false
    by (destruct (long p); [cbn in Hlen; lia | reflexivity]).
  cbv zeta.
  destruct (6 <? Py.len (long p)) eqn:E6.
  - (* four bytes or more *)
    apply Z.ltb_lt in E6. unfold Py.len in E6.
    replace (6 <=? Py.len (long p)) with true
      by (symmetry; apply Z.leb_le; unfold Py.len; lia).
    cbv iota beta.
    destruct (full_data_lines_rows
                (String.length (Py.from 6 (long p))) (pc p + 3)
                (Py.from 6 (long p)) (k - 3)%nat) as
      (j & ll' & rows & H1 & H2 & H3 & H4 & H5 & H6).
    + rewrite length_from. lia.
    + rewrite length_from. lia.
    + now apply all_chars_from.
    + rewrite H1. cbv iota beta.
      assert (Hl : (2 <= String.length ll')%nat).
      { assert (1 <= String.length ll')%nat by (apply H5; lia).
        assert (String.length ll' <> 1)%nat by lia. lia. }
      replace (2 <=? Py.len ll') with true
        by (symmetry; apply Z.leb_le; unfold Py.len; lia).
      cbv iota beta.
      rewrite (hex_start_not_blank ll') by (try assumption; lia).
      cbn [negb].
      replace (k =? 1)%nat with false by (symmetry; apply Nat.eqb_neq; lia).
      destruct (Z.leb_spec 4 (Py.len ll')) as [E4 | E4];
        destruct (Z.eqb_spec (Py.len ll') 6) as [E6' | E6'];
        cbv iota beta; unfold Py.len in E4, E6';
        eexists;
        (split;
         [match goal with
          | |- (set_pc ?x _, _, _) = (set_pc ?y _, _, _) =>
              replace x with y by lia; reflexivity
          end|]);
        cbn [List.length]; rewrite ?List.length_app; cbn [List.length]; lia.
  - (* one to three bytes *)
    apply Z.ltb_ge in E6. unfold Py.len in E6.
    cbn [String.length Asm80.full_data_lines].
    change (2 <=? Py.len "") with false.
    change (4 <=? Py.len "") with false.
    change (Py.len "" =? 6) with false.
    cbv iota beta.
    change ("  " == "  ") with true. cbn [negb].
    destruct (Z.leb_spec 6 (Py.len (long p))) as [E | E];
      cbv iota beta; unfold Py.len in E;
      destruct (Nat.eqb_spec k 1) as [K | K];
      eexists;
      (split;
       [match goal with
        | |- (set_pc ?x _, _, _) = (set_pc ?y _, _, _) =>
            replace x with y by lia; reflexivity
        end|]);
      cbn [List.length]; lia.
Qed.

Lemma data_list_core line p0 p :
  Pass1 line p0 = Ok p ->
  long p <> "" ->
  exists (k : nat) (rows : list string),
    (1 <= k)%nat
    /\ String.length (long p) = (2 * k)%nat
    /\ Asm80.write_rows p
       = (set_pc (pc p + (if (k =? 1)%nat then 2 else Z.of_nat k)) p,
          Asm80.hex4 (pc p), rows)
    /\ (3 * List.length rows - 2 <= k <= 3 * List.length rows)%nat.
Proof.
  intros H Hne.
  pose proof (Pass1_long _ _ _ H) as Hh.
  unfold hex_bytes in Hh. apply andb_true_iff in Hh. destruct Hh as [Hh He].
  apply Nat.even_spec in He. destruct He as [k Hk].
  assert (1 <= k)%nat.
  { destruct (long p); [congruence|]. cbn [String.length] in Hk. lia. }
  destruct (write_rows_data_list p k) as (rows & W1 & W2); try assumption.
  exists k, rows. tauto.
Qed.

(** X8. A line that leaves a data list leaves an even number of hex
    digits, [k] bytes.  The main loop writes them three to a row and
    moves the program counter by [k], except for a list of one byte:
    there it moves the program counter by 2. *)
Theorem data_list_addresses :
  forall (line : string) (p0 p : Parse.t),
    Pass1 line p0 = Ok p ->
    long p <> "" ->
    exists (k : nat) (rows : list string),
      (1 <= k)%nat
      /\ String.length (long p) = (2 * k)%nat
      /\ Asm80.write_rows p
         = (set_pc (pc p + (if (k =? 1)%nat then 2 else Z.of_nat k)) p,
            Asm80.hex4 (pc p), rows)
      /\ (3 * List.length rows - 2 <= k <= 3 * List.length rows)%nat.
Proof.
  intros line p0 p H Hne. exact (data_list_core line p0 p H Hne).
Qed.

Lemma data_list_addresses_witness :
  exists p,
    Pass1 " DB 5" Parse.init = Ok p
    /\ long p <> ""
    /\ exists (k : nat) (rows : list string),
        (1 <= k)%nat
        /\ String.length (long p) = (2 * k)%nat
        /\ Asm80.write_rows p
           = (set_pc (pc p + (if (k =? 1)%nat then 2 else Z.of_nat k)) p,
              Asm80.hex4 (pc p), rows)
        /\ (3 * List.length rows - 2 <= k <= 3 * List.length rows)%nat.
Proof.
  eexists. split; [vm_compute; reflexivity|]. split; [discriminate|].
  apply (data_list_addresses " DB 5" Parse.init);
    [vm_compute; reflexivity | discriminate].
Defined.

(** ** The bookkeeping of Pass 1 *)

(** X9. Whatever the line, when [Pass1] returns it has counted the line,
    kept a label of at most six characters, an instruction length from
    0 to 3 and a data list of hex bytes.  The error count never goes
    down; when it goes up the line carries one of the four Pass 1
    codes, and a line whose count is unchanged carries no code or
    [*V*].  The program counter is left alone except by [ORG] and [DS].
    The symbol table is kept, gets one entry under the line's label, or
    has its last entry replaced by one with an empty name. *)
Theorem Pass1_bookkeeping :
  forall (line : string) (p p' : Parse.t),
    Pass1 line p = Ok p' ->
    ln p' = ln p + 1
    /\ (String.length (label p') <= 6)%nat
    /\ 0 <= bytes p' <= 3
    /\ hex_bytes (long p') = true
    /\ (errors p' = errors p /\ In (err p') [""; "*V*"]
        \/ errors p < errors p' /\ In (err p') ["*D*"; "*O*"; "*V*"; "*R*"])
    /\ (pc p' = pc p
        \/ (mne p' = "ORG" /\ 0 <= pc p' <= 65535)
        \/ (mne p' = "DS" /\ pc p <= pc p' <= pc p + 65535))
    /\ (symbols p' = symbols p
        \/ (exists v, symbols p' = removelast (symbols p) ++ [("", VInt v)])
        \/ (exists v, symbols p' = symbols p ++ [(label p', VInt v)]))%list.
Proof.
  intros line p p' H.
  pose proof (Pass1_long _ _ _ H) as Hl.
  destruct (Pass1_parsed _ _ _ H) as (H1 & H2 & H3 & H4 & H5 & H6).
  repeat (split; [assumption|]). assumption.
Qed.

Lemma Pass1_bookkeeping_witness :
  exists p',
    Pass1 "LOOP: DS 10H ; buffer" Parse.init = Ok p'
    /\ ln p' = ln Parse.init + 1
    /\ (String.length (label p') <= 6)%nat
    /\ 0 <= bytes p' <= 3
    /\ hex_bytes (long p') = true
    /\ (errors p' = errors Parse.init /\ In (err p') [""; "*V*"]
        \/ errors Parse.init < errors p'
           /\ In (err p') ["*D*"; "*O*"; "*V*"; "*R*"])
    /\ (pc p' = pc Parse.init
        \/ (mne p' = "ORG" /\ 0 <= pc p' <= 65535)
        \/ (mne p' = "DS"
            /\ pc Parse.init <= pc p' <= pc Parse.init + 65535))
    /\ (symbols p' = symbols Parse.init
        \/ (exists v,
               symbols p' = removelast (symbols Parse.init) ++ [("", VInt v)])
        \/ (exists v,
               symbols p' = symbols Parse.init ++ [(label p', VInt v)]))%list.
Proof.
  eexists. split; [vm_compute; reflexivity|].
  apply (Pass1_bookkeeping "LOOP: DS 10H ; buffer" Parse.init).
  vm_compute; reflexivity.
Defined.

(** ** The whole run *)

Lemma set_pc_same p : set_pc (pc p) p = p.
Proof. destruct p; reflexivity. Qed.

(** The rows of a parsed line: at least one, and the program counter
    does not go back. *)
Lemma write_rows_after line p0 p :
  Pass1 line p0 = Ok p ->
  exists x a rows,
    Asm80.write_rows p = (set_pc x p, a, rows)
    /\ pc p <= x /\ (1 <= List.length rows)%nat.
Proof.
  intros H.
  destruct (long p == "") eqn:E.
  - destruct (Pass1_parsed _ _ _ H) as (_ & _ & Hb & _).
    unfold Asm80.write_rows. rewrite E.
    destruct (negb (Py.len (b1 p) =? 0)); cbv iota beta.
    + do 3 eexists. split; [reflexivity|]. cbn [List.length]. lia.
    + exists (pc p). do 2 eexists. rewrite set_pc_same.
      split; [reflexivity|]. cbn [List.length]. lia.
  - apply String.eqb_neq in E.
    destruct (data_list_core line p0 p H E) as (k & rows & K1 & K2 & K3 & K4).
    do 3 eexists. split; [exact K3|].
    destruct (k =? 1)%nat; lia.
Qed.

Lemma short_names_removelast s : short_names s -> short_names (removelast s).
Proof.
  unfold short_names. induction s as [|x s IH]; intros H; [constructor|].
  cbn [removelast]. destruct s as [|y s]; [constructor|].
  inversion H; subst. constructor; [assumption | now apply IH].
Qed.

Lemma parsed_short_names p p' :
  parsed p p' -> short_names (symbols p) -> short_names (symbols p').
Proof.
  intros (_ & Hl & _ & _ & _ & [E | [[v E] | [v E]]]) Hs; rewrite E.
  - exact Hs.
  - apply Forall_app. split; [now apply short_names_removelast|].
    constructor; [cbn; lia | constructor].
  - apply Forall_app. split; [exact Hs|].
    constructor; [exact Hl | constructor].
Qed.

Lemma pass1_loop source :
  forall g listing g' listing',
    Asm80.pass1 source (g, listing) = Ok (g', listing') ->
    ln (Asm80.parser g')
    = ln (Asm80.parser g) + Z.of_nat (List.length source)
    /\ (0 <= pc (Asm80.parser g) -> 0 <= pc (Asm80.parser g'))
    /\ errors (Asm80.parser g) <= errors (Asm80.parser g')
    /\ (short_names (symbols (Asm80.parser g)) ->
        short_names (symbols (Asm80.parser g')))
    /\ (List.length listing + List.length source <= List.length listing')%nat.
Proof.
  induction source as [|line rest IH]; intros g listing g' listing' H;
    cbn [Asm80.pass1] in H.
  - inversion H; subst. cbn [List.length].
    repeat split; try tauto; lia.
  - unfold Asm80.pass1_line, bind in H.
    destruct (Pass1 line (Asm80.parser g)) as [p|] eqn:E; [|discriminate H].
    destruct (write_rows_after _ _ _ E) as (x & a & rows & W & Wx & Wr).
    rewrite W in H. cbv iota beta in H.
    apply IH in H. revert H.
    cbn [Asm80.parser Asm80.set_a Asm80.set_parser]. all_fields.
    intros (H1 & H3 & H4 & H5 & H6).
    pose proof (Pass1_parsed _ _ _ E) as P.
    pose proof (parsed_short_names _ _ P) as Ps.
    destruct P as (P1 & _ & _ & P4 & P5 & _).
    cbn [List.length]. rewrite List.length_app in H6.
    repeat split; try lia; try tauto.
Qed.

Ltac globals_fields :=
  cbn [Asm80.parser Asm80.set_a Asm80.set_parser Asm80.set_label_plus
       Asm80.undefined_address fst snd];
  all_fields.

Lemma equ_apply_parser op f guard t3 p0 p1 g g' :
  Asm80.equ_apply op f guard t3 p0 p1 g = Ok g' ->
  Asm80.parser g' = Asm80.parser g.
Proof.
  intros H. unfold Asm80.equ_apply, bind in H. crack; reflexivity.
Qed.

(** Pass 2 touches the error count and the symbol values, nothing else
    of the parser. *)
Lemma pass2_line_keeps line g g' line' :
  Asm80.pass2_line line g = Ok (g', line') ->
  ln (Asm80.parser g') = ln (Asm80.parser g)
  /\ errors (Asm80.parser g) <= errors (Asm80.parser g').
Proof.
  intros H.
  unfold Asm80.pass2_line, bind in H.
  destruct (Asm80.resolve_address line g) as [[g1 line1]|] eqn:E1;
    [|discriminate H].
  assert (A : ln (Asm80.parser g1) = ln (Asm80.parser g)
              /\ errors (Asm80.parser g) <= errors (Asm80.parser g1)).
  { clear H. unfold Asm80.resolve_address in E1. cbv zeta in E1.
    destruct (0 <? _); [|inversion E1; subst; split; [reflexivity | lia]].
    destruct (_ && _).
    - unfold Asm80.resolve_equ, bind in E1.
      crack;
        repeat match goal with
               | H : Asm80.equ_apply _ _ _ _ _ _ _ = Ok _ |- _ =>
                   apply equ_apply_parser in H
               end;
        globals_fields;
        repeat match goal with
               | H : Asm80.parser _ = Asm80.parser _ |- _ => rewrite H
               end;
        split; try reflexivity; lia.
    - unfold Asm80.resolve_reference, bind in E1.
      crack;
        repeat match goal with
               | H : Asm80.label_offset _ _ = Ok _ |- _ =>
                   apply label_offset_parser in H
               end;
        globals_fields;
        repeat match goal with
               | H : Asm80.parser _ = Asm80.parser _ |- _ => rewrite H
               end;
        split; try reflexivity; lia. }
  cbv iota beta in H.
  unfold Asm80.resolve_byte, bind in H. cbv zeta in H.
  destruct A as [A1 A2].
  crack; globals_fields; split; try assumption; lia.
Qed.

Lemma pass2_keeps listing :
  forall g g' rows,
    Asm80.pass2 listing g = Ok (g', rows) ->
    ln (Asm80.parser g') = ln (Asm80.parser g)
    /\ errors (Asm80.parser g) <= errors (Asm80.parser g')
    /\ List.length rows = List.length listing.
Proof.
  induction listing as [|line rest IH]; intros g g' rows H;
    cbn [Asm80.pass2] in H.
  - inversion H; subst. repeat split; lia.
  - unfold bind in H.
    destruct (Asm80.pass2_line line g) as [[g1 line1]|] eqn:E1;
      [|discriminate H].
    cbv iota beta in H.
    destruct (Asm80.pass2 rest g1) as [[g2 rest2]|] eqn:E2;
      [|discriminate H].
    cbv iota beta in H. inversion H; subst; clear H.
    apply pass2_line_keeps in E1. apply IH in E2.
    cbn [List.length]. repeat split; lia.
Qed.

Lemma trailer_keeps g g' tail :
  Asm80.trailer g = Ok (g', tail) ->
  ln (Asm80.parser g') = ln (Asm80.parser g)
  /\ errors (Asm80.parser g') = errors (Asm80.parser g).
Proof.
  intros H. unfold Asm80.trailer, bind in H.
  crack. globals_fields. split; reflexivity.
Qed.

(** X10. A run that ends reports as assembled lines the number of lines
    of the source file, whatever is on them; its error total is not
    negative, and the hex file is left out exactly when that total is
    positive. *)
Theorem assemble_counts_lines :
  forall (source_text : string) (out : Asm80.output),
    Asm80.assemble source_text = Ok out ->
    Asm80.assembled_lines out
    = Z.of_nat (List.length (Py.readlines source_text))
    /\ 0 <= Asm80.total_errors out
    /\ (Asm80.hex out = None <-> 0 < Asm80.total_errors out).
Proof.
  intros source_text out H.
  unfold Asm80.assemble, bind in H.
  destruct (Asm80.pass1 _ _) as [[g1 tmp]|] eqn:E1; [|discriminate H].
  cbv iota beta in H.
  destruct (Asm80.pass2 _ g1) as [[g2 rows]|] eqn:E2; [|discriminate H].
  cbv iota beta in H.
  destruct (Asm80.trailer g2) as [[g3 tail]|] eqn:E3; [|discriminate H].
  cbv iota beta in H.
  apply pass1_loop in E1. destruct E1 as (L1 & _ & L3 & _).
  apply pass2_keeps in E2. destruct E2 as (M1 & M2 & _).
  apply trailer_keeps in E3. destruct E3 as (T1 & T2).
  change (ln (Asm80.parser Asm80.start)) with 0 in L1.
  change (errors (Asm80.parser Asm80.start)) with 0 in L3.
  destruct (errors (Asm80.parser g3) =? 0) eqn:E0.
  - apply Z.eqb_eq in E0.
    destruct (Asm80.hex_records _); [|discriminate H].
    inversion H; subst; clear H.
    cbn [Asm80.assembled_lines Asm80.total_errors Asm80.hex].
    split; [lia|]. split; [lia|].
    split; [discriminate | lia].
  - apply Z.eqb_neq in E0.
    inversion H; subst; clear H.
    cbn [Asm80.assembled_lines Asm80.total_errors Asm80.hex].
    split; [lia|]. split; [lia|].
    split; [lia | reflexivity].
Qed.

Lemma assemble_counts_lines_witness :
  exists out,
    Asm80.assemble (file ["START: MVI A,5"; ""; " JMP NOWHERE ; undefined"])
    = Ok out
    /\ Asm80.assembled_lines out
       = Z.of_nat
           (List.length
              (Py.readlines
                 (file ["START: MVI A,5"; ""; " JMP NOWHERE ; undefined"])))
    /\ 0 <= Asm80.total_errors out
    /\ (Asm80.hex out = None <-> 0 < Asm80.total_errors out).
Proof.
  eexists. split; [vm_compute; reflexivity|].
  apply (assemble_counts_lines
           (file ["START: MVI A,5"; ""; " JMP NOWHERE ; undefined"])).
  vm_compute; reflexivity.
Defined.

(** ** String data *)

Lemma text_cons c r :
  text (String c r) = true ->
  Ascii.eqb c Py.squote = false /\ Ascii.eqb c ";" = false
  /\ Ascii.eqb c Py.newline = false /\ text r = true.
Proof.
  unfold text, text_char. cbn [all_chars].
  rewrite !andb_true_iff, !negb_true_iff. tauto.
Qed.

Lemma Op_byte_char c :
  Op_byte (String Py.squote (String c (String Py.squote ""))) = hex2 (Py.ord c).
Proof. reflexivity. Qed.

(** Every character of string data but the double quote adds its code
    to the data list. *)
Lemma db_string_text op :
  forall p, db_string op p = set_long (long p ++ text_bytes op) p.
Proof.
  unfold db_string.
  induction op as [|c r IH]; intros p;
    cbn [list_ascii_of_string fold_left text_bytes].
  - rewrite app_empty_r. now destruct p.
  - destruct (Ascii.eqb c Py.dquote); [apply IH|].
    rewrite IH, Op_byte_char. all_fields.
    now rewrite app_assoc_str.
Qed.

(** Inside a string the splitter copies everything up to the closing
    quote, commas too. *)
Lemma db_fold_text s :
  forall temp,
    text s = true ->
    fold_left db_step (list_ascii_of_string (s ++ "'")) ([], true, false, temp)
    = ([], false, false, temp ++ s ++ String Py.dquote "").
Proof.
  induction s as [|c r IH]; intros temp H.
  - reflexivity.
  - apply text_cons in H. destruct H as (Hq & _ & _ & Hr).
    cbn [append list_ascii_of_string fold_left].
    unfold db_step at 2. rewrite Hq. cbn [andb negb].
    rewrite ?Bool.andb_false_r. cbn [andb]. cbv iota beta.
    rewrite (IH _ Hr). unfold Py.snoc. now rewrite app_assoc_str.
Qed.

Lemma db_split_text s :
  text s = true ->
  db_split ("'" ++ s ++ "'") = [String Py.dquote (s ++ String Py.dquote "")].
Proof.
  intros H. unfold db_split.
  cbn [append list_ascii_of_string fold_left].
  change (db_step ([], false, false, "") "'")
    with (@nil string, true, false, String Py.dquote "").
  now rewrite (db_fold_text s _ H).
Qed.

Lemma text_bytes_quoted s :
  text_bytes (String Py.dquote (s ++ String Py.dquote "")) = text_bytes s.
Proof.
  cbn [text_bytes]. change (Ascii.eqb Py.dquote Py.dquote) with true. cbv iota.
  induction s as [|c r IH]; [reflexivity|].
  cbn [append text_bytes]. now rewrite IH.
Qed.

Lemma Pass1_operand_text s p :
  text s = true ->
  mne p = "DB" ->
  Pass1_operand "b" ("'" ++ s ++ "'") p
  = Ok (set_bytes 1
          (set_oper ("'" ++ s ++ "'") (set_long (long p ++ text_bytes s) p))).
Proof.
  intros H Hm. unfold Pass1_operand.
  change (Ascii.eqb "b" "-") with false.
  change (Ascii.eqb "b" "b") with true.
  cbv iota. rewrite Hm. cbn [String.eqb Ascii.eqb Bool.eqb].
  rewrite (db_split_text s H). cbn [fold_left].
  unfold db_operand.
  cbn [Py.lstrip]. change (Py.isspace Py.dquote) with false. cbv iota.
  cbn [Py.find Py.starts_with].
  change (Ascii.eqb Py.dquote Py.dquote) with true. cbn [andb].
  change (0 =? 0) with true. cbv iota.
  now rewrite db_string_text, text_bytes_quoted.
Qed.

Lemma rstrip_quoted s : Py.rstrip (s ++ "'") = s ++ "'".
Proof.
  induction s as [|c r IH]; [reflexivity|].
  cbn [append Py.rstrip]. rewrite IH.
  destruct r; reflexivity.
Qed.

Lemma remove_newline_text s :
  text s = true -> Py.remove_char Py.newline s = s.
Proof.
  induction s as [|c r IH]; [reflexivity|].
  intros H. apply text_cons in H. destruct H as (_ & _ & Hn & Hr).
  cbn [Py.remove_char]. now rewrite Hn, (IH Hr).
Qed.

Lemma remove_newline_app c s t :
  Py.remove_char c (s ++ t) = Py.remove_char c s ++ Py.remove_char c t.
Proof.
  induction s as [|a r IH]; [reflexivity|].
  cbn [append Py.remove_char].
  destruct (Ascii.eqb a c); [exact IH | cbn [append]; now rewrite IH].
Qed.

Lemma find_semicolon_text s :
  text s = true -> Py.find ";" (s ++ "'") = -1.
Proof.
  induction s as [|c r IH]; intros H; [reflexivity|].
  apply text_cons in H. destruct H as (_ & Hs & _ & Hr).
  cbn [append]. apply find_skip_none; [|now apply IH].
  cbn [Py.starts_with]. now rewrite Ascii.eqb_sym, Hs.
Qed.

Lemma find_skip_cases sub c s :
  Py.starts_with sub (String c s) = false ->
  Py.find sub (String c s) = -1 /\ Py.find sub s = -1
  \/ Py.find sub (String c s) = Py.find sub s + 1 /\ 0 <= Py.find sub s.
Proof.
  intros H. rewrite (find_skip sub c s H).
  pose proof (find_lower sub s).
  destruct (Z.ltb_spec (Py.find sub s) 0); [left | right]; lia.
Qed.

(** A colon behind the opening quote of a [DB] string does not make a
    label. *)
Lemma no_label_before_text rest :
  let line := "DB '" ++ rest in
  let pos := Py.find ":" line in
  let posq := Py.find "'" line in
  (0 <? (if (0 <? pos) && (0 <? posq) && (posq <? pos) then -1 else pos))
  = false.
Proof.
  cbv zeta.
  change (Py.find "'" ("DB '" ++ rest)) with 3.
  assert (P : Py.find ":" ("DB '" ++ rest) = -1
              \/ 4 <= Py.find ":" ("DB '" ++ rest)).
  { cbn [append].
    destruct (find_skip_cases ":" "'" rest eq_refl) as [[A1 _] | [A1 A1']];
      destruct (find_skip_cases ":" " " (String "'" rest) eq_refl)
        as [[A2 A2'] | [A2 A2']];
      destruct (find_skip_cases ":" "B" (String " " (String "'" rest)) eq_refl)
        as [[A3 A3'] | [A3 A3']];
      destruct (find_skip_cases ":" "D"
                  (String "B" (String " " (String "'" rest))) eq_refl)
        as [[A4 A4'] | [A4 A4']];
      lia. }
  revert P. generalize (Py.find ":" ("DB '" ++ rest)). intros pos P.
  destruct (Z.ltb_spec 0 pos); destruct (Z.ltb_spec 3 pos);
    cbn [andb]; try reflexivity; try lia;
    destruct (Z.ltb_spec 0 pos); try reflexivity; lia.
Qed.

Lemma Pass1_text s p :
  text s = true ->
  Pass1 ("DB '" ++ s ++ "'") p
  = Ok (set_bytes 1
          (set_oper ("'" ++ s ++ "'")
             (set_long (text_bytes s)
                (set_b1 "00" (set_mne "DB" (set_ln (ln p + 1) (reset p))))))).
Proof.
  intros H. unfold Pass1.
  change (Py.lstrip ("DB '" ++ s ++ "'")) with ("DB '" ++ s ++ "'").
  change (Py.remove_char Py.newline ("DB '" ++ s ++ "'"))
    with ("DB '" ++ Py.remove_char Py.newline (s ++ "'")).
  rewrite remove_newline_app, (remove_newline_text s H).
  change (Py.remove_char Py.newline "'") with "'".
  cbv zeta.
  change (Py.len ("DB '" ++ s ++ "'") =? 0) with false. cbv iota.
  replace (Py.find ";" ("DB '" ++ s ++ "'")) with (-1).
  2: { symmetry. cbn [append].
       do 4 (apply find_skip_none; [reflexivity|]).
       now apply find_semicolon_text. }
  change (0 <=? -1) with false. cbv iota.
  unfold Pass1_label.
  pose proof (no_label_before_text (s ++ "'")) as N. cbv zeta in N.
  rewrite N. clear N.
  unfold Pass1_mnemonic.
  change (Py.item 0 (Py.split_ws ("DB '" ++ s ++ "'")))
    with (Ok "DB" : result string).
  cbn [bind]. change (Py.upper "DB") with "DB".
  cbv zeta. cbn [mne set_mne].
  change (Py.from (String.length "DB" + 1) ("DB '" ++ s ++ "'"))
    with ("'" ++ s ++ "'").
  change (Py.lstrip ("'" ++ s ++ "'")) with ("'" ++ s ++ "'").
  change ("'" ++ s ++ "'") with (String "'" (s ++ "'")) at 1.
  replace (Py.rstrip (String "'" (s ++ "'"))) with ("'" ++ s ++ "'").
  2: { symmetry. exact (rstrip_quoted (String "'" s)). }
  replace (Py.len "DB" + 1 <? Py.len ("DB '" ++ s ++ "'")) with true.
  2: { symmetry. apply Z.ltb_lt. unfold Py.len.
       cbn [append String.length]. lia. }
  cbv iota.
  replace (Instruction808x.opCode "DB") with "00b" by (vm_compute; reflexivity).
  change ("00b" == "Error") with false. cbv iota.
  change (Py.index 2 "00b") with (Ok "b"%char : result ascii).
  cbn [bind]. change (Py.slice 0 2 "00b") with "00".
  rewrite (Pass1_operand_text s _ H) by reflexivity.
  reflexivity.
Qed.

Lemma length_text_bytes s :
  String.length (text_bytes s) = (2 * emitted s)%nat.
Proof.
  induction s as [|c r IH]; [reflexivity|].
  cbn [text_bytes emitted].
  destruct (Ascii.eqb c Py.dquote); [exact IH|].
  rewrite length_app, IH.
  pose proof (hex_byte (Py.ord c) (ord_range c)) as Hb.
  unfold hex_word in Hb. apply andb_true_iff in Hb. destruct Hb as [Hb _].
  apply Nat.eqb_eq in Hb. unfold hex2. rewrite Hb. lia.
Qed.

(** X11. [DB 'text'], with no single quote, semicolon or newline in the
    text, puts the character codes in the data list in order, two hex
    digits each, commas and blanks included, without an error; double
    quotes in the text are dropped.  The opcode field keeps the [00] of
    the dictionary, which is what an empty string leaves to be emitted. *)
Theorem db_text_bytes :
  forall (s : string) (p : Parse.t),
    text s = true ->
    exists p',
      Pass1 ("DB '" ++ s ++ "'") p = Ok p'
      /\ mne p' = "DB" /\ oper p' = "'" ++ s ++ "'"
      /\ err p' = "" /\ errors p' = errors p
      /\ b1 p' = "00"
      /\ long p' = text_bytes s
      /\ String.length (long p') = (2 * emitted s)%nat.
Proof.
  intros s p H. rewrite (Pass1_text s p H).
  eexists. split; [reflexivity|]. all_fields.
  repeat (split; [reflexivity|]).
  apply length_text_bytes.
Qed.

Lemma db_text_bytes_witness :
  text "A,b c" = true
  /\ exists p',
      Pass1 ("DB '" ++ "A,b c" ++ "'") Parse.init = Ok p'
      /\ mne p' = "DB" /\ oper p' = "'" ++ "A,b c" ++ "'"
      /\ err p' = "" /\ errors p' = errors Parse.init
      /\ b1 p' = "00"
      /\ long p' = text_bytes "A,b c"
      /\ String.length (long p') = (2 * emitted "A,b c")%nat.
Proof.
  split; [reflexivity|].
  apply (db_text_bytes "A,b c" Parse.init). reflexivity.
Defined.

(** ** The checksum of a hex record *)

Lemma hexval_app s :
  forall acc t, hexval acc (s ++ t) = hexval (hexval acc s) t.
Proof.
  induction s as [|c s IH]; intros acc t; [reflexivity|].
  cbn [append hexval]. apply IH.
Qed.

Lemma upto_from n : forall s, Py.upto n s ++ Py.from n s = s.
Proof.
  induction n as [|n IH]; intros s; [reflexivity|].
  destruct s as [|c s]; [reflexivity|].
  cbn [Py.upto Py.from append]. now rewrite IH.
Qed.

Lemma all_chars_upto f n : forall s, all_chars f s = true -> all_chars f (Py.upto n s) = true.
Proof.
  induction n as [|n IH]; intros s H; [reflexivity|].
  destruct s as [|c s]; [reflexivity|].
  cbn [all_chars Py.upto] in *. apply andb_true_iff in H. destruct H as [Hc Hs].
  now rewrite Hc, (IH s Hs).
Qed.

(** The last two hex digits of a number are its value modulo 256. *)
Lemma last2_value s :
  all_chars hexdig s = true ->
  s <> "" ->
  all_chars hexdig (Py.last2 s) = true
  /\ Py.last2 s <> ""
  /\ hexval 0 (Py.last2 s) = hexval 0 s mod 256.
Proof.
  intros H Hne. unfold Py.last2.
  set (n := (String.length s - 2)%nat).
  assert (Hf : all_chars hexdig (Py.from n s) = true) by now apply all_chars_from.
  assert (Hu : all_chars hexdig (Py.upto n s) = true) by now apply all_chars_upto.
  pose proof (length_from n s) as Hl.
  assert (Hlen : (1 <= String.length s)%nat).
  { destruct s; [congruence | cbn; lia]. }
  split; [exact Hf|]. split.
  { intros E. rewrite E in Hl. cbn in Hl. lia. }
  pose proof (hexval_bound _ Hf) as Bf.
  pose proof (hexval_bound _ Hu) as Bu.
  assert (V : hexval 0 s
              = hexval 0 (Py.upto n s) * 16 ^ Z.of_nat (String.length (Py.from n s))
                + hexval 0 (Py.from n s)).
  { rewrite <- (upto_from n s) at 1. rewrite hexval_app. apply hexval_shift. }
  destruct (Nat.le_gt_cases 2 (String.length s)) as [L | L].
  - replace (String.length (Py.from n s)) with 2%nat in * by lia.
    change (16 ^ Z.of_nat 2) with 256 in *.
    rewrite V.
    apply (Z.mod_unique _ _ (hexval 0 (Py.upto n s))); lia.
  - assert (n = 0)%nat by lia.
    replace n with 0%nat in * by lia. cbn [Py.from] in *.
    replace (String.length s) with 1%nat in * by lia.
    change (16 ^ Z.of_nat 1) with 16 in *.
    symmetry. apply Z.mod_small. lia.
Qed.

Lemma checksum_reads sum :
  0 <= sum ->
  exists c,
    Asm80.checksum sum = Ok c
    /\ Py.int 16 c = Ok (256 - sum mod 256)
    /\ (sum mod 256 = 0 -> c = "100")
    /\ (sum mod 256 <> 0 -> hex_word 2 c = true).
Proof.
  intros Hs. unfold Asm80.checksum. cbv zeta.
  destruct (format_hex_value true sum Hs) as (F1 & F2 & F3).
  destruct (last2_value _ F1 F2) as (L1 & L2 & L3).
  unfold Py.format_X.
  rewrite (int16_hex _ L1 L2), L3, F3. cbn [bind].
  pose proof (Z.mod_pos_bound sum 256 ltac:(lia)) as B.
  eexists. split; [reflexivity|]. split; [|split].
  - replace (255 - sum mod 256 + 1) with (256 - sum mod 256) by lia.
    apply hex_round_trip. lia.
  - intros E. rewrite E. reflexivity.
  - intros E. apply hex_byte. lia.
Qed.

(** X12. The checksum of a record is computed from the last two hex
    digits of the sum it is given: it reads as 256 less the sum modulo
    256.  That is a hex byte, except when the sum is a multiple of 256:
    then the checksum is the three characters [100]. *)
Theorem checksum_is_complement :
  forall sum : Z,
    0 <= sum ->
    exists c,
      Asm80.checksum sum = Ok c
      /\ Py.int 16 c = Ok (256 - sum mod 256)
      /\ (sum mod 256 = 0 -> c = "100")
      /\ (sum mod 256 <> 0 -> hex_word 2 c = true).
Proof.
  intros sum Hs. exact (checksum_reads sum Hs).
Qed.

Lemma checksum_is_complement_witness :
  0 <= 256
  /\ exists c,
      Asm80.checksum 256 = Ok c
      /\ Py.int 16 c = Ok (256 - 256 mod 256)
      /\ (256 mod 256 = 0 -> c = "100")
      /\ (256 mod 256 <> 0 -> hex_word 2 c = true).
Proof.
  split; [lia|].
  apply (checksum_is_complement 256). lia.
Defined.

(** ** The records of the hex file *)

Lemma hex_digit_facts c :
  is_hex_digit c = true ->
  hexdig c = true /\ 0 <= digit_of c < 16 /\ Ascii.eqb c " " = false.
Proof.
  intros H. pose proof (is_hex_hexdig c H) as Hd.
  destruct (hexdig_value c Hd) as (d & _ & B & E).
  repeat split; try assumption; try lia.
  destruct (Ascii.eqb_spec c " ") as [-> | _]; [discriminate H | reflexivity].
Qed.

Lemma hex_word2_chars s :
  hex_word 2 s = true ->
  exists x y,
    s = String x (String y "")
    /\ is_hex_digit x = true /\ is_hex_digit y = true.
Proof.
  unfold hex_word. intros H. apply andb_true_iff in H. destruct H as [L H].
  destruct s as [|x [|y [|z r]]]; try discriminate L.
  cbn [all_chars] in H. rewrite !andb_true_iff in H.
  exists x, y. tauto.
Qed.

Lemma hex_word4_chars s :
  hex_word 4 s = true ->
  exists a b c d,
    s = String a (String b (String c (String d "")))
    /\ is_hex_digit a = true /\ is_hex_digit b = true
    /\ is_hex_digit c = true /\ is_hex_digit d = true.
Proof.
  unfold hex_word. intros H. apply andb_true_iff in H. destruct H as [L H].
  destruct s as [|a [|b [|c [|d [|e r]]]]]; try discriminate L.
  cbn [all_chars] in H. rewrite !andb_true_iff in H.
  exists a, b, c, d. tauto.
Qed.

Lemma int16_pair x y :
  is_hex_digit x = true -> is_hex_digit y = true ->
  Py.int 16 (String x (String y "")) = Ok (16 * digit_of x + digit_of y).
Proof.
  intros Hx Hy.
  destruct (hex_digit_facts x Hx) as (Dx & _).
  destruct (hex_digit_facts y Hy) as (Dy & _).
  rewrite int16_hex; [|cbn [all_chars]; now rewrite Dx, Dy|discriminate].
  cbn [hexval]. f_equal. lia.
Qed.

Lemma int16_quad a b c d :
  is_hex_digit a = true -> is_hex_digit b = true ->
  is_hex_digit c = true -> is_hex_digit d = true ->
  exists v, Py.int 16 (String a (String b (String c (String d "")))) = Ok v.
Proof.
  intros Ha Hb Hc Hd.
  destruct (hex_digit_facts a Ha) as (Da & _).
  destruct (hex_digit_facts b Hb) as (Db & _).
  destruct (hex_digit_facts c Hc) as (Dc & _).
  destruct (hex_digit_facts d Hd) as (Dd & _).
  eexists.
  rewrite int16_hex; [reflexivity| |discriminate].
  cbn [all_chars]. now rewrite Da, Db, Dc, Dd.
Qed.

Lemma Ok_inj {A : Type} (a b : A) : Ok a = Ok b -> a = b.
Proof. congruence. Qed.

Ltac hex_chars :=
  repeat match goal with
         | H : hex_word 4 _ = true |- _ =>
             apply hex_word4_chars in H;
             destruct H as (? & ? & ? & ? & -> & ? & ? & ? & ?)
         | H : hex_word 2 _ = true |- _ =>
             apply hex_word2_chars in H;
             destruct H as (? & ? & -> & ? & ?)
         end.

Ltac hex_values :=
  repeat match goal with
         | H : is_hex_digit ?c = true |- _ =>
             lazymatch goal with
             | _ : 0 <= digit_of c < 16 |- _ => fail
             | _ => let B := fresh "B" in
                    let S := fresh "S" in
                    destruct (hex_digit_facts c H) as (_ & B & S)
             end
         end.

(** A record whose checksum has two digits: the bytes after the colon
    are the count, the address, the type 00, the data and the
    checksum. *)
Ltac record_bytes_sum :=
  unfold record_sum;
  cbn [append String.length Py.from record_bytes Py.upto];
  rewrite ?int16_pair by (assumption || reflexivity);
  cbn [bind fold_right].

(** X13. Take a listing row with four hex digits in the address column
    and hex bytes in the byte columns that are not blank.  The HEX
    emitter writes one record for it: the count of its data bytes, the
    address, the type 00, the data and a checksum.  When the checksum
    has its two digits, the bytes of the record sum to the count less
    one, modulo 256: only a record of one data byte sums to zero. *)
Theorem hex_record_sum line :
  22 <= Py.len line ->
  hex_word 4 (Py.slice 10 14 line) = true ->
  hex_word 2 (Py.slice 15 17 line) = true ->
  (Py.slice 18 20 line = "  "
   \/ hex_word 2 (Py.slice 18 20 line) = true
      /\ (Py.slice 21 23 line = "  "
          \/ hex_word 2 (Py.slice 21 23 line) = true)) ->
  1 <= data_count line <= 3
  /\ exists c,
      Asm80.hex_record line
      = Ok (Some (":0" ++ Py.str (data_count line) ++ Py.slice 10 14 line
                  ++ "00" ++ data_field line ++ c))
      /\ (c = "100"
          \/ hex_word 2 c = true
             /\ record_sum (":0" ++ Py.str (data_count line)
                            ++ Py.slice 10 14 line
                            ++ "00" ++ data_field line ++ c)
                = Ok (data_count line - 1)).
Proof.
  intros Hlen Ha H1 H23.
  unfold Asm80.hex_record, data_count, data_field. cbv zeta.
  replace (Py.len line <? 22) with false by (symmetry; apply Z.ltb_ge; lia).
  clear Hlen. revert Ha H1 H23.
  generalize (Py.slice 10 14 line) (Py.slice 15 17 line)
    (Py.slice 18 20 line) (Py.slice 21 23 line).
  intros addr b1 b2 b3 Ha H1 H23.
  destruct H23 as [-> | [H2 [-> | H3]]]; hex_chars; hex_values;
    match goal with
    | |- context [Py.int 16 (String ?a (String ?b (String ?c (String ?d ""))))] =>
        let v := fresh "v" in let E := fresh "E" in
        destruct (int16_quad a b c d) as [v E]; try assumption; rewrite E
    end;
    cbn [Py.slice Nat.sub Py.from Py.upto String.eqb Ascii.eqb Bool.eqb andb];
    rewrite ?int16_pair by assumption;
    cbn [bind];
    repeat match goal with
           | S : Ascii.eqb ?x " " = false |- _ => rewrite S; clear S
           end;
    cbn [andb];
    unfold Py.len; cbn [append String.length];
    match goal with
    | |- context [Z.of_nat ?k / 2] =>
        let v := eval vm_compute in (Py.str (Z.of_nat k / 2)) in
        change (Py.str (Z.of_nat k / 2)) with v;
        let w := eval vm_compute in (Z.of_nat k / 2) in
        change (Z.of_nat k / 2) with w
    end;
    match goal with
    | |- context [Asm80.checksum ?s] =>
        let c := fresh "c" in
        let C1 := fresh "C" in let C2 := fresh "C" in
        let C3 := fresh "C" in let C4 := fresh "C" in
        destruct (checksum_reads s) as (c & C1 & C2 & C3 & C4);
        [lia|]; rewrite C1; cbn [bind];
        (split; [lia|]);
        exists c; (split; [reflexivity|]);
        destruct (Z.eq_dec (s mod 256) 0) as [Z0 | Z0];
        [left; exact (C3 Z0)|right; specialize (C4 Z0)]
    end;
    (split; [assumption|]);
    hex_chars;
    rewrite int16_pair in * by assumption;
    match goal with
    | C : Ok _ = Ok _ |- _ => apply Ok_inj in C
    end;
    record_bytes_sum;
    change (digit_of "0") with 0;
    try change (digit_of "1") with 1;
    try change (digit_of "2") with 2;
    try change (digit_of "3") with 3;
    f_equal; Z.div_mod_to_equations; lia.
Qed.


Lemma hex_record_sum_witness :
  22 <= Py.len jmp_resolved_row
  /\ 1 <= data_count jmp_resolved_row <= 3
  /\ exists c,
      Asm80.hex_record jmp_resolved_row
      = Ok (Some (":0" ++ Py.str (data_count jmp_resolved_row)
                  ++ Py.slice 10 14 jmp_resolved_row
                  ++ "00" ++ data_field jmp_resolved_row ++ c))
      /\ (c = "100"
          \/ hex_word 2 c = true
             /\ record_sum (":0" ++ Py.str (data_count jmp_resolved_row)
                            ++ Py.slice 10 14 jmp_resolved_row
                            ++ "00" ++ data_field jmp_resolved_row ++ c)
                = Ok (data_count jmp_resolved_row - 1)).
Proof.
  split; [vm_compute; discriminate|].
  apply (hex_record_sum jmp_resolved_row);
    [vm_compute; discriminate | reflexivity | reflexivity|].
  right. split; [reflexivity|]. right. reflexivity.
Defined.

(** ** References resolved by Pass 2 *)







(** ** Byte references resolved by Pass 2 *)

(** X15. Pass 2 on a row with a single-byte placeholder [??] and no
    address placeholder.  When the last definition of the last word of
    the row is a value from 0 to 65535, the placeholder is replaced by
    one byte of it: the high byte when a word of the row contains
    [HIGH], the low byte otherwise, whatever the value; no error is
    counted. *)
Theorem byte_reference_takes_one_byte line g s label earlier later v :
  0 < s ->
  Py.find "?? ??" line = -1 ->
  Py.find "??" line = s ->
  Py.last_item (Asm80.words_after s line) = Ok label ->
  symbols (Asm80.parser g) = ((earlier ++ [(label, VInt v)]) ++ later)%list ->
  ~ In label (map fst later) ->
  0 <= v <= 65535 ->
  exists g' b,
    Asm80.pass2_line line g
    = Ok (g', Py.upto (Z.to_nat s) line ++ b ++ " "
                ++ Py.from (Z.to_nat (s + 3)) line)
    /\ hex_word 2 b = true
    /\ Py.int 16 b
       = Ok (if existsb (Py.contains "HIGH") (Asm80.words_after s line)
             then v / 256 else v mod 256)
    /\ errors (Asm80.parser g') = errors (Asm80.parser g)
    /\ symbols (Asm80.parser g') = symbols (Asm80.parser g).
Proof.
  intros Hs Haddr Hfind Hlast Hsyms Hlater Hrange.
  assert (Hpos : (0 <? s) = true) by (apply Z.ltb_lt; lia).
  destruct (hex4_bytes v Hrange) as (W1 & W2 & W3 & W4).
  unfold hex4 in W1, W2, W3, W4.
  unfold Asm80.pass2_line, Asm80.resolve_address.
  rewrite Haddr. cbn [Z.ltb Z.compare bind].
  unfold Asm80.resolve_byte.
  rewrite Hfind. cbv zeta. rewrite Hpos, Hlast. cbn [bind].
  rewrite Hsyms, !lookup_val_app.
  cbn [Asm80.lookup_val fst snd]. rewrite String.eqb_refl.
  rewrite (lookup_val_absent _ _ _ Hlater).
  cbn [Asm80.val_is_empty Asm80.format_val bind].
  change (Py.upto 2 (Py.zfill 4 (Py.format_X v)))
    with (Py.slice 0 2 (Py.zfill 4 (Py.format_X v))).
  destruct (existsb (Py.contains "HIGH") (Asm80.words_after s line));
    do 2 eexists; (split; [reflexivity|]);
    cbn [Asm80.parser Asm80.set_a Asm80.set_parser];
    repeat (split; [assumption|]);
    (split; [reflexivity|]);
    first [reflexivity | exact Hsyms | now symmetry | now rewrite Hsyms].
Qed.


Lemma byte_reference_takes_one_byte_witness :
  exists g' b,
    Asm80.pass2_line mvi_high_row with_start
    = Ok (g', Py.upto (Z.to_nat 18) mvi_high_row ++ b ++ " "
                ++ Py.from (Z.to_nat (18 + 3)) mvi_high_row)
    /\ hex_word 2 b = true
    /\ Py.int 16 b
       = Ok (if existsb (Py.contains "HIGH")
                  (Asm80.words_after 18 mvi_high_row)
             then 256 / 256 else 256 mod 256)
    /\ errors (Asm80.parser g') = errors (Asm80.parser with_start)
    /\ symbols (Asm80.parser g') = symbols (Asm80.parser with_start).
Proof.
  apply (byte_reference_takes_one_byte mvi_high_row with_start 18
           "START" [] [] 256);
    try reflexivity; try lia.
  simpl. tauto.
Defined.

(** ** A placeholder in a comment *)

Lemma length_rstrip s : (String.length (Py.rstrip s) <= String.length s)%nat.
Proof.
  induction s as [|c r IH]; [cbn; lia|].
  cbn [Py.rstrip]. destruct (Py.rstrip r) as [|c' r'].
  - destruct (Py.isspace c); cbn [String.length]; lia.
  - cbn [String.length] in *. lia.
Qed.

Lemma from_past_end n : forall s, (String.length s <= n)%nat -> Py.from n s = "".
Proof.
  induction n as [|n IH]; intros s H.
  - destruct s; [reflexivity | cbn in H; lia].
  - destruct s as [|c s]; [reflexivity|].
    cbn [Py.from]. apply IH. cbn [String.length] in H. lia.
Qed.

(** Nothing is left of a row behind a placeholder that lies in its
    comment. *)
Lemma no_words_in_comment s line :
  0 < Py.find ";" line <= s + 5 ->
  Asm80.words_after s line = [].
Proof.
  intros [C1 C2]. unfold Asm80.words_after. cbv zeta.
  replace (0 <? Py.find ";" line) with true by (symmetry; apply Z.ltb_lt; lia).
  rewrite from_past_end; [reflexivity|].
  pose proof (length_rstrip (Py.upto (Z.to_nat (Py.find ";" line)) line)).
  pose proof (length_upto (Z.to_nat (Py.find ";" line)) line).
  lia.
Qed.

Lemma starts_with_prefix p q s :
  Py.starts_with (p ++ q) s = true -> Py.starts_with p s = true.
Proof.
  revert s. induction p as [|a p IH]; intros s H; [reflexivity|].
  destruct s as [|b s]; [discriminate H|].
  cbn [append Py.starts_with] in *.
  apply andb_true_iff in H. destruct H as [H1 H2].
  now rewrite H1, (IH s H2).
Qed.

(** A pattern is found no later than a longer one that starts with it. *)
Lemma find_prefix_first p q s :
  0 <= Py.find (p ++ q) s -> 0 <= Py.find p s <= Py.find (p ++ q) s.
Proof.
  induction s as [|c s IH]; cbn [Py.find].
  - destruct (Py.starts_with (p ++ q) "") eqn:E; [|lia].
    rewrite (starts_with_prefix p q "" E). lia.
  - destruct (Py.starts_with (p ++ q) (String c s)) eqn:E.
    + rewrite (starts_with_prefix p q _ E). lia.
    + destruct (Py.find (p ++ q) s <? 0) eqn:E1; [lia|].
      apply Z.ltb_ge in E1. specialize (IH E1). intros _.
      destruct (Py.starts_with p (String c s)); [lia|].
      destruct (Py.find p s <? 0) eqn:E2; [apply Z.ltb_lt in E2; lia|].
      lia.
Qed.

(** X16. A row whose first [??] lies in its comment, or less than five
    columns before it: Pass 2 takes it for a placeholder, finds no word
    behind it and ends the run with an [IndexError]. *)
Theorem placeholder_in_comment_raises :
  forall (line : string) (g : Asm80.globals),
    0 < Py.find "??" line ->
    0 < Py.find ";" line <= Py.find "??" line + 5 ->
    Asm80.pass2_line line g = Raise IndexError.
Proof.
  intros line g Hs Hc.
  unfold Asm80.pass2_line, Asm80.resolve_address. cbv zeta.
  destruct (0 <? Py.find "?? ??" line) eqn:E.
  - apply Z.ltb_lt in E.
    destruct (find_prefix_first "??" " ??" line ltac:(cbn [append]; lia)) as [_ L].
    cbn [append] in L.
    rewrite no_words_in_comment by lia.
    reflexivity.
  - cbn [bind]. unfold Asm80.resolve_byte. cbv zeta.
    replace (0 <? Py.find "??" line) with true by (symmetry; apply Z.ltb_lt; lia).
    rewrite no_words_in_comment by lia.
    reflexivity.
Qed.

Lemma placeholder_in_comment_raises_witness :
  0 < Py.find "??" "       1  0000 00                 NOP             ; why??"
  /\ Asm80.pass2_line
       "       1  0000 00                 NOP             ; why??" Asm80.start
     = Raise IndexError.
Proof.
  split; [reflexivity|].
  apply placeholder_in_comment_raises; [reflexivity|].
  split; [reflexivity | vm_compute; discriminate].
Defined.

(** ** The parts of a source line *)

Lemma statement_char_inv c :
  statement_char c = true ->
  Ascii.eqb c ";" = false /\ Ascii.eqb c ":" = false
  /\ Ascii.eqb c Py.newline = false.
Proof.
  unfold statement_char. rewrite !andb_true_iff, !negb_true_iff. tauto.
Qed.

Lemma label_char_inv c :
  label_char c = true ->
  statement_char c = true /\ Ascii.eqb c Py.squote = false.
Proof.
  unfold label_char. rewrite !andb_true_iff, !negb_true_iff. tauto.
Qed.

Lemma statement_inv s :
  statement s = true ->
  s <> "" /\ all_chars statement_char s = true
  /\ Py.lstrip s = s /\ Py.rstrip s = s.
Proof.
  unfold statement. rewrite !andb_true_iff, negb_true_iff.
  intros [[[H1 H2] H3] H4].
  apply String.eqb_neq in H1. apply String.eqb_eq in H3, H4. tauto.
Qed.

Lemma label_name_inv lab :
  label_name lab = true ->
  lab <> "" /\ (String.length lab <= 6)%nat
  /\ all_chars label_char lab = true /\ Py.lstrip lab = lab.
Proof.
  unfold label_name. rewrite !andb_true_iff, negb_true_iff.
  intros [[[H1 H2] H3] H4].
  apply String.eqb_neq in H1. apply Nat.leb_le in H2.
  apply String.eqb_eq in H4. tauto.
Qed.

Lemma all_chars_weaken (f g : ascii -> bool) s :
  (forall c, f c = true -> g c = true) ->
  all_chars f s = true -> all_chars g s = true.
Proof.
  intros Hfg. induction s as [|c s IH]; [reflexivity|].
  cbn [all_chars]. rewrite !andb_true_iff. intros [Hc Hs].
  split; [now apply Hfg | now apply IH].
Qed.

Lemma lstrip_app s t : s <> "" -> Py.lstrip s = s -> Py.lstrip (s ++ t) = s ++ t.
Proof.
  destruct s as [|c r]; [congruence|]. intros _ H.
  cbn [append Py.lstrip] in *.
  destruct (Py.isspace c); [|reflexivity].
  exfalso.
  assert (L : forall u, (String.length (Py.lstrip u) <= String.length u)%nat).
  { induction u as [|a u IH]; [cbn; lia|].
    cbn [Py.lstrip]. destruct (Py.isspace a); cbn [String.length] in *; lia. }
  specialize (L r). rewrite H in L. cbn [String.length] in L. lia.
Qed.

Lemma rstrip_app s t : Py.rstrip t <> "" -> Py.rstrip (s ++ t) = s ++ Py.rstrip t.
Proof.
  intros Ht. induction s as [|a s IH]; [reflexivity|].
  cbn [append Py.rstrip]. rewrite IH.
  destruct (s ++ Py.rstrip t) eqn:E; [|reflexivity].
  destruct s; [cbn [append] in E; congruence | discriminate E].
Qed.

Lemma rstrip_blank_end s c :
  Py.isspace c = true -> Py.rstrip (s ++ String c "") = Py.rstrip s.
Proof.
  intros Hc. induction s as [|a s IH].
  - cbn [append Py.rstrip]. now rewrite Hc.
  - cbn [append Py.rstrip]. now rewrite IH.
Qed.

Lemma remove_char_absent a s :
  all_chars (fun c => negb (Ascii.eqb c a)) s = true ->
  Py.remove_char a s = s.
Proof.
  induction s as [|c s IH]; [reflexivity|].
  cbn [all_chars Py.remove_char]. rewrite andb_true_iff, negb_true_iff.
  intros [Hc Hs]. now rewrite Hc, (IH Hs).
Qed.

Lemma upto_app s t : Py.upto (String.length s) (s ++ t) = s.
Proof.
  induction s as [|c s IH]; [now destruct t|].
  cbn [String.length Py.upto append]. now rewrite IH.
Qed.

Lemma from_app s t : Py.from (String.length s) (s ++ t) = t.
Proof.
  induction s as [|c s IH]; [reflexivity|].
  cbn [String.length Py.from append]. exact IH.
Qed.

(** The first occurrence of a character behind a text that does not
    hold it. *)
Lemma find_char_behind (a : ascii) s t :
  all_chars (fun c => negb (Ascii.eqb c a)) s = true ->
  Py.find (String a "") (s ++ String a t) = Py.len s.
Proof.
  induction s as [|c s IH]; intros H.
  - cbn [append Py.find Py.starts_with]. now rewrite Ascii.eqb_refl.
  - cbn [all_chars] in H. apply andb_true_iff in H. destruct H as [Hc Hs].
    apply negb_true_iff in Hc.
    cbn [append]. rewrite find_skip.
    + rewrite (IH Hs). unfold Py.len. cbn [String.length].
      destruct (Z.ltb_spec (Z.of_nat (String.length s)) 0); lia.
    + cbn [Py.starts_with]. now rewrite Ascii.eqb_sym, Hc.
Qed.

Lemma find_char_absent (a : ascii) s :
  all_chars (fun c => negb (Ascii.eqb c a)) s = true ->
  Py.find (String a "") s = -1.
Proof.
  intros H. apply (find_char_none a (fun c => negb (Ascii.eqb c a))); [|exact H].
  intros c Hc. now apply negb_true_iff in Hc.
Qed.

Ltac chars_of H :=
  eapply all_chars_weaken; [|exact H];
  let c := fresh "c" in let Hc := fresh "Hc" in
  intros c Hc;
  try (apply label_char_inv in Hc; destruct Hc as [Hc ?]);
  apply statement_char_inv in Hc; destruct Hc as (? & ? & ?);
  apply negb_true_iff; assumption.

Lemma not_newline_app s t :
  all_chars (fun c => negb (Ascii.eqb c Py.newline)) s = true ->
  all_chars (fun c => negb (Ascii.eqb c Py.newline)) t = true ->
  Py.remove_char Py.newline (s ++ t) = s ++ t.
Proof.
  intros Hs Ht. apply remove_char_absent. now rewrite all_chars_app, Hs, Ht.
Qed.

(** The line without label: comment split off, the rest is the
    statement. *)
Lemma Pass1_statement body c p :
  statement body = true ->
  comment_text c = true ->
  Pass1 (body ++ " ;" ++ c) p
  = Pass1_mnemonic body (counted (";" ++ c) p)
  /\ Pass1 body p = Pass1_mnemonic body (counted "" p).
Proof.
  intros Hb Hc. apply statement_inv in Hb. destruct Hb as (B1 & B2 & B3 & B4).
  assert (Nn : all_chars (fun a => negb (Ascii.eqb a Py.newline)) body = true)
    by chars_of B2.
  assert (Ns : all_chars (fun a => negb (Ascii.eqb a ";")) body = true)
    by chars_of B2.
  assert (Nc : all_chars (fun a => negb (Ascii.eqb a ":")) body = true)
    by chars_of B2.
  assert (Hlen : (Py.len body =? 0) = false).
  { apply Z.eqb_neq. unfold Py.len. destruct body; [congruence | cbn; lia]. }
  assert (Hlab : forall q, Pass1_label body q = Pass1_mnemonic body q).
  { intros q. unfold Pass1_label. rewrite (find_char_absent ":" body Nc).
    reflexivity. }
  split.
  - unfold Pass1.
    rewrite (lstrip_app body _ B1 B3).
    rewrite not_newline_app; [|exact Nn|exact Hc].
    cbv zeta.
    replace (Py.len (body ++ " ;" ++ c) =? 0) with false.
    2: { symmetry. apply Z.eqb_neq. unfold Py.len. rewrite length_app.
         apply Z.eqb_neq in Hlen. unfold Py.len in Hlen. lia. }
    change (body ++ " ;" ++ c) with (body ++ String " " (String ";" c)).
    replace (body ++ String " " (String ";" c))
      with ((body ++ " ") ++ String ";" c)
      by (rewrite app_assoc_str; reflexivity).
    rewrite (find_char_behind ";" (body ++ " ") c)
      by (rewrite all_chars_app, Ns; reflexivity).
    unfold Py.len. rewrite Nat2Z.id.
    replace (0 <=? Z.of_nat (String.length (body ++ " "))) with true
      by (symmetry; apply Z.leb_le; lia).
    replace (Z.of_nat (String.length (body ++ " ")) =? 0) with false
      by (symmetry; apply Z.eqb_neq; rewrite length_app; cbn; lia).
    rewrite upto_app, from_app.
    rewrite (rstrip_blank_end body " " eq_refl), B4.
    rewrite Hlab. reflexivity.
  - unfold Pass1.
    rewrite B3, (remove_char_absent _ _ Nn).
    cbv zeta. rewrite Hlen.
    rewrite (find_char_absent ";" body Ns).
    change (0 <=? -1) with false. cbv iota.
    rewrite Hlab. reflexivity.
Qed.

Lemma find_char_not_before (a : ascii) s t :
  all_chars (fun c => negb (Ascii.eqb c a)) s = true ->
  Py.find (String a "") (s ++ t) = -1
  \/ Py.len s <= Py.find (String a "") (s ++ t).
Proof.
  induction s as [|c s IH]; intros H.
  - pose proof (find_lower (String a "") t). unfold Py.len.
    cbn [append String.length]. lia.
  - cbn [all_chars] in H. apply andb_true_iff in H. destruct H as [Hc Hs].
    apply negb_true_iff in Hc.
    cbn [append]. rewrite find_skip.
    + unfold Py.len in *. cbn [String.length].
      destruct (IH Hs) as [E | E].
      * rewrite E. left. reflexivity.
      * right. destruct (Z.ltb_spec (Py.find (String a "") (s ++ t)) 0); lia.
    + cbn [Py.starts_with]. now rewrite Ascii.eqb_sym, Hc.
Qed.

(** The label of a line: the text before the first colon. *)
Lemma Pass1_label_parts lab body q :
  label_name lab = true ->
  statement body = true ->
  Pass1_label (lab ++ ": " ++ body) q = Pass1_mnemonic body (labelled lab q).
Proof.
  intros Hl Hb.
  apply label_name_inv in Hl. destruct Hl as (L1 & L2 & L3 & L4).
  apply statement_inv in Hb. destruct Hb as (B1 & B2 & B3 & B4).
  assert (Nc : all_chars (fun a => negb (Ascii.eqb a ":")) lab = true)
    by chars_of L3.
  assert (Nq : all_chars (fun a => negb (Ascii.eqb a Py.squote)) lab = true).
  { eapply all_chars_weaken; [|exact L3].
    intros c Hc. apply label_char_inv in Hc. destruct Hc as [_ Hc].
    now apply negb_true_iff. }
  assert (Hlen : (1 <= String.length lab)%nat).
  { destruct lab; [congruence | cbn; lia]. }
  unfold Pass1_label.
  change (lab ++ ": " ++ body) with (lab ++ String ":" (String " " body)).
  rewrite (find_char_behind ":" lab _ Nc).
  cbv zeta.
  replace ((0 <? Py.len lab)
           && (0 <? Py.find "'" (lab ++ String ":" (String " " body)))
           && (Py.find "'" (lab ++ String ":" (String " " body)) <? Py.len lab))
    with false.
  2: { symmetry.
       destruct (find_char_not_before Py.squote lab
                   (String ":" (String " " body)) Nq) as [E | E].
       - change (String Py.squote "") with "'" in E. rewrite E.
         now rewrite andb_false_r.
       - change (String Py.squote "") with "'" in E.
         apply andb_false_iff. right. apply Z.ltb_ge. exact E. }
  unfold Py.len.
  replace (0 <? Z.of_nat (String.length lab)) with true
    by (symmetry; apply Z.ltb_lt; lia).
  replace (6 <? Z.of_nat (String.length lab)) with false
    by (symmetry; apply Z.ltb_ge; lia).
  cbv iota beta.
  rewrite Nat2Z.id, upto_app.
  replace (Z.to_nat (Z.of_nat (String.length lab) + 1))
    with (String.length (lab ++ ":")) by (rewrite length_app; cbn; lia).
  replace (lab ++ String ":" (String " " body)) with ((lab ++ ":") ++ " " ++ body)
    by (rewrite app_assoc_str; reflexivity).
  rewrite from_app.
  change (Py.lstrip (" " ++ body)) with (Py.lstrip body). rewrite B3.
  replace (Z.of_nat (String.length body) =? 0) with false.
  2: { symmetry. apply Z.eqb_neq. destruct body; [congruence | cbn; lia]. }
  reflexivity.
Qed.

Lemma Pass1_labelled lab body c p :
  label_name lab = true ->
  statement body = true ->
  comment_text c = true ->
  Pass1 (lab ++ ": " ++ body ++ " ;" ++ c) p
  = Pass1_mnemonic body (labelled lab (counted (";" ++ c) p))
  /\ Pass1 (lab ++ ": " ++ body) p
     = Pass1_mnemonic body (labelled lab (counted "" p)).
Proof.
  intros Hl Hb Hc.
  pose proof (Pass1_label_parts lab body) as HL.
  specialize (fun q => HL q Hl Hb).
  apply label_name_inv in Hl. destruct Hl as (L1 & L2 & L3 & L4).
  apply statement_inv in Hb. destruct Hb as (B1 & B2 & B3 & B4).
  assert (Ln : all_chars (fun a => negb (Ascii.eqb a Py.newline)) lab = true)
    by chars_of L3.
  assert (Ls : all_chars (fun a => negb (Ascii.eqb a ";")) lab = true)
    by chars_of L3.
  assert (Nn : all_chars (fun a => negb (Ascii.eqb a Py.newline)) body = true)
    by chars_of B2.
  assert (Ns : all_chars (fun a => negb (Ascii.eqb a ";")) body = true)
    by chars_of B2.
  set (code := lab ++ ": " ++ body).
  assert (Cn : all_chars (fun a => negb (Ascii.eqb a Py.newline)) code = true).
  { unfold code. rewrite !all_chars_app, Ln, Nn. reflexivity. }
  assert (Cs : all_chars (fun a => negb (Ascii.eqb a ";")) code = true).
  { unfold code. rewrite !all_chars_app, Ls, Ns. reflexivity. }
  assert (Cl : Py.lstrip code = code).
  { unfold code. now apply lstrip_app. }
  assert (Cr : Py.rstrip code = code).
  { assert (R1 : Py.rstrip (": " ++ body) = ": " ++ body).
    { rewrite (rstrip_app ": " body); rewrite B4; [reflexivity | exact B1]. }
    unfold code.
    rewrite (rstrip_app lab (": " ++ body)); rewrite R1;
      [reflexivity | discriminate]. }
  assert (C0 : (1 <= String.length code)%nat).
  { unfold code. rewrite length_app. destruct lab; [congruence | cbn; lia]. }
  split.
  - replace (lab ++ ": " ++ body ++ " ;" ++ c) with ((code ++ " ") ++ String ";" c)
      by (unfold code; rewrite !app_assoc_str; reflexivity).
    unfold Pass1.
    rewrite lstrip_app;
      [|destruct code; [cbn in C0; lia | discriminate]
       |apply lstrip_app; [destruct code; [cbn in C0; lia | discriminate]
                          |exact Cl]].
    rewrite not_newline_app;
      [|rewrite all_chars_app, Cn; reflexivity|exact Hc].
    cbv zeta.
    replace (Py.len ((code ++ " ") ++ String ";" c) =? 0) with false
      by (symmetry; apply Z.eqb_neq; unfold Py.len;
          rewrite !length_app; cbn; lia).
    rewrite (find_char_behind ";" (code ++ " ") c)
      by (rewrite all_chars_app, Cs; reflexivity).
    unfold Py.len. rewrite Nat2Z.id.
    replace (0 <=? Z.of_nat (String.length (code ++ " "))) with true
      by (symmetry; apply Z.leb_le; lia).
    replace (Z.of_nat (String.length (code ++ " ")) =? 0) with false
      by (symmetry; apply Z.eqb_neq; rewrite length_app; cbn; lia).
    rewrite upto_app, from_app.
    rewrite (rstrip_blank_end code " " eq_refl), Cr.
    unfold code. rewrite HL. reflexivity.
  - fold code. unfold Pass1.
    rewrite Cl, (remove_char_absent _ _ Cn).
    cbv zeta.
    replace (Py.len code =? 0) with false
      by (symmetry; apply Z.eqb_neq; unfold Py.len; lia).
    rewrite (find_char_absent ";" code Cs).
    change (0 <=? -1) with false. cbv iota.
    unfold code. rewrite HL. reflexivity.
Qed.

Lemma mnemonic_inv m :
  mnemonic m = true ->
  m <> "" /\ all_chars statement_char m = true
  /\ all_chars (fun c => negb (Py.isspace c)) m = true.
Proof.
  unfold mnemonic. rewrite !andb_true_iff, negb_true_iff.
  intros [[H1 H2] H3]. apply String.eqb_neq in H1. tauto.
Qed.

Lemma length_upper s : String.length (Py.upper s) = String.length s.
Proof.
  induction s as [|c s IH]; [reflexivity|].
  cbn [Py.upper String.length]. now rewrite IH.
Qed.

(** The first word of a text that starts with it. *)
Lemma split_ws_word m :
  forall cur rest,
    all_chars (fun c => negb (Py.isspace c)) m = true ->
    cur ++ m <> "" ->
    Py.split_ws_aux cur (m ++ String " " rest)
    = (cur ++ m) :: Py.split_ws_aux "" rest
    /\ Py.split_ws_aux cur m = [cur ++ m].
Proof.
  induction m as [|c m IH]; intros cur rest Hm Hne.
  - rewrite app_empty_r in *. cbn [append Py.split_ws_aux].
    change (Py.isspace " ") with true. cbv iota.
    destruct cur; [congruence|]. split; reflexivity.
  - cbn [all_chars] in Hm. apply andb_true_iff in Hm. destruct Hm as [Hc Hm].
    apply negb_true_iff in Hc.
    cbn [append Py.split_ws_aux]. rewrite Hc.
    destruct (IH (Py.snoc cur c) rest Hm) as [I1 I2].
    { unfold Py.snoc. rewrite app_assoc_str. exact Hne. }
    rewrite I1, I2. unfold Py.snoc. rewrite app_assoc_str.
    split; reflexivity.
Qed.

Lemma lstrip_word m :
  m <> "" ->
  all_chars (fun c => negb (Py.isspace c)) m = true ->
  Py.lstrip m = m.
Proof.
  destruct m as [|c m]; [congruence|]. intros _ H.
  cbn [all_chars] in H. apply andb_true_iff in H. destruct H as [Hc _].
  apply negb_true_iff in Hc. cbn [Py.lstrip]. now rewrite Hc.
Qed.

Lemma rstrip_word m :
  all_chars (fun c => negb (Py.isspace c)) m = true ->
  Py.rstrip m = m.
Proof.
  induction m as [|c m IH]; [reflexivity|].
  cbn [all_chars]. rewrite andb_true_iff, negb_true_iff. intros [Hc Hm].
  cbn [Py.rstrip]. rewrite (IH Hm), Hc. now destruct m.
Qed.

(** The statement: the mnemonic is its first word, in upper case, and
    the operands are what follows the blank behind it. *)
Lemma Pass1_mnemonic_parts m op q :
  mnemonic m = true ->
  (op = "" \/ statement op = true) ->
  Pass1_mnemonic (m ++ (if op == "" then "" else " " ++ op)) q
  = opcode_lookup (Py.upper m) op q.
Proof.
  intros Hm Hop.
  apply mnemonic_inv in Hm. destruct Hm as (M1 & M2 & M3).
  destruct (split_ws_word m "" op M3 M1) as [S1 S2].
  unfold Pass1_mnemonic, opcode_lookup.
  destruct Hop as [-> | Hop].
  - cbn [String.eqb]. rewrite app_empty_r.
    unfold Py.split_ws. rewrite S2. cbn [Py.item nth_error bind append].
    cbv zeta. cbn [mne set_mne].
    replace (Py.len (Py.upper m) + 1 <? Py.len m) with false.
    2: { symmetry. apply Z.ltb_ge. unfold Py.len. rewrite length_upper. lia. }
    reflexivity.
  - apply statement_inv in Hop. destruct Hop as (O1 & O2 & O3 & O4).
    replace (op == "") with false by (symmetry; now apply String.eqb_neq).
    change (m ++ " " ++ op) with (m ++ String " " op).
    unfold Py.split_ws. rewrite S1. cbn [Py.item nth_error bind append].
    cbv zeta. cbn [mne set_mne].
    replace (Py.len (Py.upper m) + 1 <? Py.len (m ++ String " " op)) with true.
    2: { symmetry. apply Z.ltb_lt. unfold Py.len.
         rewrite length_upper, length_app. cbn [String.length].
         destruct op; [congruence | cbn [String.length]; lia]. }
    rewrite length_upper.
    replace (String.length m + 1)%nat with (String.length (m ++ " "))
      by (rewrite length_app; reflexivity).
    replace (m ++ String " " op) with ((m ++ " ") ++ op)
      by (rewrite app_assoc_str; reflexivity).
    rewrite from_app, O3, O4.
    reflexivity.
Qed.

Lemma statement_of_parts m op :
  mnemonic m = true ->
  (op = "" \/ statement op = true) ->
  statement (m ++ (if op == "" then "" else " " ++ op)) = true.
Proof.
  intros Hm Hop.
  apply mnemonic_inv in Hm. destruct Hm as (M1 & M2 & M3).
  unfold statement.
  destruct Hop as [-> | Hop].
  - cbn [String.eqb]. rewrite app_empty_r.
    rewrite M2, (lstrip_word m M1 M3), (rstrip_word m M3), !String.eqb_refl.
    replace (m == "") with false by (symmetry; now apply String.eqb_neq).
    reflexivity.
  - apply statement_inv in Hop. destruct Hop as (O1 & O2 & O3 & O4).
    replace (op == "") with false by (symmetry; now apply String.eqb_neq).
    rewrite !all_chars_app, M2, O2.
    rewrite (lstrip_app m _ M1 (lstrip_word m M1 M3)).
    assert (R1 : Py.rstrip (" " ++ op) = " " ++ op).
    { rewrite (rstrip_app " " op); rewrite O4; [reflexivity | exact O1]. }
    rewrite (rstrip_app m (" " ++ op)); rewrite R1; [|discriminate].
    rewrite !String.eqb_refl.
    replace (m ++ " " ++ op == "") with false.
    2: { symmetry. apply String.eqb_neq. destruct m; [congruence | discriminate]. }
    reflexivity.
Qed.

Lemma line_anatomy_core :
  forall (lab m op cmt : string) (p : Parse.t),
    (lab = "" \/ label_name lab = true) ->
    mnemonic m = true ->
    (op = "" \/ statement op = true) ->
    (cmt = "" \/ exists c, cmt = String ";" c /\ comment_text c = true) ->
    Pass1 (source_line lab m op cmt) p
    = opcode_lookup (Py.upper m) op
        (if lab == "" then counted cmt p else labelled lab (counted cmt p)).
Proof.
  intros lab m op cmt p Hlab Hm Hop Hcmt.
  pose proof (statement_of_parts m op Hm Hop) as Hb.
  rewrite <- (Pass1_mnemonic_parts m op _ Hm Hop).
  unfold source_line.
  rewrite <- (app_assoc_str m).
  revert Hb. generalize (m ++ (if op == "" then "" else " " ++ op)).
  intros body Hb.
  destruct Hlab as [-> | Hlab]; destruct Hcmt as [-> | (c & -> & Hc)].
  - cbn [String.eqb append]. rewrite app_empty_r.
    exact (proj2 (Pass1_statement body "" p Hb eq_refl)).
  - cbn [String.eqb append].
    exact (proj1 (Pass1_statement body c p Hb Hc)).
  - replace (lab == "") with false.
    2: { symmetry. apply String.eqb_neq.
         apply label_name_inv in Hlab. tauto. }
    cbn [String.eqb]. rewrite app_empty_r, app_assoc_str.
    exact (proj2 (Pass1_labelled lab body "" p Hlab Hb eq_refl)).
  - replace (lab == "") with false.
    2: { symmetry. apply String.eqb_neq.
         apply label_name_inv in Hlab. tauto. }
    cbn [String.eqb]. rewrite !app_assoc_str.
    exact (proj1 (Pass1_labelled lab body c p Hlab Hb Hc)).
Qed.

(** X17. A line made of a label of at most six characters with its
    colon, a mnemonic, operands and a comment, each of them optional
    but the mnemonic, is taken apart into just these: the line is
    counted, the comment kept from its semicolon on, the label entered
    in the symbol table with the program counter after the duplicate
    check, the mnemonic looked up in upper case, and the operands
    handed to the operand check as they stand. *)
Theorem line_anatomy :
  forall (lab m op cmt : string) (p : Parse.t),
    (lab = "" \/ label_name lab = true) ->
    mnemonic m = true ->
    (op = "" \/ statement op = true) ->
    (cmt = "" \/ exists c, cmt = String ";" c /\ comment_text c = true) ->
    Pass1 (source_line lab m op cmt) p
    = opcode_lookup (Py.upper m) op
        (if lab == "" then counted cmt p else labelled lab (counted cmt p)).
Proof.
  exact line_anatomy_core.
Qed.

Lemma line_anatomy_witness :
  Pass1 (source_line "LOOP" "mvi" "A, 'x'" "; next") Parse.init
  = opcode_lookup (Py.upper "mvi") "A, 'x'"
      (if "LOOP" == "" then counted "; next" Parse.init
       else labelled "LOOP" (counted "; next" Parse.init)).
Proof.
  apply line_anatomy.
  - right. reflexivity.
  - reflexivity.
  - right. reflexivity.
  - right. exists " next". split; reflexivity.
Defined.

(** ** The length of an instruction *)

Lemma Pass1_operand_length op_type line p p' :
  Pass1_operand op_type line p = Ok p' ->
  bytes p = 0 ->
  bytes p' = length_of (mne p) op_type /\ mne p' = mne p.
Proof.
  intros H Hb.
  pose proof (Pass1_operand_steady _ _ _ _ H) as (_ & _ & _ & Hm & _).
  split; [|exact Hm]. clear Hm.
  unfold Pass1_operand, add_to_b1, bind in H. unfold length_of.
  crack;
    repeat match goal with
           | H : pop_symbol _ = Ok _ |- _ => apply pop_symbol_ok in H; subst
           end;
    repeat match goal with
           | E : ?b = true |- context [if ?b then _ else _] => rewrite E
           | E : ?b = false |- context [if ?b then _ else _] => rewrite E
           end;
    cbn [orb];
    repeat match goal with
           | E : ?b = true |- context [if ?b then _ else _] => rewrite E
           | E : ?b = false |- context [if ?b then _ else _] => rewrite E
           end;
    all_fields;
    repeat match goal with
           | |- context [fold_left db_operand ?l ?p] =>
               let H1 := fresh in let H2 := fresh in let H3 := fresh in
               let H4 := fresh in let H5 := fresh in
               destruct (db_fold_more l p) as (H1 & H2 & H3 & H4 & H5);
               cbv zeta in H1, H2, H3, H4, H5;
               rewrite ?H1, ?H2, ?H3, ?H4, ?H5; clear H1 H2 H3 H4 H5
           end;
    try reflexivity; try assumption; try discriminate.
Qed.

Lemma Pass1_mnemonic_length line q p' :
  Pass1_mnemonic line q = Ok p' ->
  bytes q = 0 ->
  bytes p' = instruction_length (mne p').
Proof.
  intros H Hb. unfold Pass1_mnemonic, bind in H. cbv zeta in H.
  destruct (Py.item 0 (Py.split_ws line)) as [m|]; [|discriminate H].
  revert H. all_fields.
  set (mn := Py.upper m). intros H.
  unfold instruction_length.
  destruct (Instruction808x.opCode mn == "Error") eqn:E.
  - inversion H; subst; clear H. all_fields. fold mn. rewrite E. exact Hb.
  - destruct (Py.index 2 (Instruction808x.opCode mn)) as [t|] eqn:Et;
      [|discriminate H].
    apply Pass1_operand_length in H; [|exact Hb].
    revert H. all_fields. intros [H1 H2].
    rewrite H2, E, Et. exact H1.
Qed.

Lemma Pass1_label_length line q p' :
  Pass1_label line q = Ok p' ->
  bytes q = 0 -> mne q = "" ->
  bytes p' = instruction_length (mne p').
Proof.
  intros H Hb Hm. unfold Pass1_label in H. cbv zeta in H.
  match type of H with
  | (if ?b then _ else _) = _ => destruct b
  end; [|exact (Pass1_mnemonic_length _ _ _ H Hb)].
  match type of H with
  | (let '(line, pos) := (if ?b then _ else _) in _) = _ => destruct b
  end; cbv beta iota in H;
    unfold check_duplicate in H;
    match type of H with
    | context [fold_left ?f (symbols ?q0) ?q0] =>
        pose proof (check_duplicate_effect_fold (symbols q0) q0) as D;
        cbv zeta in D; revert D H;
        generalize (fold_left f (symbols q0) q0)
    end;
    all_fields; intros d (_ & _ & _ & _ & _ & D6 & D7 & _) H;
    (destruct (Py.len _ =? 0);
     [inversion H; subst; clear H; all_fields;
      rewrite D6, D7, Hb, Hm; reflexivity
     |apply Pass1_mnemonic_length in H; [exact H|];
      all_fields; rewrite D6; exact Hb]).
Qed.

(** X18. The length of an instruction is a function of its mnemonic
    alone: whatever the operands are and whatever error they cause,
    [Pass1] leaves the length that the operand type of the dictionary
    entry gives, and 0 for a line without a known mnemonic.  When the
    line has an opcode byte and no data list, the main loop moves the
    program counter by just that length. *)
Theorem length_by_mnemonic :
  forall (line : string) (p p' : Parse.t),
    Pass1 line p = Ok p' ->
    bytes p' = instruction_length (mne p')
    /\ (long p' = "" -> b1 p' <> "" ->
        Asm80.write_rows p'
        = (set_pc (pc p' + instruction_length (mne p')) p',
           Asm80.hex4 (pc p'),
           [Asm80.list_line p' (Asm80.hex4 (pc p')) (b1 p') (b2 p') (b3 p')])).
Proof.
  intros line p p' H.
  assert (B : bytes p' = instruction_length (mne p')).
  { unfold Pass1 in H. cbv zeta in H.
    destruct (Py.len _ =? 0); [inversion H; reflexivity|].
    destruct (0 <=? _).
    - destruct (_ =? 0); [inversion H; reflexivity|].
      now apply Pass1_label_length in H.
    - now apply Pass1_label_length in H. }
  split; [exact B|].
  intros Hl Hb. unfold Asm80.write_rows. rewrite Hl.
  cbn [String.eqb].
  replace (Py.len (b1 p') =? 0) with false.
  2: { symmetry. apply Z.eqb_neq. unfold Py.len.
       destruct (b1 p'); [congruence | cbn; lia]. }
  cbn [negb]. rewrite B. reflexivity.
Qed.

Lemma length_by_mnemonic_witness :
  exists p',
    Pass1 "X: LXI H, NOWHERE ; forward" Parse.init = Ok p'
    /\ bytes p' = instruction_length (mne p')
    /\ (long p' = "" -> b1 p' <> "" ->
        Asm80.write_rows p'
        = (set_pc (pc p' + instruction_length (mne p')) p',
           Asm80.hex4 (pc p'),
           [Asm80.list_line p' (Asm80.hex4 (pc p')) (b1 p') (b2 p') (b3 p')])).
Proof.
  eexists. split; [vm_compute; reflexivity|].
  apply (length_by_mnemonic "X: LXI H, NOWHERE ; forward" Parse.init).
  vm_compute; reflexivity.
Defined.

(** ** The value of a numeric literal *)

Lemma digit_in_16 base c :
  base <= 16 -> digit_in base c = true -> hexdig c = true.
Proof.
  unfold digit_in, hexdig. intros Hb.
  destruct (Py.digit_value c) as [d|]; [|discriminate].
  intros H. apply Z.ltb_lt in H. apply Z.ltb_lt. lia.
Qed.

Lemma digit_in_value base c :
  base <= 16 -> digit_in base c = true ->
  exists d, Py.digit_value c = Some d /\ 0 <= d < base /\ digit_of c = d.
Proof.
  intros Hb H.
  destruct (hexdig_value c (digit_in_16 base c Hb H)) as (d & E & B & D).
  exists d. split; [exact E|]. split; [|exact D].
  unfold digit_in in H. rewrite E in H. apply Z.ltb_lt in H. lia.
Qed.

Lemma scan_numeral base s :
  base <= 16 ->
  forall acc n,
    all_chars (digit_in base) s = true ->
    Py.scan_digits base s false acc n
    = Some (numeral base acc s, (n + String.length s)%nat, "").
Proof.
  intros Hb.
  induction s as [|c r IH]; intros acc n H;
    cbn [Py.scan_digits numeral String.length].
  - now rewrite Nat.add_0_r.
  - cbn [all_chars] in H. apply andb_true_iff in H as [Hc Hr].
    destruct (hexdig_plain c (digit_in_16 base c Hb Hc)) as (_ & Hus & _).
    destruct (digit_in_value base c Hb Hc) as (d & Hd & Hrange & Hdig).
    rewrite Hus, Hd, Hdig.
    replace (d <? base) with true by (symmetry; apply Z.ltb_lt; lia).
    rewrite (IH _ _ Hr). f_equal. f_equal. f_equal. lia.
Qed.

(** The letter of a base prefix is no digit of that base. *)
Lemma no_base_prefix base p :
  In base [16; 8; 2; 10] ->
  digit_in base p = true ->
  ((base =? 16) && Ascii.eqb (Py.upper_char p) "X")
  || ((base =? 8) && Ascii.eqb (Py.upper_char p) "O")
  || ((base =? 2) && Ascii.eqb (Py.upper_char p) "B") = false.
Proof.
  intros Hb. cbn [In] in Hb.
  destruct Hb as [<- | [<- | [<- | [<- | []]]]];
    destruct p as [[] [] [] [] [] [] [] []];
    vm_compute; intros H; first [discriminate H | reflexivity].
Qed.

(** [int(s, base)] on a non-empty string of digits of the base is its
    value. *)
Lemma int_numeral base s :
  In base [16; 8; 2; 10] ->
  all_chars (digit_in base) s = true ->
  s <> "" ->
  Py.int base s = Ok (numeral base 0 s).
Proof.
  intros Hb H Hne.
  assert (Hb16 : base <= 16).
  { cbn [In] in Hb. destruct Hb as [<- | [<- | [<- | [<- | []]]]]; lia. }
  destruct s as [|c r]; [congruence|].
  pose proof H as Hall.
  cbn [all_chars] in H. apply andb_true_iff in H as [Hc Hr].
  destruct (hexdig_plain c (digit_in_16 base c Hb16 Hc))
    as (Hsp & Hus & Hplus & Hminus & _).
  unfold Py.int.
  cbn [Py.skip_c_space]. rewrite Hsp.
  assert (Hsign :
    match String c r with
    | String "+" r0 => (1, r0)
    | String "-" r0 => (-1, r0)
    | _ => (1, String c r)
    end = (1, String c r)).
  { clear - Hplus Hminus.
    destruct c as [[] [] [] [] [] [] [] []]; try reflexivity; discriminate. }
  rewrite Hsign.
  assert (Hpre : Py.skip_base_prefix base (String c r) = String c r).
  { clear - Hr Hb.
    unfold Py.skip_base_prefix.
    destruct c as [[] [] [] [] [] [] [] []]; try reflexivity.
    destruct r as [|p r']; [reflexivity|].
    cbn [all_chars] in Hr. apply andb_true_iff in Hr as [Hp _].
    cbv zeta. rewrite (no_base_prefix base p Hb Hp). reflexivity. }
  rewrite Hpre.
  assert (Hlead :
    forall (A : Type) (x y : A),
      match String c r with
      | String "_" _ => x
      | _ => y
      end = y).
  { clear - Hus. intros A x y.
    destruct c as [[] [] [] [] [] [] [] []]; try reflexivity; discriminate. }
  rewrite Hlead.
  rewrite (scan_numeral base _ Hb16 0 0%nat Hall).
  cbn [Nat.add String.length Py.skip_c_space].
  now rewrite Z.mul_1_l.
Qed.

Lemma numeral_lower base s :
  base <= 16 -> 0 <= base ->
  all_chars (digit_in base) s = true ->
  forall acc, 0 <= acc -> 0 <= numeral base acc s.
Proof.
  intros Hb H0. induction s as [|c r IH]; intros H acc Hacc; [exact Hacc|].
  cbn [all_chars] in H. apply andb_true_iff in H as [Hc Hr].
  destruct (digit_in_value base c Hb Hc) as (d & _ & Hd & Hdig).
  cbn [numeral]. apply IH; [exact Hr|]. nia.
Qed.

Lemma upper_app s t : Py.upper (s ++ t) = Py.upper s ++ Py.upper t.
Proof.
  induction s as [|c s IH]; [reflexivity|].
  cbn [append Py.upper]. now rewrite IH.
Qed.

(** The digits of a base do not hold the radix letters that are tried
    before its own. *)
Lemma no_radix_letter base (a : ascii) s :
  (forall c, digit_in base c = true -> Ascii.eqb (Py.upper_char c) a = false) ->
  all_chars (digit_in base) s = true ->
  all_chars (fun c => negb (Ascii.eqb c a)) (Py.upper s) = true.
Proof.
  intros Hf. induction s as [|c s IH]; [reflexivity|].
  cbn [all_chars Py.upper]. rewrite andb_true_iff. intros [Hc Hs].
  now rewrite (Hf c Hc), (IH Hs).
Qed.

Lemma digit_not_letter base (a : ascii) c :
  In (base, a) [(16, "H"%char); (16, "Q"%char); (8, "H"%char);
                (8, "Q"%char); (2, "H"%char); (2, "Q"%char); (2, "B"%char);
                (10, "H"%char); (10, "Q"%char); (10, "B"%char)] ->
  digit_in base c = true -> Ascii.eqb (Py.upper_char c) a = false.
Proof.
  intros Hin. cbn [In] in Hin.
  repeat match goal with
         | H : _ \/ _ |- _ => destruct H as [H | H]
         | H : (_, _) = (_, _) |- _ => inversion H; subst; clear H
         | H : False |- _ => contradiction H
         end;
    destruct c as [[] [] [] [] [] [] [] []];
    vm_compute; intros H; first [discriminate H | reflexivity].
Qed.

(** The radix test on a literal with its letter, and on one without. *)
Lemma radix_at_found (a : ascii) s :
  starts_with_digit s = true ->
  all_chars (fun c => negb (Ascii.eqb c a)) (Py.upper s) = true ->
  Py.upper_char a = a ->
  forall rest,
    radix_at (String a "") (s ++ String a rest)
    = Ok (Some (String.length s)).
Proof.
  intros Hd Hs Ha rest. unfold radix_at. cbv zeta.
  rewrite upper_app. cbn [Py.upper]. rewrite Ha.
  rewrite (find_char_behind a (Py.upper s) _ Hs).
  unfold Py.len. rewrite length_upper.
  destruct s as [|c r]; [discriminate Hd|].
  cbn [starts_with_digit] in Hd.
  cbn [String.length append Py.index String.get bind].
  replace (0 <? Z.of_nat (S (String.length r))) with true
    by (symmetry; apply Z.ltb_lt; lia).
  rewrite Hd. rewrite Nat2Z.id. reflexivity.
Qed.

Lemma radix_at_absent (a : ascii) s :
  all_chars (fun c => negb (Ascii.eqb c a)) (Py.upper s) = true ->
  radix_at (String a "") s = Ok None.
Proof.
  intros Hs. unfold radix_at. cbv zeta.
  rewrite (find_char_absent a _ Hs). reflexivity.
Qed.

Lemma not_a_character s :
  starts_with_digit s = true ->
  (Py.find "'" s =? 0) = false.
Proof.
  destruct s as [|c r]; [discriminate|]. cbn [starts_with_digit]. intros Hd.
  assert (Hq : Py.starts_with "'" (String c r) = false).
  { cbn [Py.starts_with].
    destruct (Ascii.eqb_spec "'" c) as [<- | _]; [discriminate Hd | reflexivity]. }
  destruct (find_skip_cases "'" c r Hq) as [[E _] | [E E']]; rewrite E;
    [reflexivity | apply Z.eqb_neq; lia].
Qed.

Lemma not_a_label s :
  starts_with_digit s = true ->
  forall t, (Py.len (s ++ t) =? 0) = false
            /\ exists c, Py.index 0 (s ++ t) = Ok c /\ Py.isalpha c = false.
Proof.
  destruct s as [|c r]; [discriminate|]. cbn [starts_with_digit]. intros Hd t.
  split.
  - apply Z.eqb_neq. unfold Py.len. cbn [append String.length]. lia.
  - exists c. split; [reflexivity|].
    revert Hd. destruct c as [[] [] [] [] [] [] [] []];
      vm_compute; intros H; first [discriminate H | reflexivity].
Qed.

Lemma starts_with_digit_app s t :
  starts_with_digit s = true -> starts_with_digit (s ++ t) = true.
Proof. destruct s; [discriminate | intros H; exact H]. Qed.

Lemma no_letter_app (a b : ascii) s :
  all_chars (fun c => negb (Ascii.eqb c a)) (Py.upper s) = true ->
  Ascii.eqb (Py.upper_char b) a = false ->
  all_chars (fun c => negb (Ascii.eqb c a)) (Py.upper (s ++ String b "")) = true.
Proof.
  intros Hs Hb. rewrite upper_app, all_chars_app, Hs.
  cbn [Py.upper all_chars]. now rewrite Hb.
Qed.

(** Both operand parsers on a literal: the value of its digits in the
    base of its radix letter, range-checked. *)
Lemma literal_parsed s suffix base :
  In (suffix, base) radixes ->
  starts_with_digit s = true ->
  all_chars (digit_in base) s = true ->
  Op_byte_try (s ++ suffix) = Ok (in_range 255 2 (numeral base 0 s))
  /\ Op_addr_try (s ++ suffix) = Ok (in_range 65535 4 (numeral base 0 s)).
Proof.
  intros Hin Hd Hs.
  assert (Hne : s <> "") by (destruct s; [discriminate Hd | discriminate]).
  assert (Hq : (Py.find "'" (s ++ suffix) =? 0) = false)
    by (apply not_a_character, starts_with_digit_app, Hd).
  assert (N : forall a, In (base, a)
                [(16, "H"%char); (16, "Q"%char); (8, "H"%char);
                 (8, "Q"%char); (2, "H"%char); (2, "Q"%char); (2, "B"%char);
                 (10, "H"%char); (10, "Q"%char); (10, "B"%char)] ->
              all_chars (fun c => negb (Ascii.eqb c a)) (Py.upper s) = true).
  { intros a Ha. apply (no_radix_letter base); [|exact Hs].
    intros c. now apply digit_not_letter. }
  unfold Op_byte_try, Op_addr_try. rewrite Hq. cbn [andb].
  unfold radixes in Hin. cbn [In] in Hin.
  destruct Hin as [Hin | [Hin | [Hin | [Hin | []]]]];
    inversion Hin; subst; clear Hin.
  - (* hexadecimal *)
    rewrite (radix_at_found "H" s Hd) by (try apply N; cbn [In]; tauto).
    cbn [bind]. rewrite upto_app.
    rewrite (int_numeral 16 s) by (cbn [In]; tauto).
    split; reflexivity.
  - (* octal *)
    rewrite (radix_at_absent "H")
      by (apply no_letter_app; [apply N; cbn [In]; tauto | reflexivity]).
    cbn [bind].
    rewrite (radix_at_found "Q" s Hd) by (try apply N; cbn [In]; tauto).
    cbn [bind]. rewrite upto_app.
    rewrite (int_numeral 8 s) by (cbn [In]; tauto).
    split; reflexivity.
  - (* binary *)
    rewrite (radix_at_absent "H")
      by (apply no_letter_app; [apply N; cbn [In]; tauto | reflexivity]).
    cbn [bind].
    rewrite (radix_at_absent "Q")
      by (apply no_letter_app; [apply N; cbn [In]; tauto | reflexivity]).
    cbn [bind].
    rewrite (radix_at_found "B" s Hd) by (try apply N; cbn [In]; tauto).
    cbn [bind]. rewrite upto_app.
    rewrite (int_numeral 2 s) by (cbn [In]; tauto).
    split; reflexivity.
  - (* decimal *)
    rewrite app_empty_r.
    rewrite (radix_at_absent "H") by (apply N; cbn [In]; tauto).
    cbn [bind].
    rewrite (radix_at_absent "Q") by (apply N; cbn [In]; tauto).
    cbn [bind].
    rewrite (radix_at_absent "B") by (apply N; cbn [In]; tauto).
    cbn [bind].
    rewrite (int_numeral 10 s) by (cbn [In]; tauto).
    split; reflexivity.
Qed.

Lemma literal_values_core :
  forall (s suffix : string) (base : Z),
    In (suffix, base) radixes ->
    starts_with_digit s = true ->
    all_chars (digit_in base) s = true ->
    let v := numeral base 0 s in
    0 <= v
    /\ Op_byte (s ++ suffix) = (if v <=? 255 then hex2 v else "Error")
    /\ Op_addr (s ++ suffix) = Ok (if v <=? 65535 then hex4 v else "Error")
    /\ Py.int 16 (hex2 v) = Ok v /\ Py.int 16 (hex4 v) = Ok v.
Proof.
  intros s suffix base Hin Hd Hs v.
  destruct (literal_parsed s suffix base Hin Hd Hs) as [P1 P2].
  assert (Hv : 0 <= v).
  { unfold radixes in Hin. cbn [In] in Hin.
    destruct Hin as [Hin | [Hin | [Hin | [Hin | []]]]];
      inversion Hin; subst; clear Hin;
      apply numeral_lower; try assumption; lia. }
  split; [exact Hv|].
  split.
  { unfold Op_byte. rewrite P1. fold v. unfold in_range, hex2.
    replace (v <? 0) with false by (symmetry; apply Z.ltb_ge; lia).
    cbn [orb].
    destruct (Z.leb_spec v 255); destruct (Z.ltb_spec 255 v);
      try lia; reflexivity. }
  split.
  { destruct (not_a_label s Hd suffix) as (L1 & c & L2 & L3).
    unfold Op_addr. rewrite L1, L2. cbn [bind]. rewrite L3, P2.
    fold v. unfold in_range, hex4.
    replace (v <? 0) with false by (symmetry; apply Z.ltb_ge; lia).
    cbn [orb].
    destruct (Z.leb_spec v 65535); destruct (Z.ltb_spec 65535 v);
      try lia; reflexivity. }
  split; apply hex_round_trip; exact Hv.
Qed.

(** X19. A numeric literal is a string of digits that starts with a
    decimal digit, followed by its radix letter: [H] for base 16, [Q]
    for 8, [B] for 2, none for 10.  Both operand parsers read it as the
    value of its digits in that base: the byte parser gives the two hex
    digits of a value up to 255, the address parser the four hex digits
    of a value up to 65535, and each gives ['Error'] for a larger one.
    What they give reads back as the value. *)
Theorem literal_values :
  forall (s suffix : string) (base : Z),
    In (suffix, base) radixes ->
    starts_with_digit s = true ->
    all_chars (digit_in base) s = true ->
    let v := numeral base 0 s in
    0 <= v
    /\ Op_byte (s ++ suffix) = (if v <=? 255 then hex2 v else "Error")
    /\ Op_addr (s ++ suffix) = Ok (if v <=? 65535 then hex4 v else "Error")
    /\ Py.int 16 (hex2 v) = Ok v /\ Py.int 16 (hex4 v) = Ok v.
Proof.
  exact literal_values_core.
Qed.

Lemma literal_values_witness :
  starts_with_digit "0B1" = true
  /\ all_chars (digit_in 16) "0B1" = true
  /\ 0 <= numeral 16 0 "0B1"
  /\ Op_byte ("0B1" ++ "H")
     = (if numeral 16 0 "0B1" <=? 255 then hex2 (numeral 16 0 "0B1")
        else "Error")
  /\ Op_addr ("0B1" ++ "H")
     = Ok (if numeral 16 0 "0B1" <=? 65535 then hex4 (numeral 16 0 "0B1")
           else "Error")
  /\ Py.int 16 (hex2 (numeral 16 0 "0B1")) = Ok (numeral 16 0 "0B1")
  /\ Py.int 16 (hex4 (numeral 16 0 "0B1")) = Ok (numeral 16 0 "0B1").
Proof.
  split; [reflexivity|]. split; [reflexivity|].
  apply (literal_values "0B1" "H" 16); [cbn; tauto | reflexivity | reflexivity].
Defined.

(** ** Immediate operands *)

Lemma split_on_last (sep : ascii) s :
  forall k cur,
    all_chars (fun c => negb (Ascii.eqb c sep)) s = true ->
    Py.split_on_aux sep k cur s = [cur ++ s].
Proof.
  induction s as [|c s IH]; intros k cur H.
  - cbn [Py.split_on_aux]. now rewrite app_empty_r.
  - cbn [all_chars] in H. apply andb_true_iff in H as [Hc Hs].
    apply negb_true_iff in Hc.
    cbn [Py.split_on_aux]. rewrite Hc, (IH _ _ Hs).
    unfold Py.snoc. now rewrite app_assoc_str.
Qed.

(** An operand list of two: the register and the data behind the
    comma. *)
Lemma split_on_two r op :
  no_comma r = true -> no_comma op = true ->
  Py.split_on "," None (r ++ "," ++ op) = [r; op].
Proof.
  unfold no_comma, Py.split_on. intros Hr Ho.
  assert (G : forall cur,
             Py.split_on_aux "," None cur (r ++ "," ++ op) = [cur ++ r; op]).
  { induction r as [|c r IH]; intros cur.
    - cbn [append Py.split_on_aux]. change (Ascii.eqb "," ",") with true.
      cbv iota. rewrite (split_on_last "," op None "" Ho), app_empty_r.
      reflexivity.
    - cbn [all_chars] in Hr. apply andb_true_iff in Hr as [Hc Hr].
      apply negb_true_iff in Hc.
      cbn [append Py.split_on_aux]. rewrite Hc, (IH Hr).
      unfold Py.snoc. now rewrite app_assoc_str. }
  exact (G "").
Qed.

Lemma statement_after_comma w op :
  mnemonic w = true -> statement op = true ->
  statement (w ++ "," ++ op) = true.
Proof.
  intros Hw Hop.
  apply mnemonic_inv in Hw. destruct Hw as (M1 & M2 & M3).
  apply statement_inv in Hop. destruct Hop as (O1 & O2 & O3 & O4).
  unfold statement.
  rewrite !all_chars_app, M2, O2.
  rewrite (lstrip_app w _ M1 (lstrip_word w M1 M3)).
  assert (R1 : Py.rstrip ("," ++ op) = "," ++ op).
  { rewrite (rstrip_app "," op); rewrite O4; [reflexivity | exact O1]. }
  rewrite (rstrip_app w ("," ++ op)); rewrite R1; [|discriminate].
  rewrite !String.eqb_refl.
  replace (w ++ "," ++ op == "") with false.
  2: { symmetry. apply String.eqb_neq. destruct w; [congruence | discriminate]. }
  reflexivity.
Qed.

(** A line of mnemonic and operands alone. *)
Lemma Pass1_plain_line m op p :
  mnemonic m = true ->
  statement op = true ->
  Pass1 (m ++ " " ++ op) p = opcode_lookup (Py.upper m) op (counted "" p).
Proof.
  intros Hm Hop.
  pose proof (line_anatomy_core "" m op "" p (or_introl eq_refl) Hm
                (or_intror Hop) (or_introl eq_refl)) as L.
  unfold source_line in L. cbn [String.eqb append] in L.
  apply statement_inv in Hop. destruct Hop as (O1 & _).
  replace (op == "") with false in L by (symmetry; now apply String.eqb_neq).
  rewrite app_empty_r in L. exact L.
Qed.

(** The look-up of a mnemonic that the dictionary holds. *)
Lemma opcode_lookup_known m c1 c2 t op q :
  Instruction808x.opCode m = String c1 (String c2 (String t "")) ->
  String c1 (String c2 (String t "")) <> "Error" ->
  opcode_lookup m op q
  = Pass1_operand t op (set_b1 (String c1 (String c2 "")) (set_mne m q)).
Proof.
  intros E Hne. unfold opcode_lookup. cbv zeta. rewrite E.
  replace (String c1 (String c2 (String t "")) == "Error") with false
    by (symmetry; now apply String.eqb_neq).
  reflexivity.
Qed.

Lemma Pass1_operand_b line p :
  Pass1_operand "b" line p
  = if mne p == "DB" then
      Ok (set_bytes 1 (set_oper line (fold_left db_operand (db_split line) p)))
    else
      Ok (set_oper line
            (set_bytes 2
               (if Op_byte line == "Error" then set_b2 "??" p
                else set_b2 (Op_byte line) p))).
Proof. reflexivity. Qed.

Lemma Pass1_operand_v r op p :
  no_comma r = true -> no_comma op = true ->
  Pass1_operand "v" (r ++ "," ++ op) p
  = (p <- (if Op_reg r =? -1 then Ok (set_b2 "00" (error "*R*" p))
           else
             p <- add_to_b1 (8 * Op_reg r) p ;;
             Ok (if Op_byte (Py.lstrip op) == "Error" then set_b2 "??" p
                 else set_b2 (Op_byte (Py.lstrip op)) p)) ;;
     Ok (set_bytes 2 (set_oper (r ++ "," ++ op) p))).
Proof.
  intros Hr Ho. unfold Pass1_operand.
  change (Ascii.eqb "v" "-") with false. change (Ascii.eqb "v" "b") with false.
  change (Ascii.eqb "v" "r") with false. change (Ascii.eqb "v" "a") with false.
  change (Ascii.eqb "v" "p") with false. change (Ascii.eqb "v" "d") with false.
  change (Ascii.eqb "v" "w") with false. change (Ascii.eqb "v" "m") with false.
  change (Ascii.eqb "v" "v") with true.
  cbv iota zeta. rewrite (split_on_two r op Hr Ho).
  reflexivity.
Qed.

Lemma Pass1_operand_w r op p :
  no_comma r = true -> no_comma op = true ->
  Pass1_operand "w" (r ++ "," ++ op) p
  = (p <- (if Op_regpr r =? -1
           then Ok (set_b3 "00" (set_b2 "00" (error "*R*" p)))
           else add_to_b1 (16 * Op_regpr r) p) ;;
     a <- Op_addr (Py.lstrip op) ;;
     Ok (set_bytes 3
           (set_oper (r ++ "," ++ op)
              (if a == "Error" then set_b3 "00" (set_b2 "00" (error "*V*" p))
               else if a == "Label" then set_b3 "??" (set_b2 "??" p)
               else addr_bytes a p)))).
Proof.
  intros Hr Ho. unfold Pass1_operand.
  change (Ascii.eqb "w" "-") with false. change (Ascii.eqb "w" "b") with false.
  change (Ascii.eqb "w" "r") with false. change (Ascii.eqb "w" "a") with false.
  change (Ascii.eqb "w" "p") with false. change (Ascii.eqb "w" "d") with false.
  change (Ascii.eqb "w" "w") with true.
  cbv iota zeta. rewrite (split_on_two r op Hr Ho).
  reflexivity.
Qed.

(** X20. Immediate data.  The instructions with a byte of immediate
    data are two bytes long, the opcode and the data: the byte that
    [Op_byte] reads, or the placeholder [??] when it reads none, which
    leaves the operand to Pass 2 as a symbol; no error is raised in
    Pass 1.  [MVI r,data] does the same with eight times the register
    code added to its opcode 06.  [LXI rp,data] is three bytes: 01 plus
    sixteen times the pair code, then the address that [Op_addr] reads,
    low byte first, [?? ??] for a label, and [*V*] with 00 00 for what
    it rejects. *)
Theorem immediate_encoding :
  forall (p : Parse.t) (op : string),
    statement op = true ->
    (forall m base,
        In (m, base) immediate_ops ->
        Pass1 (m ++ " " ++ op) p
        = Ok (assembled "" (hex2 base)
                (if Op_byte op == "Error" then "??" else Op_byte op) ""
                m op 2 (errors p) p))
    /\ (no_comma op = true ->
        (forall r,
            In r registers ->
            Pass1 ("MVI " ++ r ++ "," ++ op) p
            = Ok (assembled "" (hex2 (6 + 8 * reg_code r))
                    (if Op_byte op == "Error" then "??" else Op_byte op) ""
                    "MVI" (r ++ "," ++ op) 2 (errors p) p))
        /\ (forall r code a,
               In (r, code) register_pairs ->
               Op_addr op = Ok a ->
               Pass1 ("LXI " ++ r ++ "," ++ op) p
               = Ok (if a == "Error"
                     then assembled "*V*" (hex2 (1 + 16 * code)) "00" "00"
                            "LXI" (r ++ "," ++ op) 3 (errors p + 1) p
                     else if a == "Label"
                     then assembled "" (hex2 (1 + 16 * code)) "??" "??"
                            "LXI" (r ++ "," ++ op) 3 (errors p) p
                     else assembled "" (hex2 (1 + 16 * code))
                            (Py.slice 2 4 a) (Py.slice 0 2 a)
                            "LXI" (r ++ "," ++ op) 3 (errors p) p))).
Proof.
  intros p op Hop.
  pose proof (statement_inv op Hop) as (O1 & O2 & O3 & O4).
  split; [|intros Hc; split].
  - intros m base Hin. unfold immediate_ops in Hin.
    each_case;
      rewrite Pass1_plain_line by (reflexivity || assumption);
      match goal with
      | |- opcode_lookup ?u _ _ = _ =>
          let m := eval vm_compute in u in
          let e := eval vm_compute in (Instruction808x.opCode m) in
          change u with m;
          match e with
          | String ?c1 (String ?c2 (String ?t "")) =>
              rewrite (opcode_lookup_known m c1 c2 t)
                by (vm_compute; (reflexivity || discriminate))
          end
      end;
      rewrite Pass1_operand_b;
      destruct (Op_byte op == "Error"); reflexivity.
  - intros r Hin. unfold registers in Hin.
    each_case;
      match goal with
      | |- Pass1 (_ ++ ?r ++ _) _ = _ =>
          etransitivity;
          [exact (Pass1_plain_line "MVI" (r ++ "," ++ op) p eq_refl
                    (statement_after_comma r op eq_refl Hop))|]
      end;
      change (Py.upper "MVI") with "MVI";
      rewrite (opcode_lookup_known "MVI" "0" "6" "v")
        by (vm_compute; (reflexivity || discriminate));
      rewrite Pass1_operand_v by (reflexivity || assumption);
      rewrite O3;
      destruct (Op_byte op == "Error"); reflexivity.
  - intros r code a Hin Ha. unfold register_pairs in Hin.
    each_case;
      match goal with
      | |- Pass1 (_ ++ ?r ++ _) _ = _ =>
          etransitivity;
          [exact (Pass1_plain_line "LXI" (r ++ "," ++ op) p eq_refl
                    (statement_after_comma r op eq_refl Hop))|]
      end;
      change (Py.upper "LXI") with "LXI";
      rewrite (opcode_lookup_known "LXI" "0" "1" "w")
        by (vm_compute; (reflexivity || discriminate));
      rewrite Pass1_operand_w by (reflexivity || assumption);
      rewrite O3, Ha;
      match goal with
      | |- context [Op_regpr ?r] =>
          let v := eval vm_compute in (Op_regpr r) in
          change (Op_regpr r) with v
      end;
      match goal with
      | |- context [?n =? -1] =>
          let v := eval vm_compute in (n =? -1) in
          change (n =? -1) with v
      end;
      cbv iota; unfold add_to_b1; all_fields;
      change (Py.int 16 "01") with (Ok 1 : result Z);
      cbn [bind];
      (destruct (a == "Error"); [|destruct (a == "Label")]); reflexivity.
Qed.

Lemma immediate_encoding_witness :
  statement "0FFH" = true
  /\ no_comma "0FFH" = true
  /\ Pass1 ("ADI" ++ " " ++ "0FFH") Parse.init
     = Ok (assembled "" (hex2 198)
             (if Op_byte "0FFH" == "Error" then "??" else Op_byte "0FFH") ""
             "ADI" "0FFH" 2 (errors Parse.init) Parse.init)
  /\ Pass1 ("MVI " ++ "A" ++ "," ++ "0FFH") Parse.init
     = Ok (assembled "" (hex2 (6 + 8 * reg_code "A"))
             (if Op_byte "0FFH" == "Error" then "??" else Op_byte "0FFH") ""
             "MVI" ("A" ++ "," ++ "0FFH") 2 (errors Parse.init) Parse.init).
Proof.
  assert (S : statement "0FFH" = true) by reflexivity.
  assert (C : no_comma "0FFH" = true) by reflexivity.
  split; [exact S|]. split; [exact C|].
  destruct (immediate_encoding Parse.init "0FFH" S) as (H1 & H2).
  split.
  - apply H1. cbn; tauto.
  - apply (proj1 (H2 C)). cbn; tauto.
Defined.

(** ** The value of an [EQU] line *)

Lemma digit_is_plain c :
  hexdig c = true ->
  Py.isspace c = false /\ statement_char c = true
  /\ Ascii.eqb c "+" = false /\ Ascii.eqb c "-" = false
  /\ Ascii.eqb c "*" = false /\ Ascii.eqb c "/" = false.
Proof.
  destruct c as [[] [] [] [] [] [] [] []];
    vm_compute; intros H; first [discriminate H | repeat split].
Qed.

Lemma literal_chars s suffix base :
  In (suffix, base) radixes ->
  all_chars (digit_in base) s = true ->
  all_chars
    (fun c => negb (Py.isspace c) && statement_char c
              && negb (Ascii.eqb c "+") && negb (Ascii.eqb c "-")
              && negb (Ascii.eqb c "*") && negb (Ascii.eqb c "/"))
    (s ++ suffix) = true.
Proof.
  intros Hin Hs. rewrite all_chars_app.
  apply andb_true_iff. split.
  - eapply all_chars_weaken; [|exact Hs].
    intros c Hc.
    assert (Hb : base <= 16).
    { unfold radixes in Hin. cbn [In] in Hin.
      destruct Hin as [Hin | [Hin | [Hin | [Hin | []]]]];
        inversion Hin; lia. }
    destruct (digit_is_plain c (digit_in_16 base c Hb Hc))
      as (H1 & H2 & H3 & H4 & H5 & H6).
    now rewrite H1, H2, H3, H4, H5, H6.
  - unfold radixes in Hin. cbn [In] in Hin.
    destruct Hin as [Hin | [Hin | [Hin | [Hin | []]]]];
      inversion Hin; reflexivity.
Qed.

Lemma literal_is_statement s suffix base :
  In (suffix, base) radixes ->
  starts_with_digit s = true ->
  all_chars (digit_in base) s = true ->
  statement (s ++ suffix) = true
  /\ (forall a : ascii,
         In a ["+"; "-"; "*"; "/"]%char ->
         Py.find (String a "") (s ++ suffix) = -1).
Proof.
  intros Hin Hd Hs.
  pose proof (literal_chars s suffix base Hin Hs) as C.
  assert (Hne : s ++ suffix <> "").
  { destruct s; [discriminate Hd | discriminate]. }
  assert (W : all_chars (fun c => negb (Py.isspace c)) (s ++ suffix) = true).
  { eapply all_chars_weaken; [|exact C].
    intros c Hc. rewrite !andb_true_iff in Hc. tauto. }
  split.
  - unfold statement.
    rewrite (lstrip_word _ Hne W), (rstrip_word _ W), !String.eqb_refl.
    replace (s ++ suffix == "") with false
      by (symmetry; now apply String.eqb_neq).
    replace (all_chars statement_char (s ++ suffix)) with true; [reflexivity|].
    symmetry. eapply all_chars_weaken; [|exact C].
    intros c Hc. rewrite !andb_true_iff in Hc. tauto.
  - intros a Ha. apply find_char_absent.
    eapply all_chars_weaken; [|exact C].
    intros c Hc. rewrite !andb_true_iff, !negb_true_iff in Hc.
    cbn [In] in Ha. apply negb_true_iff.
    destruct Ha as [<- | [<- | [<- | [<- | []]]]]; tauto.
Qed.

Lemma hex4_is_number v :
  0 <= v <= 65535 ->
  (hex4 v == "Error") = false /\ (hex4 v == "Label") = false.
Proof.
  intros Hv. pose proof (hex_address v Hv) as H. fold (hex4 v) in H.
  apply hex_word_inv in H. destruct H as [L _].
  split; apply String.eqb_neq; intros E; rewrite E in L; discriminate L.
Qed.

(** The operand check of [EQU] on a literal. *)
Lemma Pass1_operand_equ s suffix base q :
  In (suffix, base) radixes ->
  starts_with_digit s = true ->
  all_chars (digit_in base) s = true ->
  numeral base 0 s <= 65535 ->
  Pass1_operand "e" (s ++ suffix) q
  = (q <- pop_symbol q ;;
     Ok (set_b1 ""
           (set_oper (Py.upper (s ++ suffix))
              (set_symbols
                 (symbols q ++ [(label q, VInt (numeral base 0 s))])%list q)))).
Proof.
  intros Hin Hd Hs Hv.
  destruct (literal_values_core s suffix base Hin Hd Hs)
    as (V0 & _ & Va & _ & Vr).
  destruct (literal_is_statement s suffix base Hin Hd Hs) as [_ F].
  replace (numeral base 0 s <=? 65535) with true in Va
    by (symmetry; now apply Z.leb_le).
  destruct (hex4_is_number (numeral base 0 s) ltac:(lia)) as [N1 N2].
  unfold Pass1_operand.
  change (Ascii.eqb "e" "-") with false. change (Ascii.eqb "e" "b") with false.
  change (Ascii.eqb "e" "r") with false. change (Ascii.eqb "e" "a") with false.
  change (Ascii.eqb "e" "p") with false. change (Ascii.eqb "e" "d") with false.
  change (Ascii.eqb "e" "w") with false. change (Ascii.eqb "e" "m") with false.
  change (Ascii.eqb "e" "v") with false. change (Ascii.eqb "e" "i") with false.
  change (Ascii.eqb "e" "e") with true.
  cbv iota.
  unfold equ_expr.
  rewrite (F "+"%char), (F "-"%char), (F "*"%char), (F "/"%char)
    by (cbn [In]; tauto).
  change (0 <? -1) with false. cbv iota.
  rewrite Va. cbn [bind]. rewrite N1, N2.
  destruct (pop_symbol q) as [q'|]; [|reflexivity].
  cbn [bind]. rewrite Vr. reflexivity.
Qed.

Lemma check_duplicate_symbols q :
  symbols (check_duplicate q) = symbols q
  /\ label (check_duplicate q) = label q
  /\ pc (check_duplicate q) = pc q
  /\ errors q <= errors (check_duplicate q)
  /\ comment (check_duplicate q) = comment q
  /\ bytes (check_duplicate q) = bytes q
  /\ long (check_duplicate q) = long q.
Proof.
  unfold check_duplicate.
  destruct (check_duplicate_effect_fold (symbols q) q)
    as (_ & D2 & D3 & D4 & D5 & D6 & _ & D8).
  cbv zeta in *. repeat split; try assumption.
  - destruct D8 as [[D8 _] | [D8 _]]; lia.
  - apply check_duplicate_long_fold.
Qed.

(** X21. [NAME: EQU literal], with a literal up to 65535, gives NAME the
    value of the literal: the entry that the label made with the program
    counter is replaced.  The line emits nothing and raises no error of
    its own.  Without a label the line replaces the last entry of the
    symbol table by one with an empty name, and ends the run with an
    [IndexError] when the table is empty. *)
Theorem equ_defines_value :
  forall (lab s suffix cmt : string) (base : Z) (p : Parse.t),
    (lab = "" \/ label_name lab = true) ->
    In (suffix, base) radixes ->
    starts_with_digit s = true ->
    all_chars (digit_in base) s = true ->
    numeral base 0 s <= 65535 ->
    (cmt = "" \/ exists c, cmt = String ";" c /\ comment_text c = true) ->
    let line := source_line lab "EQU" (s ++ suffix) cmt in
    (lab = "" -> symbols p = [] -> Pass1 line p = Raise IndexError)
    /\ (lab <> "" \/ symbols p <> [] ->
        exists p',
          Pass1 line p = Ok p'
          /\ symbols p'
             = ((if lab == "" then removelast (symbols p) else symbols p)
                ++ [(lab, VInt (numeral base 0 s))])%list
          /\ label p' = lab /\ mne p' = "EQU" /\ comment p' = cmt
          /\ b1 p' = "" /\ long p' = "" /\ bytes p' = 0 /\ pc p' = pc p
          /\ errors p <= errors p'
          /\ (lab = "" -> errors p' = errors p /\ err p' = "")).
Proof.
  intros lab s suffix cmt base p Hlab Hin Hd Hs Hv Hcmt line.
  destruct (literal_is_statement s suffix base Hin Hd Hs) as [St _].
  unfold line.
  rewrite (line_anatomy_core lab "EQU" (s ++ suffix) cmt p Hlab eq_refl
             (or_intror St) Hcmt).
  change (Py.upper "EQU") with "EQU".
  rewrite (opcode_lookup_known "EQU" "0" "0" "e")
    by (vm_compute; (reflexivity || discriminate)).
  rewrite (Pass1_operand_equ s suffix base _ Hin Hd Hs Hv).
  destruct Hlab as [-> | Hlab].
  - (* no label *)
    cbn [String.eqb]. unfold pop_symbol, counted. all_fields.
    unfold reset. all_fields.
    split.
    + intros _ E. rewrite E. reflexivity.
    + intros [C | C]; [congruence|].
      destruct (symbols p) as [|x l] eqn:E; [congruence|].
      cbn [bind]. eexists. split; [reflexivity|]. all_fields.
      repeat split; try reflexivity; lia.
  - (* a label *)
    pose proof (label_name_inv lab Hlab) as (L1 & _).
    replace (lab == "") with false by (symmetry; now apply String.eqb_neq).
    split; [intros E; congruence|]. intros _.
    unfold labelled. cbv zeta.
    destruct (check_duplicate_symbols (set_label lab (counted cmt p)))
      as (D1 & D2 & D3 & D4 & D5 & D6 & D7).
    revert D1 D2 D3 D4 D5 D6 D7. unfold counted, reset. all_fields.
    generalize (check_duplicate
                  (set_label lab
                     (set_comment cmt
                        (set_ln (ln p + 1)
                           (mk "" (ln p) (pc p) "" "" "" "" "" "" "" 0 ""
                              (errors p) (symbols p)))))).
    intros d D1 D2 D3 D4 D5 D6 D7.
    unfold pop_symbol. all_fields. rewrite D1, D2.
    destruct (symbols p ++ [(lab, VInt (pc d))])%list eqn:E;
      [destruct (symbols p); discriminate E|].
    rewrite <- E. cbn [bind]. all_fields. rewrite removelast_last.
    eexists. split; [reflexivity|]. all_fields.
    rewrite D2, D3.
    repeat (split; [first [reflexivity | assumption]|]).
    intros E0. congruence.
Qed.

Lemma equ_defines_value_witness :
  exists p',
    Pass1 (source_line "TOP" "EQU" ("0FF00" ++ "H") "") Parse.init = Ok p'
    /\ symbols p'
       = ((if "TOP" == "" then removelast (symbols Parse.init)
           else symbols Parse.init)
          ++ [("TOP", VInt (numeral 16 0 "0FF00"))])%list
    /\ label p' = "TOP" /\ mne p' = "EQU" /\ comment p' = ""
    /\ b1 p' = "" /\ long p' = "" /\ bytes p' = 0 /\ pc p' = pc Parse.init
    /\ errors Parse.init <= errors p'
    /\ ("TOP" = "" -> errors p' = errors Parse.init /\ err p' = "").
Proof.
  apply (equ_defines_value "TOP" "0FF00" "H" "" 16 Parse.init).
  - right. reflexivity.
  - cbn; tauto.
  - reflexivity.
  - reflexivity.
  - vm_compute. discriminate.
  - left. reflexivity.
  - left. discriminate.
Defined.

(** ** The offset of a reference *)

Lemma split_on_once (sep : ascii) k r op :
  all_chars (fun c => negb (Ascii.eqb c sep)) r = true ->
  all_chars (fun c => negb (Ascii.eqb c sep)) op = true ->
  Py.split_on sep (Some (S k)) (r ++ String sep op) = [r; op].
Proof.
  unfold Py.split_on. intros Hr Ho.
  assert (G : forall cur,
             Py.split_on_aux sep (Some (S k)) cur (r ++ String sep op)
             = [cur ++ r; op]).
  { induction r as [|c r IH]; intros cur.
    - cbn [append Py.split_on_aux]. rewrite Ascii.eqb_refl.
      rewrite (split_on_last sep op (Some k) "" Ho), app_empty_r.
      reflexivity.
    - cbn [all_chars] in Hr. apply andb_true_iff in Hr as [Hc Hr].
      apply negb_true_iff in Hc.
      cbn [append Py.split_on_aux]. rewrite Hc, (IH Hr).
      unfold Py.snoc. now rewrite app_assoc_str. }
  exact (G "").
Qed.

Lemma unsigned_name_inv s :
  unsigned_name s = true ->
  s <> ""
  /\ all_chars (fun c => negb (Ascii.eqb c "+")) s = true
  /\ all_chars (fun c => negb (Ascii.eqb c "-")) s = true.
Proof.
  unfold unsigned_name. rewrite andb_true_iff, negb_true_iff.
  intros [H1 H2]. apply String.eqb_neq in H1.
  split; [exact H1|].
  split; (eapply all_chars_weaken; [|exact H2]);
    intros c Hc; apply andb_true_iff in Hc; tauto.
Qed.

Lemma decimal_inv s :
  decimal s = true ->
  s <> "" /\ all_chars (digit_in 10) s = true /\ unsigned_name s = true.
Proof.
  unfold decimal. rewrite andb_true_iff, negb_true_iff.
  intros [H1 H2]. pose proof H1 as H1'. apply String.eqb_neq in H1.
  split; [exact H1|]. split; [exact H2|].
  unfold unsigned_name. rewrite H1'. cbn [negb andb].
  eapply all_chars_weaken; [|exact H2].
  intros c Hc.
  destruct (digit_is_plain c (digit_in_16 10 c ltac:(lia) Hc))
    as (_ & _ & P & M & _).
  now rewrite P, M.
Qed.

Lemma find_sign_behind (a : ascii) name rest :
  name <> "" ->
  all_chars (fun c => negb (Ascii.eqb c a)) name = true ->
  (0 <? Py.find (String a "") (name ++ String a rest)) = true.
Proof.
  intros Hne H. rewrite (find_char_behind a name rest H).
  apply Z.ltb_lt. unfold Py.len. destruct name; [congruence | cbn; lia].
Qed.

Lemma find_sign_absent (a : ascii) s :
  all_chars (fun c => negb (Ascii.eqb c a)) s = true ->
  (0 <? Py.find (String a "") s) = false.
Proof.
  intros H. now rewrite (find_char_absent a s H).
Qed.

(** X22. The target of a reference is split on one sign.  [NAME+n] and
    [NAME-n] with a decimal [n] give the name and the offset [n] or
    [-n]; a name without sign gives the offset 0.  [NAME-X] with an [X]
    that is no number takes, in place of a name, the two parts of the
    last reference with a plus sign that Pass 2 has seen, and ends the
    run with a [NameError] when there has been none. *)
Theorem label_offset_reads :
  forall (name ds : string) (g : Asm80.globals),
    unsigned_name name = true ->
    decimal ds = true ->
    Asm80.label_offset (name ++ "+" ++ ds) g
    = Ok (name, numeral 10 0 ds, Asm80.set_label_plus [name; ds] g)
    /\ Asm80.label_offset (name ++ "-" ++ ds) g
       = Ok (name, - numeral 10 0 ds, g)
    /\ Asm80.label_offset name g = Ok (name, 0, g)
    /\ (forall other e,
           unsigned_name other = true ->
           Py.int 10 other = Raise e ->
           Asm80.label_offset (name ++ "-" ++ other) g
           = match Asm80.label_plus g with
             | None => Raise NameError
             | Some lp =>
                 l0 <- Py.item 0 lp ;;
                 l1 <- Py.item 1 lp ;;
                 Ok (l0 ++ l1, 0, g)
             end).
Proof.
  intros name ds g Hn Hd.
  apply unsigned_name_inv in Hn. destruct Hn as (N0 & Np & Nm).
  apply decimal_inv in Hd. destruct Hd as (D0 & Dd & Du).
  apply unsigned_name_inv in Du. destruct Du as (_ & Dp & Dm).
  pose proof (int_numeral 10 ds ltac:(cbn [In]; tauto) Dd D0) as Hint.
  assert (Minus : forall rest,
             all_chars (fun c => negb (Ascii.eqb c "+")) rest = true ->
             all_chars (fun c => negb (Ascii.eqb c "+"))
               (name ++ "-" ++ rest) = true).
  { intros rest Hr. rewrite !all_chars_app, Np, Hr. reflexivity. }
  repeat split.
  - unfold Asm80.label_offset.
    change (name ++ "+" ++ ds) with (name ++ String "+" ds).
    rewrite (find_sign_behind "+" name ds N0 Np).
    cbv zeta. rewrite (split_on_once "+" 1 name ds Np Dp).
    cbn [Py.item nth_error bind]. rewrite Hint. cbn [bind].
    rewrite (find_sign_absent "-" name Nm). reflexivity.
  - unfold Asm80.label_offset.
    rewrite (find_sign_absent "+" _ (Minus ds Dp)). cbn [bind].
    change (name ++ "-" ++ ds) with (name ++ String "-" ds).
    rewrite (find_sign_behind "-" name ds N0 Nm).
    cbv zeta. rewrite (split_on_once "-" 1 name ds Nm Dm).
    cbn [Py.item nth_error bind]. rewrite Hint. reflexivity.
  - unfold Asm80.label_offset.
    rewrite (find_sign_absent "+" name Np). cbn [bind].
    rewrite (find_sign_absent "-" name Nm). reflexivity.
  - intros other e Ho He.
    apply unsigned_name_inv in Ho. destruct Ho as (_ & Op & Om).
    unfold Asm80.label_offset.
    rewrite (find_sign_absent "+" _ (Minus other Op)). cbn [bind].
    change (name ++ "-" ++ other) with (name ++ String "-" other).
    rewrite (find_sign_behind "-" name other N0 Nm).
    cbv zeta. rewrite (split_on_once "-" 1 name other Nm Om).
    cbn [Py.item nth_error bind]. rewrite He. reflexivity.
Qed.

Lemma label_offset_reads_witness :
  Asm80.label_offset ("TABLE" ++ "+" ++ "16") Asm80.start
  = Ok ("TABLE", numeral 10 0 "16",
        Asm80.set_label_plus ["TABLE"; "16"] Asm80.start)
  /\ Asm80.label_offset ("TABLE" ++ "-" ++ "16") Asm80.start
     = Ok ("TABLE", - numeral 10 0 "16", Asm80.start)
  /\ Asm80.label_offset "TABLE" Asm80.start = Ok ("TABLE", 0, Asm80.start)
  /\ Asm80.label_offset ("TABLE" ++ "-" ++ "END") Asm80.start
     = Raise NameError.
Proof.
  destruct (label_offset_reads "TABLE" "16" Asm80.start eq_refl eq_refl)
    as (H1 & H2 & H3 & H4).
  split; [exact H1|]. split; [exact H2|]. split; [exact H3|].
  exact (H4 "END" ValueError eq_refl eq_refl).
Defined.

(** * Whole lines: data lists, labels and placeholders *)

(** ** The operands of a [DB] list *)




(** ** The label of a line and its earlier definitions *)










(** ** The operands of a list, and the constants among them *)











(** A rejected operand beside a legal one: the row is written from the
    data list alone, so [DB 256,1] is assembled as the one byte [01]
    without an error code, and the hex file is written. *)
Example db_list_drops_rejected_operand :
  Asm80.listing_rows (file [" DB 256,1"])
  = Ok [Asm80.header;
        "       1  0000 01                 DB   256,1      " ++ Py.nl]
  /\ errors_and_hex (file [" DB 256,1"])
     = Ok (0, Some [":0100000001FE"; ":00000001FF"]).
Proof.
  split; vm_compute; reflexivity.
Qed.

(** ** A label that is defined again *)




(** ** The split of a reference, and rows it ends the run on *)









